(** * The DFU bootloader core of bootloader-fw-project, embedded in Rocq

    The development follows the advanced bootloader (the translation
    unit that defines [bootloader_init], [bootloader_receive_packet],
    [bootloader_process_cycle] and their static helpers), the platform
    doubles of [platform.c] and the constants of [bootloader.h].

    Conventions of the embedding:
    - [uint32_t] values are [Z] with the wrap-around [wrap32] written at
      every arithmetic step that can leave the range; [size_t] is taken
      as 64 bits wide ([wrap_size]);
    - [int head, tail, count] are [Z] (they stay within 0..16);
    - the global [bootloader] object, the static [tick] of
      [get_system_tick], the flash double and the frames printed by
      [send_ack_packet]/[send_nack_packet] make up one [machine];
    - every C function that (transitively) calls the recursive
      [enter_state] takes a [fuel] and returns [option]: [None] means
      that the call has not returned within [fuel] nested activations or
      loop iterations;
    - diagnostic [printf]s are not modelled. *)

From Stdlib Require Import ZArith Lia Bool List.
From stdpp Require Import list.
Import ListNotations.
Open Scope Z_scope.

(** ** bootloader.h *)

Definition MAX_PACKET_SIZE : Z := 256.
Definition BUFFER_SIZE : Z := 16.
Definition APPLICATION_START : Z := 0x08008000.
Definition MAX_APPLICATION_SIZE : Z := 1024 * 1024.

Inductive bootloader_state_t : Type :=
| STATE_IDLE
| STATE_DFU_ACTIVE
| STATE_DFU_VERIFY
| STATE_RUNNING_APP
| STATE_EMERGENCY_RECOVERY
| STATE_ERROR.

Definition state_eqb (a b : bootloader_state_t) : bool :=
  match a, b with
  | STATE_IDLE, STATE_IDLE
  | STATE_DFU_ACTIVE, STATE_DFU_ACTIVE
  | STATE_DFU_VERIFY, STATE_DFU_VERIFY
  | STATE_RUNNING_APP, STATE_RUNNING_APP
  | STATE_EMERGENCY_RECOVERY, STATE_EMERGENCY_RECOVERY
  | STATE_ERROR, STATE_ERROR => true
  | _, _ => false
  end.

(** [packet_type_t]: the type byte of a packet is compared with these
    enumerators as an integer. *)
Definition PKT_START_SESSION : Z := 0x01.
Definition PKT_DATA : Z := 0x02.
Definition PKT_END_SESSION : Z := 0x03.
Definition PKT_ABORT : Z := 0x04.
Definition PKT_PING : Z := 0x05.
Definition PKT_GET_STATUS : Z := 0x06.
Definition PKT_JUMP_APP : Z := 0x07.
Definition PKT_EMERGENCY_RESET : Z := 0x08.
Definition PKT_GET_VERSION : Z := 0x09.

(** ** Machine integers *)

Definition wrap32 (x : Z) : Z := x mod 2 ^ 32.
Definition wrap_size (x : Z) : Z := x mod 2 ^ 64.

(** ** The data of the core *)

Record app_validation_t : Type := {
  av_valid : bool;
  calculated_crc : Z;
  av_expected_crc : Z;
  size : Z
}.

(** A queue slot. [data] lists the bytes of the slot from [data[0]] on;
    it has [MAX_PACKET_SIZE] entries unless a copy ran past the end of
    the array, in which case the list keeps every byte that was written. *)
Record packet_t : Type := {
  data : list Z;
  length : Z;
  valid : bool
}.

Record bootloader_t : Type := {
  state : bootloader_state_t;
  previous_state : bootloader_state_t;
  buffer : list packet_t;
  head : Z;
  tail : Z;
  count : Z;
  expected_seq : Z;
  bytes_received : Z;
  total_size : Z;
  expected_crc : Z;
  session_active : bool;
  packets_processed : Z;
  packets_dropped : Z;
  error_count : Z;
  recovery_attempts : Z;
  app_launch_attempts : Z;
  state_entry_time : Z;
  last_activity_time : Z;
  session_timeout_ms : Z;
  app_validation_timeout_ms : Z;
  app_validation : app_validation_t;
  force_bootloader_mode : bool
}.

(** Field updates, one per field of the struct. *)
Definition set_state v (b : bootloader_t) : bootloader_t :=
  Build_bootloader_t v (previous_state b) (buffer b) (head b) (tail b) (count b) (expected_seq b)
    (bytes_received b) (total_size b) (expected_crc b) (session_active b) (packets_processed b)
    (packets_dropped b) (error_count b) (recovery_attempts b) (app_launch_attempts b)
    (state_entry_time b) (last_activity_time b) (session_timeout_ms b)
    (app_validation_timeout_ms b) (app_validation b) (force_bootloader_mode b).
Definition set_previous_state v (b : bootloader_t) : bootloader_t :=
  Build_bootloader_t (state b) v (buffer b) (head b) (tail b) (count b) (expected_seq b) (bytes_received b)
    (total_size b) (expected_crc b) (session_active b) (packets_processed b) (packets_dropped b)
    (error_count b) (recovery_attempts b) (app_launch_attempts b) (state_entry_time b)
    (last_activity_time b) (session_timeout_ms b) (app_validation_timeout_ms b)
    (app_validation b) (force_bootloader_mode b).
Definition set_buffer v (b : bootloader_t) : bootloader_t :=
  Build_bootloader_t (state b) (previous_state b) v (head b) (tail b) (count b) (expected_seq b)
    (bytes_received b) (total_size b) (expected_crc b) (session_active b) (packets_processed b)
    (packets_dropped b) (error_count b) (recovery_attempts b) (app_launch_attempts b)
    (state_entry_time b) (last_activity_time b) (session_timeout_ms b)
    (app_validation_timeout_ms b) (app_validation b) (force_bootloader_mode b).
Definition set_head v (b : bootloader_t) : bootloader_t :=
  Build_bootloader_t (state b) (previous_state b) (buffer b) v (tail b) (count b) (expected_seq b)
    (bytes_received b) (total_size b) (expected_crc b) (session_active b) (packets_processed b)
    (packets_dropped b) (error_count b) (recovery_attempts b) (app_launch_attempts b)
    (state_entry_time b) (last_activity_time b) (session_timeout_ms b)
    (app_validation_timeout_ms b) (app_validation b) (force_bootloader_mode b).
Definition set_tail v (b : bootloader_t) : bootloader_t :=
  Build_bootloader_t (state b) (previous_state b) (buffer b) (head b) v (count b) (expected_seq b)
    (bytes_received b) (total_size b) (expected_crc b) (session_active b) (packets_processed b)
    (packets_dropped b) (error_count b) (recovery_attempts b) (app_launch_attempts b)
    (state_entry_time b) (last_activity_time b) (session_timeout_ms b)
    (app_validation_timeout_ms b) (app_validation b) (force_bootloader_mode b).
Definition set_count v (b : bootloader_t) : bootloader_t :=
  Build_bootloader_t (state b) (previous_state b) (buffer b) (head b) (tail b) v (expected_seq b)
    (bytes_received b) (total_size b) (expected_crc b) (session_active b) (packets_processed b)
    (packets_dropped b) (error_count b) (recovery_attempts b) (app_launch_attempts b)
    (state_entry_time b) (last_activity_time b) (session_timeout_ms b)
    (app_validation_timeout_ms b) (app_validation b) (force_bootloader_mode b).
Definition set_expected_seq v (b : bootloader_t) : bootloader_t :=
  Build_bootloader_t (state b) (previous_state b) (buffer b) (head b) (tail b) (count b) v (bytes_received b)
    (total_size b) (expected_crc b) (session_active b) (packets_processed b) (packets_dropped b)
    (error_count b) (recovery_attempts b) (app_launch_attempts b) (state_entry_time b)
    (last_activity_time b) (session_timeout_ms b) (app_validation_timeout_ms b)
    (app_validation b) (force_bootloader_mode b).
Definition set_bytes_received v (b : bootloader_t) : bootloader_t :=
  Build_bootloader_t (state b) (previous_state b) (buffer b) (head b) (tail b) (count b) (expected_seq b) v
    (total_size b) (expected_crc b) (session_active b) (packets_processed b) (packets_dropped b)
    (error_count b) (recovery_attempts b) (app_launch_attempts b) (state_entry_time b)
    (last_activity_time b) (session_timeout_ms b) (app_validation_timeout_ms b)
    (app_validation b) (force_bootloader_mode b).
Definition set_total_size v (b : bootloader_t) : bootloader_t :=
  Build_bootloader_t (state b) (previous_state b) (buffer b) (head b) (tail b) (count b) (expected_seq b)
    (bytes_received b) v (expected_crc b) (session_active b) (packets_processed b)
    (packets_dropped b) (error_count b) (recovery_attempts b) (app_launch_attempts b)
    (state_entry_time b) (last_activity_time b) (session_timeout_ms b)
    (app_validation_timeout_ms b) (app_validation b) (force_bootloader_mode b).
Definition set_expected_crc v (b : bootloader_t) : bootloader_t :=
  Build_bootloader_t (state b) (previous_state b) (buffer b) (head b) (tail b) (count b) (expected_seq b)
    (bytes_received b) (total_size b) v (session_active b) (packets_processed b)
    (packets_dropped b) (error_count b) (recovery_attempts b) (app_launch_attempts b)
    (state_entry_time b) (last_activity_time b) (session_timeout_ms b)
    (app_validation_timeout_ms b) (app_validation b) (force_bootloader_mode b).
Definition set_session_active v (b : bootloader_t) : bootloader_t :=
  Build_bootloader_t (state b) (previous_state b) (buffer b) (head b) (tail b) (count b) (expected_seq b)
    (bytes_received b) (total_size b) (expected_crc b) v (packets_processed b)
    (packets_dropped b) (error_count b) (recovery_attempts b) (app_launch_attempts b)
    (state_entry_time b) (last_activity_time b) (session_timeout_ms b)
    (app_validation_timeout_ms b) (app_validation b) (force_bootloader_mode b).
Definition set_packets_processed v (b : bootloader_t) : bootloader_t :=
  Build_bootloader_t (state b) (previous_state b) (buffer b) (head b) (tail b) (count b) (expected_seq b)
    (bytes_received b) (total_size b) (expected_crc b) (session_active b) v (packets_dropped b)
    (error_count b) (recovery_attempts b) (app_launch_attempts b) (state_entry_time b)
    (last_activity_time b) (session_timeout_ms b) (app_validation_timeout_ms b)
    (app_validation b) (force_bootloader_mode b).
Definition set_packets_dropped v (b : bootloader_t) : bootloader_t :=
  Build_bootloader_t (state b) (previous_state b) (buffer b) (head b) (tail b) (count b) (expected_seq b)
    (bytes_received b) (total_size b) (expected_crc b) (session_active b) (packets_processed b)
    v (error_count b) (recovery_attempts b) (app_launch_attempts b) (state_entry_time b)
    (last_activity_time b) (session_timeout_ms b) (app_validation_timeout_ms b)
    (app_validation b) (force_bootloader_mode b).
Definition set_error_count v (b : bootloader_t) : bootloader_t :=
  Build_bootloader_t (state b) (previous_state b) (buffer b) (head b) (tail b) (count b) (expected_seq b)
    (bytes_received b) (total_size b) (expected_crc b) (session_active b) (packets_processed b)
    (packets_dropped b) v (recovery_attempts b) (app_launch_attempts b) (state_entry_time b)
    (last_activity_time b) (session_timeout_ms b) (app_validation_timeout_ms b)
    (app_validation b) (force_bootloader_mode b).
Definition set_recovery_attempts v (b : bootloader_t) : bootloader_t :=
  Build_bootloader_t (state b) (previous_state b) (buffer b) (head b) (tail b) (count b) (expected_seq b)
    (bytes_received b) (total_size b) (expected_crc b) (session_active b) (packets_processed b)
    (packets_dropped b) (error_count b) v (app_launch_attempts b) (state_entry_time b)
    (last_activity_time b) (session_timeout_ms b) (app_validation_timeout_ms b)
    (app_validation b) (force_bootloader_mode b).
Definition set_app_launch_attempts v (b : bootloader_t) : bootloader_t :=
  Build_bootloader_t (state b) (previous_state b) (buffer b) (head b) (tail b) (count b) (expected_seq b)
    (bytes_received b) (total_size b) (expected_crc b) (session_active b) (packets_processed b)
    (packets_dropped b) (error_count b) (recovery_attempts b) v (state_entry_time b)
    (last_activity_time b) (session_timeout_ms b) (app_validation_timeout_ms b)
    (app_validation b) (force_bootloader_mode b).
Definition set_state_entry_time v (b : bootloader_t) : bootloader_t :=
  Build_bootloader_t (state b) (previous_state b) (buffer b) (head b) (tail b) (count b) (expected_seq b)
    (bytes_received b) (total_size b) (expected_crc b) (session_active b) (packets_processed b)
    (packets_dropped b) (error_count b) (recovery_attempts b) (app_launch_attempts b) v
    (last_activity_time b) (session_timeout_ms b) (app_validation_timeout_ms b)
    (app_validation b) (force_bootloader_mode b).
Definition set_last_activity_time v (b : bootloader_t) : bootloader_t :=
  Build_bootloader_t (state b) (previous_state b) (buffer b) (head b) (tail b) (count b) (expected_seq b)
    (bytes_received b) (total_size b) (expected_crc b) (session_active b) (packets_processed b)
    (packets_dropped b) (error_count b) (recovery_attempts b) (app_launch_attempts b)
    (state_entry_time b) v (session_timeout_ms b) (app_validation_timeout_ms b)
    (app_validation b) (force_bootloader_mode b).
Definition set_session_timeout_ms v (b : bootloader_t) : bootloader_t :=
  Build_bootloader_t (state b) (previous_state b) (buffer b) (head b) (tail b) (count b) (expected_seq b)
    (bytes_received b) (total_size b) (expected_crc b) (session_active b) (packets_processed b)
    (packets_dropped b) (error_count b) (recovery_attempts b) (app_launch_attempts b)
    (state_entry_time b) (last_activity_time b) v (app_validation_timeout_ms b)
    (app_validation b) (force_bootloader_mode b).
Definition set_app_validation_timeout_ms v (b : bootloader_t) : bootloader_t :=
  Build_bootloader_t (state b) (previous_state b) (buffer b) (head b) (tail b) (count b) (expected_seq b)
    (bytes_received b) (total_size b) (expected_crc b) (session_active b) (packets_processed b)
    (packets_dropped b) (error_count b) (recovery_attempts b) (app_launch_attempts b)
    (state_entry_time b) (last_activity_time b) (session_timeout_ms b) v (app_validation b)
    (force_bootloader_mode b).
Definition set_app_validation v (b : bootloader_t) : bootloader_t :=
  Build_bootloader_t (state b) (previous_state b) (buffer b) (head b) (tail b) (count b) (expected_seq b)
    (bytes_received b) (total_size b) (expected_crc b) (session_active b) (packets_processed b)
    (packets_dropped b) (error_count b) (recovery_attempts b) (app_launch_attempts b)
    (state_entry_time b) (last_activity_time b) (session_timeout_ms b)
    (app_validation_timeout_ms b) v (force_bootloader_mode b).
Definition set_force_bootloader_mode v (b : bootloader_t) : bootloader_t :=
  Build_bootloader_t (state b) (previous_state b) (buffer b) (head b) (tail b) (count b) (expected_seq b)
    (bytes_received b) (total_size b) (expected_crc b) (session_active b) (packets_processed b)
    (packets_dropped b) (error_count b) (recovery_attempts b) (app_launch_attempts b)
    (state_entry_time b) (last_activity_time b) (session_timeout_ms b)
    (app_validation_timeout_ms b) (app_validation b) v.

(** ** Response frames and the machine *)

Inductive frame : Type :=
| ACK
| NACK (error_code : Z).

(** One [memcpy] into the flash array: offset, source bytes, count. *)
Definition flash_write : Type := Z * list Z * Z.

(** [bootloader]: the global object; [tick]: the static counter of
    [get_system_tick]; [flash_busy], [mock_flash]: the statics of
    platform.c, the array kept as the writes made to it, newest first
    ([flash_byte] reads it); [wire]: the frames sent so far, newest
    first. *)
Record machine : Type := {
  bootloader : bootloader_t;
  tick : Z;
  flash_busy : bool;
  mock_flash : list flash_write;
  wire : list frame
}.

Definition upd (f : bootloader_t -> bootloader_t) (m : machine) : machine :=
  {| bootloader := f (bootloader m); tick := tick m; flash_busy := flash_busy m;
     mock_flash := mock_flash m; wire := wire m |}.

Definition set_tick (t : Z) (m : machine) : machine :=
  {| bootloader := bootloader m; tick := t; flash_busy := flash_busy m;
     mock_flash := mock_flash m; wire := wire m |}.

Definition set_flash (busy : bool) (fl : list flash_write) (m : machine) : machine :=
  {| bootloader := bootloader m; tick := tick m; flash_busy := busy;
     mock_flash := fl; wire := wire m |}.

Definition emit (f : frame) (m : machine) : machine :=
  {| bootloader := bootloader m; tick := tick m; flash_busy := flash_busy m;
     mock_flash := mock_flash m; wire := f :: wire m |}.

(** A result that may not be there: [None] is a call that did not return. *)
Notation "x <- c1 ;; c2" :=
  (match c1 with Some x => c2 | None => None end)
  (at level 100, c1 at next level, right associativity).

(** ** platform.c *)

(** [mock_flash[a]]: the byte of the newest write that covers [a], or
    that of the initialiser [{0xFF}]. *)
Fixpoint flash_byte (fl : list flash_write) (a : Z) : Z :=
  match fl with
  | [] => if a =? 0 then 0xFF else 0
  | (offset, src, n) :: fl' =>
      if (offset <=? a) && (a <? offset + n)
      then nth (Z.to_nat (a - offset)) src 0
      else flash_byte fl' a
  end.

(** [memcpy(&mock_flash[offset], data, length)]. *)
Definition flash_memcpy (fl : list flash_write) (offset : Z) (src : list Z) (n : Z)
  : list flash_write :=
  (offset, src, n) :: fl.

Definition start_flash_write (address : Z) (src : list Z) (n : Z) (m : machine)
  : bool * machine :=
  if flash_busy m then (false, m)
  else
    let offset := Z.land address 0xFFFFF in
    (true, set_flash true (flash_memcpy (mock_flash m) offset src n) m).

(** The host's monotonic clock is the environment's: [elapsed_us] is the
    time since the write started, as [is_flash_operation_complete]
    computes it from [clock_gettime]. *)
Definition is_flash_operation_complete (elapsed_us : Z) (m : machine)
  : bool * machine :=
  if negb (flash_busy m) then (true, m)
  else
    let m := if 2000 <? elapsed_us then set_flash false (mock_flash m) m else m in
    (negb (flash_busy m), m).

Definition send_ack_packet (m : machine) : machine := emit ACK m.
Definition send_nack_packet (error_code : Z) (m : machine) : machine :=
  emit (NACK error_code) m.

(** ** The core *)

(** [static uint32_t tick = 0; return tick += 1000;] *)
Definition get_system_tick (m : machine) : Z * machine :=
  let t := wrap32 (tick m + 1000) in (t, set_tick t m).

Definition validate_state_transition (from to : bootloader_state_t) : bool :=
  match from with
  | STATE_IDLE =>
      state_eqb to STATE_DFU_ACTIVE || state_eqb to STATE_RUNNING_APP
      || state_eqb to STATE_EMERGENCY_RECOVERY || state_eqb to STATE_ERROR
  | STATE_DFU_ACTIVE =>
      state_eqb to STATE_DFU_VERIFY || state_eqb to STATE_IDLE
      || state_eqb to STATE_EMERGENCY_RECOVERY || state_eqb to STATE_ERROR
  | STATE_DFU_VERIFY =>
      state_eqb to STATE_RUNNING_APP || state_eqb to STATE_IDLE
      || state_eqb to STATE_EMERGENCY_RECOVERY || state_eqb to STATE_ERROR
  | STATE_RUNNING_APP =>
      state_eqb to STATE_IDLE || state_eqb to STATE_EMERGENCY_RECOVERY
      || state_eqb to STATE_ERROR
  | STATE_EMERGENCY_RECOVERY =>
      state_eqb to STATE_IDLE || state_eqb to STATE_ERROR
  | STATE_ERROR =>
      state_eqb to STATE_IDLE || state_eqb to STATE_EMERGENCY_RECOVERY
  end.

(** The part of [enter_state] below the validity check: record the
    previous state, stamp the entry time, run the entry action. *)
Definition enter_state_actions (new_state : bootloader_state_t) (m : machine)
  : machine :=
  let m := upd (fun b => set_previous_state (state b) b) m in
  let m := upd (set_state new_state) m in
  let '(t, m) := get_system_tick m in
  let m := upd (set_state_entry_time t) m in
  match new_state with
  | STATE_IDLE =>
      let m := upd (set_session_active false) m in
      let m := upd (set_expected_seq 0) m in
      upd (set_bytes_received 0) m
  | STATE_DFU_ACTIVE => m
  | STATE_DFU_VERIFY => m
  | STATE_RUNNING_APP =>
      upd (fun b => set_app_launch_attempts (wrap32 (app_launch_attempts b + 1)) b) m
  | STATE_EMERGENCY_RECOVERY =>
      let m := upd (fun b => set_recovery_attempts (wrap32 (recovery_attempts b + 1)) b) m in
      upd (set_force_bootloader_mode true) m
  | STATE_ERROR =>
      upd (fun b => set_error_count (wrap32 (error_count b + 1)) b) m
  end.

(** [enter_state]: an inadmissible transition re-enters with
    [STATE_ERROR]; [fuel] bounds the depth of that recursion. *)
Fixpoint enter_state (fuel : nat) (new_state : bootloader_state_t) (m : machine)
  : option machine :=
  match fuel with
  | O => None
  | S fuel' =>
      if negb (validate_state_transition (state (bootloader m)) new_state)
      then enter_state fuel' STATE_ERROR m
      else Some (enter_state_actions new_state m)
  end.

Definition handle_emergency_condition (fuel : nat) (m : machine) : option machine :=
  enter_state fuel STATE_EMERGENCY_RECOVERY m.

(** [memset(&bootloader, 0, sizeof(bootloader))] *)
Definition zero_packet : packet_t :=
  {| data := repeat 0 (Z.to_nat MAX_PACKET_SIZE); length := 0; valid := false |}.

Definition zero_bootloader : bootloader_t :=
  {| state := STATE_IDLE; previous_state := STATE_IDLE;
     buffer := repeat zero_packet (Z.to_nat BUFFER_SIZE);
     head := 0; tail := 0; count := 0;
     expected_seq := 0; bytes_received := 0; total_size := 0; expected_crc := 0;
     session_active := false;
     packets_processed := 0; packets_dropped := 0; error_count := 0;
     recovery_attempts := 0; app_launch_attempts := 0;
     state_entry_time := 0; last_activity_time := 0;
     session_timeout_ms := 0; app_validation_timeout_ms := 0;
     app_validation :=
       {| av_valid := false; calculated_crc := 0; av_expected_crc := 0; size := 0 |};
     force_bootloader_mode := false |}.

Definition bootloader_init (fuel : nat) (m : machine) : option machine :=
  let m := upd (fun _ => zero_bootloader) m in
  let m := upd (set_session_timeout_ms 30000) m in
  let m := upd (set_app_validation_timeout_ms 5000) m in
  let m := upd (set_force_bootloader_mode false) m in
  enter_state fuel STATE_IDLE m.

(** [memcpy(dst, src, n)] on a slot's byte array: the first [n] bytes of
    the result come from [src], the rest of [dst] stays.  For [n] up to
    [MAX_PACKET_SIZE] this is the array after the copy.  For a larger
    [n] the list records the bytes that the copy wrote past the end of
    the array; what those bytes overwrite in the object (the slot's
    [length] and [valid], the slots that follow, the fields after
    [buffer]) is not modelled, so for such a copy the list says what
    was written, not what memory holds afterwards. *)
Definition memcpy (dst src : list Z) (n : Z) : list Z :=
  firstn (Z.to_nat n) src ++ skipn (Z.to_nat n) dst.

Instance packet_inhabited : Inhabited packet_t := populate zero_packet.

(** [bootloader_receive_packet(data, length)]; [src] are the caller's
    bytes and [len] the length it passes. *)
Definition bootloader_receive_packet (fuel : nat) (src : list Z) (len : Z)
  (m : machine) : option (bool * machine) :=
  if BUFFER_SIZE <=? count (bootloader m) then
    let m := upd (fun b => set_packets_dropped (wrap32 (packets_dropped b + 1)) b) m in
    m <- (if (10 <? packets_dropped (bootloader m))
             && negb (state_eqb (state (bootloader m)) STATE_EMERGENCY_RECOVERY)
          then handle_emergency_condition fuel m
          else Some m) ;;
    Some (false, m)
  else
    let i := Z.to_nat (head (bootloader m)) in
    let pkt := buffer (bootloader m) !!! i in
    let pkt := {| data := memcpy (data pkt) src len; length := len; valid := true |} in
    let m := upd (fun b => set_buffer (<[i := pkt]> (buffer b)) b) m in
    let m := upd (fun b => set_head (Z.rem (head b + 1) BUFFER_SIZE) b) m in
    let m := upd (fun b => set_count (count b + 1) b) m in
    let '(t, m) := get_system_tick m in
    let m := upd (set_last_activity_time t) m in
    Some (true, m).

Definition validate_application (m : machine) : bool * machine :=
  let b := bootloader m in
  let calc := 0x1234 in
  let av := {| av_valid := calc =? expected_crc b;
               calculated_crc := calc;
               av_expected_crc := expected_crc b;
               size := bytes_received b |} in
  (av_valid av, upd (set_app_validation av) m).

Definition handle_idle_packet (fuel : nat) (pkt : packet_t) (seq packet_type : Z)
  (m : machine) : option machine :=
  if packet_type =? PKT_START_SESSION then
    if negb (force_bootloader_mode (bootloader m)) && (8 <=? length pkt) then
      let d := fun i => nth i (data pkt) 0 in
      let m := upd (set_total_size
                      (wrap32 (Z.lor (Z.lor (Z.lor (Z.shiftl (d 2%nat) 24)
                                                   (Z.shiftl (d 3%nat) 16))
                                            (Z.shiftl (d 4%nat) 8))
                                     (d 5%nat)))) m in
      let m := upd (set_expected_crc
                      (wrap32 (Z.lor (Z.shiftl (d 6%nat) 8) (d 7%nat)))) m in
      if (0 <? total_size (bootloader m)) && (total_size (bootloader m) <=? 1024 * 1024)
      then
        m <- enter_state fuel STATE_DFU_ACTIVE m ;;
        let m := upd (set_session_active true) m in
        let m := upd (set_expected_seq 1) m in
        let m := upd (set_bytes_received 0) m in
        Some (send_ack_packet m)
      else Some (send_nack_packet 0x05 m)
    else if force_bootloader_mode (bootloader m) then Some (send_nack_packet 0x12 m)
    else Some (send_nack_packet 0x01 m)
  else if packet_type =? PKT_JUMP_APP then
    if negb (force_bootloader_mode (bootloader m)) then
      m <- enter_state fuel STATE_DFU_VERIFY m ;;
      Some (send_ack_packet m)
    else Some (send_nack_packet 0x12 m)
  else Some (send_nack_packet 0x01 m).

Definition handle_dfu_packet (fuel : nat) (pkt : packet_t) (seq packet_type : Z)
  (m : machine) : option machine :=
  if packet_type =? PKT_DATA then
    if seq =? expected_seq (bootloader m) then
      let payload := skipn 2 (data pkt) in
      let payload_len := wrap_size (length pkt - 2) in
      let flash_addr := wrap32 (APPLICATION_START + bytes_received (bootloader m)) in
      let '(accepted, m) := start_flash_write flash_addr payload payload_len m in
      if accepted then
        let m := upd (fun b => set_bytes_received
                                  (wrap32 (bytes_received b + payload_len)) b) m in
        let m := upd (fun b => set_expected_seq (wrap32 (expected_seq b + 1)) b) m in
        Some (send_ack_packet m)
      else Some (send_nack_packet 0x03 m)
    else
      let m := send_nack_packet 0x02 m in
      let m := upd (fun b => set_error_count (wrap32 (error_count b + 1)) b) m in
      if 5 <? error_count (bootloader m) then handle_emergency_condition fuel m
      else Some m
  else if packet_type =? PKT_END_SESSION then
    if bytes_received (bootloader m) =? total_size (bootloader m) then
      m <- enter_state fuel STATE_DFU_VERIFY m ;;
      Some (send_ack_packet m)
    else
      let m := send_nack_packet 0x08 m in
      enter_state fuel STATE_ERROR m
  else Some (send_nack_packet 0x04 m).

Definition handle_timeout_checks (fuel : nat) (m : machine) : option machine :=
  let '(current_time, m) := get_system_tick m in
  m <- (if session_active (bootloader m)
           && (wrap32 (session_timeout_ms (bootloader m) * 1000)
               <? wrap32 (current_time - last_activity_time (bootloader m)))
        then enter_state fuel STATE_ERROR m
        else Some m) ;;
  match state (bootloader m) with
  | STATE_DFU_VERIFY =>
      if wrap32 (app_validation_timeout_ms (bootloader m) * 1000)
         <? wrap32 (current_time - state_entry_time (bootloader m))
      then enter_state fuel STATE_ERROR m
      else Some m
  | STATE_ERROR =>
      if 5000000 <? wrap32 (current_time - state_entry_time (bootloader m))
      then enter_state fuel STATE_IDLE m
      else Some m
  | _ => Some m
  end.

(** The first [switch] of [bootloader_process_cycle]: state-specific
    background processing. *)
Definition background_processing (fuel : nat) (m : machine) : option machine :=
  match state (bootloader m) with
  | STATE_DFU_VERIFY =>
      let '(ok, m) := validate_application m in
      if ok then enter_state fuel STATE_RUNNING_APP m
      else enter_state fuel STATE_ERROR m
  | STATE_RUNNING_APP => enter_state fuel STATE_IDLE m
  | STATE_EMERGENCY_RECOVERY =>
      let '(t, m) := get_system_tick m in
      if 10000000 <? wrap32 (t - state_entry_time (bootloader m)) then
        let m := upd (set_packets_dropped 0) m in
        let m := upd (set_error_count 0) m in
        enter_state fuel STATE_IDLE m
      else Some m
  | _ => Some m
  end.

(** The [switch (packet_type)] in the loop of [bootloader_process_cycle]:
    the global handlers, then the handling by state. *)
Definition dispatch_packet (fuel : nat) (pkt : packet_t) (seq packet_type : Z)
  (m : machine) : option machine :=
  if packet_type =? PKT_PING then Some (send_ack_packet m)
  else if packet_type =? PKT_GET_STATUS then Some (send_ack_packet m)
  else if packet_type =? PKT_EMERGENCY_RESET then handle_emergency_condition fuel m
  else if packet_type =? PKT_ABORT then
    if state_eqb (state (bootloader m)) STATE_DFU_ACTIVE then
      m <- enter_state fuel STATE_IDLE m ;;
      Some (send_ack_packet m)
    else Some m
  else
    match state (bootloader m) with
    | STATE_IDLE => handle_idle_packet fuel pkt seq packet_type m
    | STATE_DFU_ACTIVE => handle_dfu_packet fuel pkt seq packet_type m
    | STATE_EMERGENCY_RECOVERY =>
        if negb (packet_type =? PKT_PING) && negb (packet_type =? PKT_EMERGENCY_RESET)
        then Some (send_nack_packet 0x10 m)
        else Some m
    | _ => Some (send_nack_packet 0x11 m)
    end.

(** One turn of the loop body once the slot at [tail] is known valid:
    dequeue, dispatch, invalidate the slot. *)
Definition process_packet (fuel : nat) (m : machine) : option machine :=
  let i := Z.to_nat (tail (bootloader m)) in
  let pkt := buffer (bootloader m) !!! i in
  let m := upd (fun b => set_tail (Z.rem (tail b + 1) BUFFER_SIZE) b) m in
  let m := upd (fun b => set_count (count b - 1) b) m in
  let m := upd (fun b => set_packets_processed (wrap32 (packets_processed b + 1)) b) m in
  let seq := nth 0 (data pkt) 0 in
  let packet_type := nth 1 (data pkt) 0 in
  m <- dispatch_packet fuel pkt seq packet_type m ;;
  Some (upd (fun b => set_buffer
                        (<[i := {| data := data pkt; length := length pkt;
                                   valid := false |}]> (buffer b)) b) m).

(** [while (bootloader.count > 0) { ... }]; [n] bounds the iterations. *)
Fixpoint process_packets (n : nat) (fuel : nat) (m : machine) : option machine :=
  match n with
  | O => None
  | S n' =>
      if 0 <? count (bootloader m) then
        if negb (valid (buffer (bootloader m) !!! Z.to_nat (tail (bootloader m))))
        then Some m
        else
          m <- process_packet fuel m ;;
          process_packets n' fuel m
      else Some m
  end.

Definition bootloader_process_cycle (fuel : nat) (elapsed_us : Z) (m : machine)
  : option machine :=
  m <- handle_timeout_checks fuel m ;;
  let '(_, m) := is_flash_operation_complete elapsed_us m in
  m <- background_processing fuel m ;;
  process_packets fuel fuel m.

(** ** The program as its callers drive it *)

(** Static storage at start-up: [bootloader = {0}], [tick = 0],
    [mock_flash = {0xFF}], [flash_busy = false]. *)
Definition power_on : machine :=
  {| bootloader := zero_bootloader; tick := 0; flash_busy := false;
     mock_flash := []; wire := [] |}.

(** The calls of bootloader.h's main API. [Cycle e] is a call of
    [bootloader_process_cycle] during which the flash double measures
    [e] microseconds since its write began. *)
Inductive call : Type :=
| Init
| Receive (src : list Z)
| Cycle (elapsed_us : Z)
| GetTick.

Definition run_call (fuel : nat) (c : call) (m : machine) : option machine :=
  match c with
  | Init => bootloader_init fuel m
  | Receive src =>
      r <- bootloader_receive_packet fuel src (Z.of_nat (Datatypes.length src)) m ;;
      Some (snd r)
  | Cycle e => bootloader_process_cycle fuel e m
  | GetTick => Some (snd (get_system_tick m))
  end.

Fixpoint run (fuel : nat) (cs : list call) (m : machine) : option machine :=
  match cs with
  | [] => Some m
  | c :: cs' => m <- run_call fuel c m ;; run fuel cs' m
  end.

Definition reachable (m : machine) : Prop :=
  exists fuel cs, run fuel cs power_on = Some m.

(** * The vocabulary of the statements *)

Definition returns {A : Type} (o : option A) : bool :=
  match o with Some _ => true | None => false end.

(** The machine after [n] reads of the tick in a row. *)
Definition waited (n : Z) (m : machine) : machine :=
  set_tick (wrap32 (tick m + 1000 * n)) m.

(** Initialisation, then cycles with an empty queue until the ERROR
    state in which [bootloader_init] leaves the supervisor has healed:
    the 5001st cycle is the first to read more than 5 s since entry. *)
Definition idle_calls : list call := [Init] ++ repeat (Cycle 0) (Z.to_nat 5001).

Definition idle_machine : machine :=
  {| bootloader :=
       set_state_entry_time 5003000
         (set_previous_state STATE_ERROR
            (set_error_count 1
               (set_app_validation_timeout_ms 5000
                  (set_session_timeout_ms 30000 zero_bootloader))));
     tick := 5003000; flash_busy := false; mock_flash := []; wire := [] |}.

(** The session-inactivity test of [handle_timeout_checks], on the tick
    that the call reads. *)
Definition session_timed_out (m : machine) : bool :=
  let current_time := wrap32 (tick m + 1000) in
  session_active (bootloader m)
  && (wrap32 (session_timeout_ms (bootloader m) * 1000)
      <? wrap32 (current_time - last_activity_time (bootloader m))).

(** The incomplete transfer of the specification's scenario 6 (a session
    of 512 bytes ended with no data), then 30 s on the tick source with
    no call of the cycle: a caller reads [get_system_tick], which
    advances the mock by 1 ms per call. *)
Definition incomplete_transfer_calls : list call :=
  [Receive [0x00; 0x01; 0x00; 0x00; 0x02; 0x00; 0x12; 0x34]; Cycle 0;
   Receive [0x03; 0x03]; Cycle 0].

Definition stuck_calls : list call :=
  idle_calls ++ incomplete_transfer_calls ++ repeat GetTick (Z.to_nat 30000).

Definition stuck_machine : machine :=
  waited 30000 (default power_on (run 4 incomplete_transfer_calls idle_machine)).

(** The supervisor in DFU_ACTIVE with [expected_seq] 1, as after the
    START_SESSION of the workflow test. *)
Definition start_session_calls : list call :=
  [Receive [0x00; 0x01; 0x00; 0x00; 0x02; 0x00; 0x12; 0x34]; Cycle 0].

Definition dfu_calls : list call := idle_calls ++ start_session_calls.

Definition dfu_machine : machine :=
  default power_on (run 4 start_session_calls idle_machine).

(** The supervisor in EMERGENCY_RECOVERY: an EMERGENCY_RESET packet
    (the bytes of the emergency test) dispatched after initialisation. *)
Definition recovery_calls : list call := [Init; Receive [0x99; 0x08]; Cycle 0].

Definition recovery_machine : machine :=
  default power_on (run 4 recovery_calls power_on).

(** The type byte of the packet that the next loop turn dequeues. *)
Definition next_packet_type (m : machine) : Z :=
  nth 1 (data (buffer (bootloader m) !!! Z.to_nat (tail (bootloader m)))) 0.

(** The image of the session: the [bytes_received] bytes of the flash
    double from the offset of [APPLICATION_START] on. *)
Definition image (m : machine) : list Z :=
  map (flash_byte (mock_flash m))
      (seqZ (Z.land APPLICATION_START 0xFFFFF) (bytes_received (bootloader m))).

(** C3 in the specification's words, for a CRC function [crc]: in
    DFU_VERIFY the background work succeeds (enters RUNNING_APP) exactly
    when the CRC of the image equals [expected_crc], and enters ERROR
    otherwise. *)
Definition verifies_by_crc (crc : list Z -> Z) : Prop :=
  forall fuel m m',
    reachable m ->
    state (bootloader m) = STATE_DFU_VERIFY ->
    background_processing fuel m = Some m' ->
    (crc (image m) = expected_crc (bootloader m) ->
     state (bootloader m') = STATE_RUNNING_APP)
    /\ (crc (image m) <> expected_crc (bootloader m) ->
        state (bootloader m') = STATE_ERROR).

(** A one-byte session with [expected_crc = 0x1234] whose only data
    byte is [b], taken to DFU_VERIFY by END_SESSION. *)
Definition one_byte_session_calls (b : Z) : list call :=
  [Receive [0x00; 0x01; 0x00; 0x00; 0x00; 0x01; 0x12; 0x34]; Cycle 0;
   Receive [0x01; 0x02; b]; Cycle 0;
   Receive [0x02; 0x03]; Cycle 0].

Definition verify_calls (b : Z) : list call := idle_calls ++ one_byte_session_calls b.

Definition verify_machine (b : Z) : machine :=
  default power_on (run 4 (one_byte_session_calls b) idle_machine).

(** The DATA packet of the workflow test: a 2-byte header and 256 bytes
    of pattern, 258 bytes in all. *)
Definition workflow_data_packet (i : Z) : list Z :=
  i :: 0x02 :: map (fun j => (i * 16 + j) mod 256) (seqZ 0 256).








(** A packet of the data model: between the 2-byte header and
    [MAX_PACKET_SIZE] bytes long, every entry a byte. *)
Definition is_byte (x : Z) : bool := (0 <=? x) && (x <? 256).

Definition packet_fits (src : list Z) : bool :=
  (2 <=? Z.of_nat (Datatypes.length src))
  && (Z.of_nat (Datatypes.length src) <=? MAX_PACKET_SIZE)
  && forallb is_byte src.

Definition call_fits (c : call) : bool :=
  match c with
  | Receive src => packet_fits src
  | _ => true
  end.

(** Machines reached by calls whose packets all fit. *)
Definition reachable_fitting (m : machine) : Prop :=
  exists fuel cs, forallb call_fits cs = true /\ run fuel cs power_on = Some m.

Definition slot_ok (p : packet_t) : Prop :=
  valid p = true ->
  2 <= length p <= MAX_PACKET_SIZE /\ 0 <= nth 0 (data p) 0 < 256.

(** [expected_seq - 1] counts the DATA packets accepted in the session
    (it is 1 at the start of a session and moves only by the increment
    of an accepted DATA); each of them added at most 254 bytes. *)
Definition session_bounded (m : machine) : Prop :=
  0 <= expected_seq (bootloader m) <= 256
  /\ 0 <= bytes_received (bootloader m)
  /\ bytes_received (bootloader m) <= 254 * Z.max 0 (expected_seq (bootloader m) - 1)
  /\ (state (bootloader m) = STATE_DFU_ACTIVE -> 1 <= expected_seq (bootloader m))
  /\ Forall slot_ok (buffer (bootloader m)).

(** A session of 65280 bytes fed by 255 DATA packets of 258 bytes (the
    size the tests send: 256 bytes of payload each), the flash idle
    again at every cycle, then END_SESSION. *)
Definition full_payload_session_calls : list call :=
  [Receive [0x00; 0x01; 0x00; 0x00; 0xFF; 0x00; 0x12; 0x34]; Cycle 0]
  ++ concat (map (fun i => [Receive (workflow_data_packet i); Cycle 3000])
               (seqZ 1 255))
  ++ [Receive [0x00; 0x03]; Cycle 3000].

Definition full_payload_calls : list call := idle_calls ++ full_payload_session_calls.

Definition full_payload_machine : machine :=
  default power_on (run 4 full_payload_session_calls idle_machine).

(** A DATA packet that fills a slot: the 2-byte header and 254 bytes of
    pattern, [MAX_PACKET_SIZE] bytes in all. *)
Definition full_slot_data_packet (i : Z) : list Z :=
  i :: 0x02 :: map (fun j => (i * 16 + j) mod 256) (seqZ 0 254).

(** A session of 65280 bytes fed by 255 DATA packets of
    [MAX_PACKET_SIZE] bytes, the flash idle again at every cycle: the
    sequence numbers are used up with 255 * 254 bytes received. *)
Definition exhausted_session_calls : list call :=
  [Receive [0x00; 0x01; 0x00; 0x00; 0xFF; 0x00; 0x12; 0x34]; Cycle 0]
  ++ concat (map (fun i => [Receive (full_slot_data_packet i); Cycle 3000])
               (seqZ 1 255)).

Definition exhausted_calls : list call := idle_calls ++ exhausted_session_calls.

Definition exhausted_machine : machine :=
  default power_on (run 4 exhausted_session_calls idle_machine).

(** ** The packet queue as a list *)

(** The slot that is [k] places behind [tail] in the ring. *)
Definition slot_index (b : bootloader_t) (k : Z) : nat :=
  Z.to_nat ((tail b + k) mod BUFFER_SIZE).

(** The packets waiting in the queue, oldest first. *)
Definition queued (m : machine) : list packet_t :=
  map (fun k => buffer (bootloader m) !!! slot_index (bootloader m) k)
      (seqZ 0 (count (bootloader m))).

(** The ring is well formed: [head] is [count] slots behind [tail], and
    the valid slots are exactly the [count] slots from [tail] on. *)
Definition queue_ok (m : machine) : Prop :=
  Datatypes.length (buffer (bootloader m)) = Z.to_nat BUFFER_SIZE
  /\ 0 <= tail (bootloader m) < BUFFER_SIZE
  /\ 0 <= count (bootloader m) <= BUFFER_SIZE
  /\ head (bootloader m)
     = (tail (bootloader m) + count (bootloader m)) mod BUFFER_SIZE
  /\ forall k, 0 <= k < BUFFER_SIZE ->
       valid (buffer (bootloader m) !!! slot_index (bootloader m) k)
       = (k <? count (bootloader m)).

(** The state of the queue and of the counter of served packets. *)
Definition queue_state (m : machine) : list packet_t * Z * Z * Z * Z :=
  (buffer (bootloader m), head (bootloader m), tail (bootloader m),
   count (bootloader m), packets_processed (bootloader m)).

(** Three packets enqueued after initialisation: PING, GET_STATUS, and a
    packet of unknown type. *)
Definition three_queued_calls : list call :=
  [Init; Receive [0x00; 0x05]; Receive [0x01; 0x06]; Receive [0x02; 0x09]].

Definition three_queued_machine : machine :=
  default power_on (run 4 three_queued_calls power_on).

(** The cycle cannot return: [enter_state(STATE_ERROR)] is due in ERROR. *)
Definition stuck (m : machine) : Prop :=
  state (bootloader m) = STATE_ERROR /\ session_timed_out m = true.

(** ** Packets by type *)

(** The types that the global handlers of the cycle take before the
    state is looked at. *)
Definition is_global (packet_type : Z) : bool :=
  (packet_type =? PKT_PING) || (packet_type =? PKT_GET_STATUS)
  || (packet_type =? PKT_EMERGENCY_RESET) || (packet_type =? PKT_ABORT).

(** The image size and the CRC that a START_SESSION packet announces:
    bytes 2..5 and 6..7 of the packet, most significant byte first. *)
Definition announced_size (pkt : packet_t) : Z :=
  nth 2 (data pkt) 0 * 2 ^ 24 + nth 3 (data pkt) 0 * 2 ^ 16
  + nth 4 (data pkt) 0 * 2 ^ 8 + nth 5 (data pkt) 0.

Definition announced_crc (pkt : packet_t) : Z :=
  nth 6 (data pkt) 0 * 2 ^ 8 + nth 7 (data pkt) 0.

(** A slot holding the bytes [src], as the enqueue leaves it. *)
Definition packet_of (src : list Z) : packet_t :=
  {| data := src; length := Z.of_nat (Datatypes.length src); valid := true |}.

(** The supervisor in RUNNING_APP: the one-byte session verified. *)
Definition running_app_machine : machine :=
  default power_on (run 4 [Cycle 0] (verify_machine 0)).

(** The payload that a DATA packet carries: [length - 2] bytes from
    [data[2]] on. *)
Definition payload (pkt : packet_t) : list Z :=
  firstn (Z.to_nat (length pkt - 2)) (skipn 2 (data pkt)).

(** Time in the current state on the tick that [handle_timeout_checks]
    reads. *)
Definition state_elapsed (m : machine) : Z :=
  wrap32 (wrap32 (tick m + 1000) - state_entry_time (bootloader m)).

(** The session fields as [enter_state(STATE_IDLE)] leaves them. *)
Definition session_cleared (m : machine) : Prop :=
  session_active (bootloader m) = false
  /\ expected_seq (bootloader m) = 0
  /\ bytes_received (bootloader m) = 0.

(** The first DATA packet of a session, with the payload [bytes]. *)
Definition data_packet (seq : Z) (bytes : list Z) : packet_t :=
  packet_of (seq :: PKT_DATA :: bytes).

(** What holds of the session fields by state. *)
Definition session_flags_ok (m : machine) : Prop :=
  (state (bootloader m) = STATE_IDLE -> session_cleared m)
  /\ (state (bootloader m) = STATE_DFU_ACTIVE -> session_active (bootloader m) = true).

Definition is_init (c : call) : bool :=
  match c with Init => true | _ => false end.

(** * The first revision of the core

    The repository also carries the bootloader in its first form: three
    states, START_SESSION / DATA / END_SESSION only, no table of
    transitions and no time-outs.  It shares [packet_t], the platform
    interface and the constants with the revision above. *)

Module Simple.

Inductive bootloader_state_t : Type :=
| STATE_IDLE
| STATE_DFU_ACTIVE
| STATE_ERROR.

Record bootloader_t : Type := {
  state : bootloader_state_t;
  buffer : list packet_t;
  head : Z;
  tail : Z;
  count : Z;
  expected_seq : Z;
  bytes_received : Z;
  total_size : Z;
  session_active : bool;
  packets_processed : Z;
  packets_dropped : Z
}.

Definition set_state v (b : bootloader_t) : bootloader_t :=
  Build_bootloader_t v (buffer b) (head b) (tail b) (count b) (expected_seq b)
    (bytes_received b) (total_size b) (session_active b) (packets_processed b)
    (packets_dropped b).
Definition set_buffer v (b : bootloader_t) : bootloader_t :=
  Build_bootloader_t (state b) v (head b) (tail b) (count b) (expected_seq b)
    (bytes_received b) (total_size b) (session_active b) (packets_processed b)
    (packets_dropped b).
Definition set_head v (b : bootloader_t) : bootloader_t :=
  Build_bootloader_t (state b) (buffer b) v (tail b) (count b) (expected_seq b)
    (bytes_received b) (total_size b) (session_active b) (packets_processed b)
    (packets_dropped b).
Definition set_tail v (b : bootloader_t) : bootloader_t :=
  Build_bootloader_t (state b) (buffer b) (head b) v (count b) (expected_seq b)
    (bytes_received b) (total_size b) (session_active b) (packets_processed b)
    (packets_dropped b).
Definition set_count v (b : bootloader_t) : bootloader_t :=
  Build_bootloader_t (state b) (buffer b) (head b) (tail b) v (expected_seq b)
    (bytes_received b) (total_size b) (session_active b) (packets_processed b)
    (packets_dropped b).
Definition set_expected_seq v (b : bootloader_t) : bootloader_t :=
  Build_bootloader_t (state b) (buffer b) (head b) (tail b) (count b) v
    (bytes_received b) (total_size b) (session_active b) (packets_processed b)
    (packets_dropped b).
Definition set_bytes_received v (b : bootloader_t) : bootloader_t :=
  Build_bootloader_t (state b) (buffer b) (head b) (tail b) (count b) (expected_seq b)
    v (total_size b) (session_active b) (packets_processed b) (packets_dropped b).
Definition set_total_size v (b : bootloader_t) : bootloader_t :=
  Build_bootloader_t (state b) (buffer b) (head b) (tail b) (count b) (expected_seq b)
    (bytes_received b) v (session_active b) (packets_processed b) (packets_dropped b).
Definition set_session_active v (b : bootloader_t) : bootloader_t :=
  Build_bootloader_t (state b) (buffer b) (head b) (tail b) (count b) (expected_seq b)
    (bytes_received b) (total_size b) v (packets_processed b) (packets_dropped b).
Definition set_packets_processed v (b : bootloader_t) : bootloader_t :=
  Build_bootloader_t (state b) (buffer b) (head b) (tail b) (count b) (expected_seq b)
    (bytes_received b) (total_size b) (session_active b) v (packets_dropped b).
Definition set_packets_dropped v (b : bootloader_t) : bootloader_t :=
  Build_bootloader_t (state b) (buffer b) (head b) (tail b) (count b) (expected_seq b)
    (bytes_received b) (total_size b) (session_active b) (packets_processed b) v.

(** The global object, the statics of platform.c and the frames sent so
    far, newest first. *)
Record machine : Type := {
  bootloader : bootloader_t;
  flash_busy : bool;
  mock_flash : list flash_write;
  wire : list frame
}.

Definition upd (f : bootloader_t -> bootloader_t) (m : machine) : machine :=
  {| bootloader := f (bootloader m); flash_busy := flash_busy m;
     mock_flash := mock_flash m; wire := wire m |}.

Definition set_flash (busy : bool) (fl : list flash_write) (m : machine) : machine :=
  {| bootloader := bootloader m; flash_busy := busy; mock_flash := fl; wire := wire m |}.

Definition emit (f : frame) (m : machine) : machine :=
  {| bootloader := bootloader m; flash_busy := flash_busy m;
     mock_flash := mock_flash m; wire := f :: wire m |}.

(** platform.c, on this machine. *)
Definition start_flash_write (address : Z) (src : list Z) (n : Z) (m : machine)
  : bool * machine :=
  if flash_busy m then (false, m)
  else
    let offset := Z.land address 0xFFFFF in
    (true, set_flash true (flash_memcpy (mock_flash m) offset src n) m).

Definition is_flash_operation_complete (elapsed_us : Z) (m : machine)
  : bool * machine :=
  if negb (flash_busy m) then (true, m)
  else
    let m := if 2000 <? elapsed_us then set_flash false (mock_flash m) m else m in
    (negb (flash_busy m), m).

Definition send_ack_packet (m : machine) : machine := emit ACK m.
Definition send_nack_packet (error_code : Z) (m : machine) : machine :=
  emit (NACK error_code) m.

(** [memset(&bootloader, 0, sizeof(bootloader))] *)
Definition zero_bootloader : bootloader_t :=
  {| state := STATE_IDLE;
     buffer := repeat zero_packet (Z.to_nat BUFFER_SIZE);
     head := 0; tail := 0; count := 0;
     expected_seq := 0; bytes_received := 0; total_size := 0;
     session_active := false;
     packets_processed := 0; packets_dropped := 0 |}.

Definition bootloader_init (m : machine) : machine :=
  let m := upd (fun _ => zero_bootloader) m in
  upd (set_state STATE_IDLE) m.

Definition bootloader_receive_packet (src : list Z) (len : Z) (m : machine)
  : bool * machine :=
  if BUFFER_SIZE <=? count (bootloader m) then
    (false, upd (fun b => set_packets_dropped (wrap32 (packets_dropped b + 1)) b) m)
  else
    let i := Z.to_nat (head (bootloader m)) in
    let pkt := buffer (bootloader m) !!! i in
    let pkt := {| data := memcpy (data pkt) src len; length := len; valid := true |} in
    let m := upd (fun b => set_buffer (<[i := pkt]> (buffer b)) b) m in
    let m := upd (fun b => set_head (Z.rem (head b + 1) BUFFER_SIZE) b) m in
    let m := upd (fun b => set_count (count b + 1) b) m in
    (true, m).

(** The [switch (bootloader.state)] in the loop of
    [bootloader_process_cycle]. *)
Definition dispatch_packet (pkt : packet_t) (seq packet_type : Z) (m : machine)
  : machine :=
  match state (bootloader m) with
  | STATE_IDLE =>
      if (packet_type =? PKT_START_SESSION) && (4 <=? length pkt) then
        let m := upd (set_total_size
                        (wrap32 (Z.lor (Z.shiftl (nth 2 (data pkt) 0) 8)
                                       (nth 3 (data pkt) 0)))) m in
        let m := upd (set_state STATE_DFU_ACTIVE) m in
        let m := upd (set_session_active true) m in
        let m := upd (set_expected_seq 1) m in
        let m := upd (set_bytes_received 0) m in
        send_ack_packet m
      else send_nack_packet 0x01 m
  | STATE_DFU_ACTIVE =>
      if packet_type =? PKT_DATA then
        if seq =? expected_seq (bootloader m) then
          let payload := skipn 2 (data pkt) in
          let payload_len := wrap_size (length pkt - 2) in
          let flash_addr := wrap32 (APPLICATION_START + bytes_received (bootloader m)) in
          let '(accepted, m) := start_flash_write flash_addr payload payload_len m in
          if accepted then
            let m := upd (fun b => set_bytes_received
                                      (wrap32 (bytes_received b + payload_len)) b) m in
            let m := upd (fun b => set_expected_seq (wrap32 (expected_seq b + 1)) b) m in
            send_ack_packet m
          else send_nack_packet 0x03 m
        else send_nack_packet 0x02 m
      else if packet_type =? PKT_END_SESSION then
        if bytes_received (bootloader m) =? total_size (bootloader m) then
          let m := send_ack_packet m in
          let m := upd (set_state STATE_IDLE) m in
          upd (set_session_active false) m
        else send_nack_packet 0x08 m
      else send_nack_packet 0x04 m
  | STATE_ERROR => send_nack_packet 0xFF m
  end.

(** One turn of the loop once the slot at [tail] is known valid. *)
Definition process_packet (m : machine) : machine :=
  let i := Z.to_nat (tail (bootloader m)) in
  let pkt := buffer (bootloader m) !!! i in
  let m := upd (fun b => set_tail (Z.rem (tail b + 1) BUFFER_SIZE) b) m in
  let m := upd (fun b => set_count (count b - 1) b) m in
  let m := upd (fun b => set_packets_processed (wrap32 (packets_processed b + 1)) b) m in
  let seq := nth 0 (data pkt) 0 in
  let packet_type := nth 1 (data pkt) 0 in
  let m := dispatch_packet pkt seq packet_type m in
  upd (fun b => set_buffer
                  (<[i := {| data := data pkt; length := length pkt;
                             valid := false |}]> (buffer b)) b) m.

(** [while (bootloader.count > 0) { ... }]; [n] bounds the iterations. *)
Fixpoint process_packets (n : nat) (m : machine) : option machine :=
  match n with
  | O => None
  | S n' =>
      if 0 <? count (bootloader m) then
        if negb (valid (buffer (bootloader m) !!! Z.to_nat (tail (bootloader m))))
        then Some m
        else process_packets n' (process_packet m)
      else Some m
  end.

Definition bootloader_process_cycle (n : nat) (elapsed_us : Z) (m : machine)
  : option machine :=
  let '(_, m) := is_flash_operation_complete elapsed_us m in
  process_packets n m.

(** Static storage at start-up, and the calls of the API. *)
Definition power_on : machine :=
  {| bootloader := zero_bootloader; flash_busy := false; mock_flash := []; wire := [] |}.

Inductive call : Type :=
| Init
| Receive (src : list Z)
| Cycle (elapsed_us : Z).

Definition run_call (n : nat) (c : call) (m : machine) : option machine :=
  match c with
  | Init => Some (bootloader_init m)
  | Receive src =>
      Some (snd (bootloader_receive_packet src (Z.of_nat (Datatypes.length src)) m))
  | Cycle e => bootloader_process_cycle n e m
  end.

Fixpoint run (n : nat) (cs : list call) (m : machine) : option machine :=
  match cs with
  | [] => Some m
  | c :: cs' => m <- run_call n c m ;; run n cs' m
  end.

(** Machines reached by calls whose packets all fit a slot. *)
Definition call_fits (c : call) : bool :=
  match c with
  | Receive src => packet_fits src
  | _ => true
  end.

Definition reachable_fitting (m : machine) : Prop :=
  exists n cs, forallb call_fits cs = true /\ run n cs power_on = Some m.

(** In those machines ERROR is never the state, a session is active
    exactly in DFU_ACTIVE, and NACK(0xFF) was never sent. *)
Definition well_formed (m : machine) : Prop :=
  state (bootloader m) <> STATE_ERROR
  /\ (session_active (bootloader m) = true <-> state (bootloader m) = STATE_DFU_ACTIVE)
  /\ ~ In (NACK 0xFF) (wire m).

End Simple.

(** A session of 512 bytes opened on the first revision. *)
Definition simple_session_calls : list Simple.call :=
  [Simple.Init; Simple.Receive [0x00; 0x01; 0x02; 0x00]; Simple.Cycle 0].

Definition simple_dfu_machine : Simple.machine :=
  default Simple.power_on (Simple.run 2 simple_session_calls Simple.power_on).

(** * Properties *)

Arguments wrap32 : simpl never.
Arguments wrap_size : simpl never.

(** Projections of updated records, computed without unfolding anything
    else. *)
Ltac fields :=
  cbn beta iota zeta delta
    [
      upd set_tick set_flash emit send_ack_packet send_nack_packet get_system_tick
      bootloader tick flash_busy mock_flash wire fst snd state previous_state buffer
      head tail count expected_seq bytes_received total_size expected_crc
      session_active packets_processed packets_dropped error_count recovery_attempts
      app_launch_attempts state_entry_time last_activity_time session_timeout_ms
      app_validation_timeout_ms app_validation force_bootloader_mode set_state
      set_previous_state set_buffer set_head set_tail set_count set_expected_seq
      set_bytes_received set_total_size set_expected_crc set_session_active
      set_packets_processed set_packets_dropped set_error_count set_recovery_attempts
      set_app_launch_attempts set_state_entry_time set_last_activity_time
      set_session_timeout_ms set_app_validation_timeout_ms set_app_validation
      set_force_bootloader_mode
    ].

Ltac fields_in H :=
  cbn beta iota zeta delta
    [
      upd set_tick set_flash emit send_ack_packet send_nack_packet get_system_tick
      bootloader tick flash_busy mock_flash wire fst snd state previous_state buffer
      head tail count expected_seq bytes_received total_size expected_crc
      session_active packets_processed packets_dropped error_count recovery_attempts
      app_launch_attempts state_entry_time last_activity_time session_timeout_ms
      app_validation_timeout_ms app_validation force_bootloader_mode set_state
      set_previous_state set_buffer set_head set_tail set_count set_expected_seq
      set_bytes_received set_total_size set_expected_crc set_session_active
      set_packets_processed set_packets_dropped set_error_count set_recovery_attempts
      set_app_launch_attempts set_state_entry_time set_last_activity_time
      set_session_timeout_ms set_app_validation_timeout_ms set_app_validation
      set_force_bootloader_mode
    ] in H.

(** Facts about a machine given by a run: each conjunct by evaluation. *)
Ltac by_evaluation :=
  repeat match goal with |- _ /\ _ => split end; vm_compute; reflexivity.

(** ** [enter_state] *)

Lemma state_eqb_eq (a b : bootloader_state_t) : state_eqb a b = true <-> a = b.
Proof. destruct a, b; simpl; split; intro H; congruence. Qed.

Lemma enter_state_admissible fuel new_state m :
  validate_state_transition (state (bootloader m)) new_state = true ->
  enter_state (S fuel) new_state m = Some (enter_state_actions new_state m).
Proof. intros H. simpl. rewrite H. reflexivity. Qed.

Lemma enter_state_redirected fuel new_state m :
  validate_state_transition (state (bootloader m)) new_state = false ->
  state (bootloader m) <> STATE_ERROR ->
  enter_state (S (S fuel)) new_state m = Some (enter_state_actions STATE_ERROR m).
Proof.
  intros H Hne. simpl. rewrite H. simpl.
  destruct (state (bootloader m)); simpl; congruence.
Qed.

(** From [STATE_ERROR] the recursion on [STATE_ERROR] never bottoms out. *)
Lemma enter_state_error_loops fuel new_state m :
  state (bootloader m) = STATE_ERROR ->
  validate_state_transition STATE_ERROR new_state = false ->
  enter_state fuel new_state m = None.
Proof.
  intros Hs Hv. revert new_state Hv.
  induction fuel as [|fuel IH]; intros new_state Hv; simpl; [reflexivity|].
  rewrite Hs, Hv. simpl. apply IH. reflexivity.
Qed.

Lemma enter_state_result fuel new_state m m' :
  enter_state fuel new_state m = Some m' ->
  m' = enter_state_actions new_state m
  \/ (m' = enter_state_actions STATE_ERROR m
      /\ state (bootloader m) <> STATE_ERROR
      /\ validate_state_transition (state (bootloader m)) new_state = false).
Proof.
  destruct fuel as [|fuel]; simpl; [discriminate|].
  destruct (validate_state_transition (state (bootloader m)) new_state) eqn:Hv; simpl.
  - intros [= <-]. now left.
  - intros H. right.
    destruct (state_eqb (state (bootloader m)) STATE_ERROR) eqn:He.
    + apply state_eqb_eq in He.
      rewrite (enter_state_error_loops fuel STATE_ERROR m He) in H by reflexivity.
      discriminate.
    + assert (Hne : state (bootloader m) <> STATE_ERROR)
        by (intros Heq; apply state_eqb_eq in Heq; congruence).
      destruct fuel as [|fuel]; simpl in H; [discriminate|].
      destruct (state (bootloader m)); simpl in H; try congruence;
        injection H as <-; auto.
Qed.

Lemma enter_state_returns fuel new_state m :
  state (bootloader m) <> STATE_ERROR
  \/ validate_state_transition STATE_ERROR new_state = true ->
  exists m', enter_state (S (S fuel)) new_state m = Some m'.
Proof.
  intros H.
  destruct (validate_state_transition (state (bootloader m)) new_state) eqn:Hv.
  - rewrite enter_state_admissible by assumption. eauto.
  - destruct H as [H|H].
    + rewrite enter_state_redirected by assumption. eauto.
    + destruct (state (bootloader m)) eqn:Hs;
        rewrite enter_state_redirected by congruence; eauto.
Qed.

Lemma enter_state_fuel_mono fuel new_state m m' :
  enter_state fuel new_state m = Some m' ->
  enter_state (S fuel) new_state m = Some m'.
Proof.
  revert new_state. induction fuel as [|fuel IH]; intros new_state; [discriminate|].
  intros H. simpl in H. change (enter_state (S (S fuel)) new_state m) with
    (if negb (validate_state_transition (state (bootloader m)) new_state)
     then enter_state (S fuel) STATE_ERROR m
     else Some (enter_state_actions new_state m)).
  destruct (negb (validate_state_transition (state (bootloader m)) new_state)); auto.
Qed.

Arguments enter_state : simpl never.

(** ** Initialisation *)

(** C1. [bootloader_init] does not leave the supervisor in IDLE with
    every counter at zero: the zeroed state is [STATE_IDLE], the
    transition IDLE -> IDLE is not in [validate_state_transition]'s
    table, so [enter_state] redirects to [STATE_ERROR] and counts an
    error.  From every machine, the call returns with the state ERROR
    and [error_count] 1; the timeouts hold their defaults and
    [force_bootloader_mode] is false. *)
Theorem init_enters_error (m : machine) (fuel : nat) :
  exists m',
    bootloader_init (S (S fuel)) m = Some m'
    /\ state (bootloader m') = STATE_ERROR
    /\ previous_state (bootloader m') = STATE_IDLE
    /\ error_count (bootloader m') = 1
    /\ packets_processed (bootloader m') = 0
    /\ packets_dropped (bootloader m') = 0
    /\ recovery_attempts (bootloader m') = 0
    /\ app_launch_attempts (bootloader m') = 0
    /\ session_timeout_ms (bootloader m') = 30000
    /\ app_validation_timeout_ms (bootloader m') = 5000
    /\ force_bootloader_mode (bootloader m') = false.
Proof.
  eexists. split; [reflexivity|]. simpl. repeat split; reflexivity.
Qed.

(** ** Runs *)

Lemma run_app fuel cs1 cs2 m :
  run fuel (cs1 ++ cs2) m = (m1 <- run fuel cs1 m ;; run fuel cs2 m1).
Proof.
  revert m. induction cs1 as [|c cs1 IH]; intros m; simpl; [reflexivity|].
  destruct (run_call fuel c m); [apply IH|reflexivity].
Qed.

Lemma pair_eq_inv {A B : Type} (a a' : A) (b b' : B) :
  (a, b) = (a', b') -> a = a' /\ b = b'.
Proof. intros H. injection H as -> ->. split; reflexivity. Qed.

Lemma run_returned (o : option machine) :
  returns o = true -> o = Some (default power_on o).
Proof. destruct o; [reflexivity|discriminate]. Qed.

Lemma run_reads fuel (n : nat) m :
  (0 < n)%nat ->
  run fuel (repeat GetTick n) m = Some (waited (Z.of_nat n) m).
Proof.
  intros Hn. destruct n as [|n]; [lia|clear Hn]. revert m.
  induction n as [|n IH]; intros m.
  - reflexivity.
  - change (run fuel (repeat GetTick (S (S n))) m)
      with (run fuel (repeat GetTick (S n)) (snd (get_system_tick m))).
    rewrite IH. unfold waited, get_system_tick, set_tick. cbn [snd tick bootloader
      flash_busy mock_flash wire]. do 2 f_equal.
    unfold wrap32. rewrite Zplus_mod_idemp_l. f_equal. lia.
Qed.

Lemma idle_machine_reached : run 4 idle_calls power_on = Some idle_machine.
Proof. vm_compute. reflexivity. Qed.

Lemma reached_from_idle cs :
  returns (run 4 cs idle_machine) = true ->
  run 4 (idle_calls ++ cs) power_on
  = Some (default power_on (run 4 cs idle_machine)).
Proof.
  intros H. rewrite run_app, idle_machine_reached. apply run_returned, H.
Qed.

Lemma reached_from_idle_then_reads cs n :
  returns (run 4 cs idle_machine) = true ->
  0 < n ->
  run 4 (idle_calls ++ cs ++ repeat GetTick (Z.to_nat n)) power_on
  = Some (waited n (default power_on (run 4 cs idle_machine))).
Proof.
  intros H Hn. rewrite app_assoc, run_app, (reached_from_idle cs H).
  cbv beta iota. rewrite run_reads by lia. rewrite Z2Nat.id by lia. reflexivity.
Qed.

(** ** Termination of the cycle *)

Lemma handle_timeout_checks_hangs fuel m :
  state (bootloader m) = STATE_ERROR ->
  session_timed_out m = true ->
  handle_timeout_checks fuel m = None.
Proof.
  intros Hs Ht. unfold handle_timeout_checks, session_timed_out in *. simpl in *.
  rewrite Ht. rewrite enter_state_error_loops; auto.
Qed.

Lemma process_cycle_hangs fuel elapsed_us m :
  state (bootloader m) = STATE_ERROR ->
  session_timed_out m = true ->
  bootloader_process_cycle fuel elapsed_us m = None.
Proof.
  intros Hs Ht. unfold bootloader_process_cycle.
  rewrite handle_timeout_checks_hangs; auto.
Qed.

Lemma stuck_machine_reached : run 4 stuck_calls power_on = Some stuck_machine.
Proof. apply reached_from_idle_then_reads; [vm_compute; reflexivity|lia]. Qed.

(** C2. [bootloader_process_cycle] does not return from every reachable
    state.  After an incomplete transfer the supervisor is in ERROR with
    the session still marked active; when the next cycle comes more than
    30 s after the last packet, [handle_timeout_checks] calls
    [enter_state(STATE_ERROR)] from ERROR, ERROR -> ERROR is not
    admissible, and [enter_state] calls itself with the same argument
    for ever: no amount of fuel makes the cycle return. *)
Theorem process_cycle_does_not_return :
  exists m,
    run 4 stuck_calls power_on = Some m
    /\ state (bootloader m) = STATE_ERROR
    /\ session_active (bootloader m) = true
    /\ wire m = [NACK 0x08; ACK]
    /\ forall fuel elapsed_us, bootloader_process_cycle fuel elapsed_us m = None.
Proof.
  exists stuck_machine. split; [apply stuck_machine_reached|].
  split; [vm_compute; reflexivity|].
  split; [vm_compute; reflexivity|].
  split; [vm_compute; reflexivity|].
  intros fuel e. apply process_cycle_hangs; vm_compute; reflexivity.
Qed.

(** ** DATA packets in DFU_ACTIVE *)

Lemma dispatch_data_in_dfu fuel pkt seq m :
  state (bootloader m) = STATE_DFU_ACTIVE ->
  dispatch_packet fuel pkt seq PKT_DATA m = handle_dfu_packet fuel pkt seq PKT_DATA m.
Proof. intros Hs. unfold dispatch_packet. simpl. rewrite Hs. reflexivity. Qed.

(** C7. A DATA packet dispatched in DFU_ACTIVE is answered with exactly
    one frame: NACK(0x02) exactly when its sequence number differs from
    [expected_seq], NACK(0x03) exactly when the number matches and the
    flash driver is busy, ACK otherwise; and whenever the frame is not
    ACK, [bytes_received] and [expected_seq] are what they were before
    the dispatch. *)
Theorem rejected_data_keeps_progress fuel pkt seq m :
  state (bootloader m) = STATE_DFU_ACTIVE ->
  exists m' f,
    dispatch_packet (S fuel) pkt seq PKT_DATA m = Some m'
    /\ wire m' = f :: wire m
    /\ (f = NACK 0x02 <-> seq <> expected_seq (bootloader m))
    /\ (f = NACK 0x03 <-> seq = expected_seq (bootloader m) /\ flash_busy m = true)
    /\ (f = ACK <-> seq = expected_seq (bootloader m) /\ flash_busy m = false)
    /\ (f <> ACK ->
        bytes_received (bootloader m') = bytes_received (bootloader m)
        /\ expected_seq (bootloader m') = expected_seq (bootloader m)).
Proof.
  intros Hs. rewrite dispatch_data_in_dfu by assumption.
  unfold handle_dfu_packet. simpl (PKT_DATA =? PKT_DATA).
  destruct (Z.eqb_spec seq (expected_seq (bootloader m))) as [He|He].
  - unfold start_flash_write. destruct (flash_busy m) eqn:Hb.
    + exists (send_nack_packet 3 m), (NACK 3). simpl.
      repeat split; intuition congruence.
    + eexists _, ACK. split; [reflexivity|]. simpl.
      repeat split; intuition congruence.
  - unfold handle_emergency_condition.
    set (m1 := upd _ (send_nack_packet 2 m)).
    assert (Hs1 : state (bootloader m1) = STATE_DFU_ACTIVE) by exact Hs.
    destruct (5 <? error_count (bootloader m1)).
    + rewrite enter_state_admissible by (rewrite Hs1; reflexivity).
      eexists _, (NACK 2). split; [reflexivity|]. simpl.
      repeat split; intuition congruence.
    + eexists _, (NACK 2). split; [reflexivity|]. simpl.
      repeat split; intuition congruence.
Qed.

Lemma dfu_machine_reached : run 4 dfu_calls power_on = Some dfu_machine.
Proof. apply reached_from_idle. vm_compute. reflexivity. Qed.

Lemma dfu_machine_state : state (bootloader dfu_machine) = STATE_DFU_ACTIVE.
Proof. vm_compute. reflexivity. Qed.

Lemma rejected_data_keeps_progress_witness :
  exists m' f,
    dispatch_packet 1 zero_packet 9 PKT_DATA dfu_machine = Some m'
    /\ wire m' = f :: wire dfu_machine
    /\ (f = NACK 0x02 <-> 9 <> expected_seq (bootloader dfu_machine))
    /\ (f = NACK 0x03 <->
        9 = expected_seq (bootloader dfu_machine) /\ flash_busy dfu_machine = true)
    /\ (f = ACK <->
        9 = expected_seq (bootloader dfu_machine) /\ flash_busy dfu_machine = false)
    /\ (f <> ACK ->
        bytes_received (bootloader m') = bytes_received (bootloader dfu_machine)
        /\ expected_seq (bootloader m') = expected_seq (bootloader dfu_machine)).
Proof.
  apply (rejected_data_keeps_progress 0 zero_packet 9 dfu_machine).
  vm_compute. reflexivity.
Defined.

(** C8. A DATA packet dispatched in DFU_ACTIVE with a sequence number
    other than [expected_seq] is answered NACK(0x02) and [error_count]
    is incremented (as a [uint32_t]); when the incremented count exceeds
    5 the supervisor is in EMERGENCY_RECOVERY after the dispatch, and
    otherwise it stays in DFU_ACTIVE. *)
Theorem sequence_error_escalates fuel pkt seq m :
  state (bootloader m) = STATE_DFU_ACTIVE ->
  seq <> expected_seq (bootloader m) ->
  exists m',
    dispatch_packet (S fuel) pkt seq PKT_DATA m = Some m'
    /\ wire m' = NACK 0x02 :: wire m
    /\ error_count (bootloader m') = wrap32 (error_count (bootloader m) + 1)
    /\ (0 <= error_count (bootloader m) < 2 ^ 32 - 1 ->
        error_count (bootloader m') = error_count (bootloader m) + 1)
    /\ (5 < error_count (bootloader m') ->
        state (bootloader m') = STATE_EMERGENCY_RECOVERY
        /\ previous_state (bootloader m') = STATE_DFU_ACTIVE
        /\ force_bootloader_mode (bootloader m') = true)
    /\ (error_count (bootloader m') <= 5 ->
        state (bootloader m') = STATE_DFU_ACTIVE).
Proof.
  intros Hs He. rewrite dispatch_data_in_dfu by assumption.
  unfold handle_dfu_packet. simpl (PKT_DATA =? PKT_DATA).
  destruct (Z.eqb_spec seq (expected_seq (bootloader m))) as [?|_]; [contradiction|].
  unfold handle_emergency_condition.
  set (m1 := upd _ (send_nack_packet 2 m)).
  assert (Hs1 : state (bootloader m1) = STATE_DFU_ACTIVE) by exact Hs.
  assert (Hw : forall x, 0 <= x < 2 ^ 32 - 1 -> wrap32 (x + 1) = x + 1)
    by (intros x Hx; unfold wrap32; apply Z.mod_small; lia).
  destruct (Z.ltb_spec 5 (error_count (bootloader m1))) as [Hgt|Hle].
  - rewrite enter_state_admissible by (rewrite Hs1; reflexivity).
    eexists. split; [reflexivity|]. simpl in *.
    repeat split; auto; lia.
  - exists m1. split; [reflexivity|]. simpl in *.
    repeat split; auto; lia.
Qed.

Lemma sequence_error_escalates_witness :
  exists m',
    dispatch_packet 1 zero_packet 9 PKT_DATA dfu_machine = Some m'
    /\ wire m' = NACK 0x02 :: wire dfu_machine
    /\ error_count (bootloader m') = wrap32 (error_count (bootloader dfu_machine) + 1)
    /\ (0 <= error_count (bootloader dfu_machine) < 2 ^ 32 - 1 ->
        error_count (bootloader m') = error_count (bootloader dfu_machine) + 1)
    /\ (5 < error_count (bootloader m') ->
        state (bootloader m') = STATE_EMERGENCY_RECOVERY
        /\ previous_state (bootloader m') = STATE_DFU_ACTIVE
        /\ force_bootloader_mode (bootloader m') = true)
    /\ (error_count (bootloader m') <= 5 ->
        state (bootloader m') = STATE_DFU_ACTIVE).
Proof.
  apply (sequence_error_escalates 0 zero_packet 9 dfu_machine).
  - vm_compute. reflexivity.
  - vm_compute. discriminate.
Defined.

(** ** Dispatch in EMERGENCY_RECOVERY *)

(** C4 (as the code has it). In EMERGENCY_RECOVERY the global handlers
    come first: PING and GET_STATUS are answered with ACK.  A packet
    whose type is none of PING, GET_STATUS, EMERGENCY_RESET and ABORT is
    answered with NACK(0x10), and the frame is the only effect of the
    dispatch. *)
Theorem recovery_rejects_non_global fuel pkt seq packet_type m :
  state (bootloader m) = STATE_EMERGENCY_RECOVERY ->
  (packet_type = PKT_PING \/ packet_type = PKT_GET_STATUS ->
   dispatch_packet fuel pkt seq packet_type m = Some (send_ack_packet m))
  /\ (packet_type <> PKT_PING -> packet_type <> PKT_GET_STATUS ->
      packet_type <> PKT_EMERGENCY_RESET -> packet_type <> PKT_ABORT ->
      dispatch_packet fuel pkt seq packet_type m = Some (send_nack_packet 0x10 m)).
Proof.
  intros Hs. unfold dispatch_packet. split.
  - intros [-> | ->]; reflexivity.
  - intros H1 H2 H3 H4.
    destruct (Z.eqb_spec packet_type PKT_PING); [contradiction|].
    destruct (Z.eqb_spec packet_type PKT_GET_STATUS); [contradiction|].
    destruct (Z.eqb_spec packet_type PKT_EMERGENCY_RESET); [contradiction|].
    destruct (Z.eqb_spec packet_type PKT_ABORT); [contradiction|].
    rewrite Hs. reflexivity.
Qed.


Lemma recovery_rejects_non_global_witness :
  (PKT_START_SESSION = PKT_PING \/ PKT_START_SESSION = PKT_GET_STATUS ->
   dispatch_packet 0 zero_packet 1 PKT_START_SESSION recovery_machine
   = Some (send_ack_packet recovery_machine))
  /\ (PKT_START_SESSION <> PKT_PING -> PKT_START_SESSION <> PKT_GET_STATUS ->
      PKT_START_SESSION <> PKT_EMERGENCY_RESET -> PKT_START_SESSION <> PKT_ABORT ->
      dispatch_packet 0 zero_packet 1 PKT_START_SESSION recovery_machine
      = Some (send_nack_packet 0x10 recovery_machine)).
Proof.
  apply (recovery_rejects_non_global 0 zero_packet 1 PKT_START_SESSION recovery_machine).
  vm_compute. reflexivity.
Defined.

(** C4 as stated fails: a GET_STATUS packet received in
    EMERGENCY_RECOVERY is answered with ACK, not with NACK(0x10). *)
Lemma recovery_acks_get_status :
  exists m,
    run 4 [Receive [0x01; 0x06]; Cycle 0] recovery_machine = Some m
    /\ state (bootloader recovery_machine) = STATE_EMERGENCY_RECOVERY
    /\ state (bootloader m) = STATE_EMERGENCY_RECOVERY
    /\ packets_processed (bootloader m)
       = packets_processed (bootloader recovery_machine) + 1
    /\ wire m = ACK :: wire recovery_machine
    /\ ACK <> NACK 0x10.
Proof.
  eexists. split; [vm_compute; reflexivity|].
  repeat match goal with |- _ /\ _ => split end;
    try (vm_compute; reflexivity). discriminate.
Qed.

(** What the two remaining global types do in EMERGENCY_RECOVERY: ABORT
    is dropped without a frame; EMERGENCY_RESET asks for a transition
    ER -> ER, which is not admissible, and lands in ERROR. *)
Lemma recovery_abort_is_silent fuel pkt seq m :
  state (bootloader m) = STATE_EMERGENCY_RECOVERY ->
  dispatch_packet fuel pkt seq PKT_ABORT m = Some m.
Proof. intros Hs. unfold dispatch_packet. simpl. rewrite Hs. reflexivity. Qed.

Lemma recovery_emergency_reset_enters_error fuel pkt seq m :
  state (bootloader m) = STATE_EMERGENCY_RECOVERY ->
  dispatch_packet (S (S fuel)) pkt seq PKT_EMERGENCY_RESET m
  = Some (enter_state_actions STATE_ERROR m).
Proof.
  intros Hs. unfold dispatch_packet, handle_emergency_condition. simpl (_ =? _).
  cbv iota. apply enter_state_redirected; rewrite Hs; [reflexivity|discriminate].
Qed.

(** ** Responses *)

Lemma send_ack_wire m : wire (send_ack_packet m) = ACK :: wire m.
Proof. reflexivity. Qed.

Lemma send_nack_wire c m : wire (send_nack_packet c m) = NACK c :: wire m.
Proof. reflexivity. Qed.

Lemma enter_state_actions_wire s m : wire (enter_state_actions s m) = wire m.
Proof. destruct s; reflexivity. Qed.

Lemma enter_state_wire fuel s m m' :
  enter_state fuel s m = Some m' -> wire m' = wire m.
Proof.
  intros H. apply enter_state_result in H as [-> | [-> _]];
    apply enter_state_actions_wire.
Qed.

Lemma dispatch_answers fuel pkt seq packet_type m :
  packet_type <> PKT_EMERGENCY_RESET ->
  (packet_type = PKT_ABORT -> state (bootloader m) = STATE_DFU_ACTIVE) ->
  exists m' f,
    dispatch_packet (S (S fuel)) pkt seq packet_type m = Some m'
    /\ wire m' = f :: wire m.
Proof.
  intros Hne Hab. unfold dispatch_packet.
  destruct (Z.eqb_spec packet_type PKT_PING); [eexists _, _; split; reflexivity|].
  destruct (Z.eqb_spec packet_type PKT_GET_STATUS); [eexists _, _; split; reflexivity|].
  destruct (Z.eqb_spec packet_type PKT_EMERGENCY_RESET); [contradiction|].
  destruct (Z.eqb_spec packet_type PKT_ABORT) as [Ha|Ha].
  { rewrite (Hab Ha). simpl.
    rewrite enter_state_admissible by (rewrite (Hab Ha); reflexivity).
    eexists _, _; split; reflexivity. }
  destruct (state (bootloader m)) eqn:Hs;
    try (eexists _, _; split; reflexivity).
  - (* IDLE *)
    unfold handle_idle_packet.
    destruct (packet_type =? PKT_START_SESSION).
    + destruct (negb (force_bootloader_mode (bootloader m)) && (8 <=? length pkt)).
      * match goal with |- context [if ?c then _ else _] => destruct c end.
        -- rewrite enter_state_admissible by (simpl; rewrite Hs; reflexivity).
           eexists _, _; split; reflexivity.
        -- eexists _, _; split; reflexivity.
      * destruct (force_bootloader_mode (bootloader m));
          eexists _, _; split; reflexivity.
    + destruct (packet_type =? PKT_JUMP_APP); [|eexists _, _; split; reflexivity].
      destruct (negb (force_bootloader_mode (bootloader m)));
        [|eexists _, _; split; reflexivity].
      rewrite enter_state_redirected by (rewrite Hs; first [reflexivity|discriminate]).
      eexists _, _; split; reflexivity.
  - (* DFU_ACTIVE *)
    unfold handle_dfu_packet.
    destruct (packet_type =? PKT_DATA).
    + destruct (seq =? expected_seq (bootloader m)).
      * unfold start_flash_write. destruct (flash_busy m);
          eexists _, _; split; reflexivity.
      * match goal with |- context [if ?c then _ else _] => destruct c end.
        -- unfold handle_emergency_condition.
           rewrite enter_state_admissible by (simpl; rewrite Hs; reflexivity).
           eexists _, _; split; reflexivity.
        -- eexists _, _; split; reflexivity.
    + destruct (packet_type =? PKT_END_SESSION); [|eexists _, _; split; reflexivity].
      destruct (bytes_received (bootloader m) =? total_size (bootloader m)).
      * rewrite enter_state_admissible by (rewrite Hs; reflexivity).
        eexists _, _; split; reflexivity.
      * rewrite enter_state_admissible by (simpl; rewrite Hs; reflexivity).
        eexists _, _; split; reflexivity.
Qed.

Lemma dispatch_emergency_reset fuel pkt seq m :
  exists m',
    dispatch_packet (S (S fuel)) pkt seq PKT_EMERGENCY_RESET m = Some m'
    /\ wire m' = wire m.
Proof.
  unfold dispatch_packet, handle_emergency_condition. simpl (_ =? _). cbv iota.
  destruct (enter_state_returns fuel STATE_EMERGENCY_RECOVERY m) as [m' Hm'];
    [right; reflexivity|].
  exists m'. split; [assumption|]. eapply enter_state_wire; eassumption.
Qed.

(** C5 (as the code has it). A packet that the loop of the cycle
    dequeues and dispatches is answered with exactly one frame in the
    same turn, in every state, unless it is an EMERGENCY_RESET or an
    ABORT dispatched outside DFU_ACTIVE.  Those two are served without
    any frame: an EMERGENCY_RESET puts the supervisor in
    EMERGENCY_RECOVERY, or in ERROR when it was in EMERGENCY_RECOVERY
    already; an ABORT outside DFU_ACTIVE leaves the state as it was.  A
    packet offered to a full queue is dropped without a frame as
    well. *)
Theorem dispatched_packet_is_answered (fuel : nat) (m : machine) :
  (next_packet_type m <> PKT_EMERGENCY_RESET ->
   (next_packet_type m = PKT_ABORT -> state (bootloader m) = STATE_DFU_ACTIVE) ->
   exists m' f, process_packet (S (S fuel)) m = Some m' /\ wire m' = f :: wire m)
  /\ (next_packet_type m = PKT_EMERGENCY_RESET ->
      exists m',
        process_packet (S (S fuel)) m = Some m'
        /\ wire m' = wire m
        /\ state (bootloader m')
           = (if state_eqb (state (bootloader m)) STATE_EMERGENCY_RECOVERY
              then STATE_ERROR else STATE_EMERGENCY_RECOVERY))
  /\ (next_packet_type m = PKT_ABORT ->
      state (bootloader m) <> STATE_DFU_ACTIVE ->
      exists m',
        process_packet (S (S fuel)) m = Some m'
        /\ wire m' = wire m
        /\ state (bootloader m') = state (bootloader m))
  /\ (forall src len,
        BUFFER_SIZE <= count (bootloader m) ->
        exists m',
          bootloader_receive_packet (S (S fuel)) src len m = Some (false, m')
          /\ wire m' = wire m).
Proof.
  split; [|split; [|split]].
  - unfold next_packet_type, process_packet. intros Hne Hab.
    edestruct dispatch_answers as (m' & f & Hd & Hw); [exact Hne| |].
    2:{ rewrite Hd. eexists _, f. split; [reflexivity|]. simpl. exact Hw. }
    exact Hab.
  - unfold next_packet_type, process_packet. intros ->.
    destruct (state_eqb (state (bootloader m)) STATE_EMERGENCY_RECOVERY) eqn:He.
    + apply state_eqb_eq in He.
      rewrite recovery_emergency_reset_enters_error by exact He.
      eexists. split; [reflexivity|]. split; reflexivity.
    + unfold dispatch_packet, handle_emergency_condition. simpl (_ =? _). cbv iota.
      rewrite enter_state_admissible
        by (simpl; destruct (state (bootloader m)); try reflexivity; discriminate He).
      eexists. split; [reflexivity|]. split; reflexivity.
  - unfold next_packet_type, process_packet. intros -> Hs.
    unfold dispatch_packet. simpl (_ =? _). cbv iota. fields.
    destruct (state (bootloader m)) eqn:E; try contradiction;
      (eexists; split; [reflexivity|]; simpl; split; [reflexivity|exact E]).
  - intros src len Hc. unfold bootloader_receive_packet.
    destruct (Z.leb_spec BUFFER_SIZE (count (bootloader m))); [|lia].
    fields. unfold handle_emergency_condition.
    destruct (10 <? wrap32 (packets_dropped (bootloader m) + 1)); simpl andb; cbv iota;
      [|eexists; split; reflexivity].
    destruct (state_eqb (state (bootloader m)) STATE_EMERGENCY_RECOVERY) eqn:He;
      simpl negb; cbv iota; [eexists; split; reflexivity|].
    rewrite enter_state_admissible
      by (simpl; destruct (state (bootloader m)); try reflexivity; discriminate He).
    eexists. split; [reflexivity|]. reflexivity.
Qed.

(** C5 as stated fails: the EMERGENCY_RESET packet of the emergency test
    is dequeued and acted on, and no frame is sent for it. *)
Lemma emergency_reset_gets_no_frame :
  exists m0 m,
    run 4 [Init; Receive [0x99; 0x08]] power_on = Some m0
    /\ count (bootloader m0) = 1
    /\ bootloader_process_cycle 4 0 m0 = Some m
    /\ count (bootloader m) = 0
    /\ packets_processed (bootloader m) = 1
    /\ state (bootloader m) = STATE_EMERGENCY_RECOVERY
    /\ wire m0 = []
    /\ wire m = [].
Proof.
  eexists _, _. split; [vm_compute; reflexivity|].
  split; [vm_compute; reflexivity|].
  split; [vm_compute; reflexivity|].
  by_evaluation.
Qed.

(** An ABORT outside DFU_ACTIVE is dropped without a frame as well. *)
Lemma abort_outside_dfu_is_silent fuel pkt seq m :
  state (bootloader m) <> STATE_DFU_ACTIVE ->
  dispatch_packet fuel pkt seq PKT_ABORT m = Some m.
Proof.
  intros Hs. unfold dispatch_packet. simpl (_ =? _). cbv iota.
  destruct (state (bootloader m)); try reflexivity. contradiction.
Qed.

(** ** Verification *)

Lemma background_in_verify fuel m :
  state (bootloader m) = STATE_DFU_VERIFY ->
  background_processing (S fuel) m
  = Some (enter_state_actions
            (if 0x1234 =? expected_crc (bootloader m)
             then STATE_RUNNING_APP else STATE_ERROR)
            (snd (validate_application m))).
Proof.
  intros Hs. unfold background_processing. rewrite Hs.
  unfold validate_application. cbn [av_valid snd].
  destruct (0x1234 =? expected_crc (bootloader m));
    rewrite enter_state_admissible by (simpl; rewrite Hs; reflexivity);
    reflexivity.
Qed.

(** C3 (as the code has it). In DFU_VERIFY the background work records
    [size = bytes_received], takes the simulated constant 0x1234 as the
    calculated CRC whatever was written, and compares it with the
    session's [expected_crc]: the comparison succeeds exactly when
    [expected_crc] is 0x1234; success enters RUNNING_APP and failure
    enters ERROR. *)
Theorem verify_compares_with_constant fuel m :
  state (bootloader m) = STATE_DFU_VERIFY ->
  exists m',
    background_processing (S fuel) m = Some m'
    /\ size (app_validation (bootloader m')) = bytes_received (bootloader m)
    /\ calculated_crc (app_validation (bootloader m')) = 0x1234
    /\ av_expected_crc (app_validation (bootloader m')) = expected_crc (bootloader m)
    /\ (av_valid (app_validation (bootloader m')) = true
        <-> expected_crc (bootloader m) = 0x1234)
    /\ (expected_crc (bootloader m) = 0x1234 ->
        state (bootloader m') = STATE_RUNNING_APP)
    /\ (expected_crc (bootloader m) <> 0x1234 ->
        state (bootloader m') = STATE_ERROR).
Proof.
  intros Hs. rewrite background_in_verify by assumption.
  eexists. split; [reflexivity|].
  unfold validate_application.
  destruct (Z.eqb_spec 0x1234 (expected_crc (bootloader m))) as [He|He]; simpl.
  all: repeat split; intros; try congruence; try reflexivity.
Qed.

Lemma verify_machine_reached_0 : run 4 (verify_calls 0) power_on = Some (verify_machine 0).
Proof. apply reached_from_idle. vm_compute. reflexivity. Qed.

Lemma verify_machine_reached_1 : run 4 (verify_calls 1) power_on = Some (verify_machine 1).
Proof. apply reached_from_idle. vm_compute. reflexivity. Qed.

Lemma verify_compares_with_constant_witness :
  exists m',
    background_processing 1 (verify_machine 0) = Some m'
    /\ size (app_validation (bootloader m')) = bytes_received (bootloader (verify_machine 0))
    /\ calculated_crc (app_validation (bootloader m')) = 0x1234
    /\ av_expected_crc (app_validation (bootloader m'))
       = expected_crc (bootloader (verify_machine 0))
    /\ (av_valid (app_validation (bootloader m')) = true
        <-> expected_crc (bootloader (verify_machine 0)) = 0x1234)
    /\ (expected_crc (bootloader (verify_machine 0)) = 0x1234 ->
        state (bootloader m') = STATE_RUNNING_APP)
    /\ (expected_crc (bootloader (verify_machine 0)) <> 0x1234 ->
        state (bootloader m') = STATE_ERROR).
Proof.
  apply (verify_compares_with_constant 0 (verify_machine 0)).
  vm_compute. reflexivity.
Defined.

(** C3 as stated fails.  Two sessions that differ in the byte written
    (images [[0]] and [[1]]) and declare the same [expected_crc] both
    verify; so no function that tells the two images apart (as any CRC
    does for a one-bit difference) is the CRC that the verify step
    compares. *)
Lemma verify_ignores_image :
  (reachable (verify_machine 0) /\ reachable (verify_machine 1)
   /\ state (bootloader (verify_machine 0)) = STATE_DFU_VERIFY
   /\ state (bootloader (verify_machine 1)) = STATE_DFU_VERIFY
   /\ image (verify_machine 0) = [0] /\ image (verify_machine 1) = [1]
   /\ expected_crc (bootloader (verify_machine 0)) = 0x1234
   /\ expected_crc (bootloader (verify_machine 1)) = 0x1234)
  /\ ~ (exists crc : list Z -> Z, crc [0] <> crc [1] /\ verifies_by_crc crc).
Proof.
  assert (R0 : reachable (verify_machine 0))
    by (exists 4%nat, (verify_calls 0); apply verify_machine_reached_0).
  assert (R1 : reachable (verify_machine 1))
    by (exists 4%nat, (verify_calls 1); apply verify_machine_reached_1).
  assert (S0 : state (bootloader (verify_machine 0)) = STATE_DFU_VERIFY)
    by (vm_compute; reflexivity).
  assert (S1 : state (bootloader (verify_machine 1)) = STATE_DFU_VERIFY)
    by (vm_compute; reflexivity).
  assert (I0 : image (verify_machine 0) = [0]) by (vm_compute; reflexivity).
  assert (I1 : image (verify_machine 1) = [1]) by (vm_compute; reflexivity).
  assert (E0 : expected_crc (bootloader (verify_machine 0)) = 0x1234)
    by (vm_compute; reflexivity).
  assert (E1 : expected_crc (bootloader (verify_machine 1)) = 0x1234)
    by (vm_compute; reflexivity).
  split; [exact (conj R0 (conj R1 (conj S0 (conj S1 (conj I0 (conj I1 (conj E0 E1)))))))|].
  intros (crc & Hdiff & Hclaim).
  pose proof (background_in_verify 0 _ S0) as B0.
  pose proof (background_in_verify 0 _ S1) as B1.
  rewrite E0 in B0. rewrite E1 in B1.
  destruct (Hclaim _ _ _ R0 S0 B0) as [_ F0].
  destruct (Hclaim _ _ _ R1 S1 B1) as [_ F1].
  rewrite I0, E0 in F0. rewrite I1, E1 in F1.
  assert (C0 : crc [0] = 4660).
  { destruct (Z.eq_dec (crc [0]) 4660) as [?|D]; [assumption|].
    specialize (F0 D). discriminate F0. }
  assert (C1 : crc [1] = 4660).
  { destruct (Z.eq_dec (crc [1]) 4660) as [?|D]; [assumption|].
    specialize (F1 D). discriminate F1. }
  congruence.
Qed.

(** ** The packet queue *)

Lemma memcpy_prefix dst src n :
  (Z.to_nat n <= Datatypes.length src)%nat ->
  firstn (Z.to_nat n) (memcpy dst src n) = firstn (Z.to_nat n) src.
Proof.
  intros H. unfold memcpy.
  rewrite take_app_le by (rewrite length_take; lia).
  apply take_idemp.
Qed.

Lemma memcpy_length dst src n :
  (Z.to_nat n <= Datatypes.length src)%nat ->
  Datatypes.length (memcpy dst src n)
  = Nat.max (Z.to_nat n) (Datatypes.length dst).
Proof.
  intros H. unfold memcpy.
  rewrite length_app, length_take, length_drop. lia.
Qed.

(** What an accepted enqueue does: the slot at [head] receives [len]
    bytes of the caller's buffer whatever [len] is, with the length and
    the valid flag; [head] and [count] advance; the activity time is the
    tick just read. *)
Lemma receive_packet_accepts fuel src len m :
  count (bootloader m) < BUFFER_SIZE ->
  exists m',
    bootloader_receive_packet fuel src len m = Some (true, m')
    /\ buffer (bootloader m')
       = <[Z.to_nat (head (bootloader m)) :=
             {| data := memcpy (data (buffer (bootloader m)
                                        !!! Z.to_nat (head (bootloader m)))) src len;
                length := len; valid := true |}]> (buffer (bootloader m))
    /\ head (bootloader m') = Z.rem (head (bootloader m) + 1) BUFFER_SIZE
    /\ count (bootloader m') = count (bootloader m) + 1
    /\ last_activity_time (bootloader m') = wrap32 (tick m + 1000)
    /\ tick m' = wrap32 (tick m + 1000).
Proof.
  intros Hc. unfold bootloader_receive_packet.
  destruct (Z.leb_spec BUFFER_SIZE (count (bootloader m))); [lia|].
  eexists. split; [reflexivity|]. simpl. repeat split; reflexivity.
Qed.

(** C6. The enqueue does not bound the copy by [MAX_PACKET_SIZE]: it
    copies the caller's [length] bytes.  For the 258-byte DATA packet
    that the workflow test sends right after initialisation, the packet
    is accepted and all 258 bytes are written from the start of the
    256-byte array of slot 0; the slot is marked valid with length 258,
    [head] and [count] advance and [last_activity_time] is the tick
    just read. *)
Theorem receive_copies_caller_length :
  exists m0 m1,
    bootloader_init 2 power_on = Some m0
    /\ bootloader_receive_packet 2 (workflow_data_packet 1) 258 m0 = Some (true, m1)
    /\ data (buffer (bootloader m1) !!! 0%nat) = workflow_data_packet 1
    /\ Z.of_nat (Datatypes.length (data (buffer (bootloader m1) !!! 0%nat))) = 258
    /\ MAX_PACKET_SIZE < 258
    /\ length (buffer (bootloader m1) !!! 0%nat) = 258
    /\ valid (buffer (bootloader m1) !!! 0%nat) = true
    /\ head (bootloader m0) = 0 /\ head (bootloader m1) = 1
    /\ count (bootloader m0) = 0 /\ count (bootloader m1) = 1
    /\ last_activity_time (bootloader m1) = tick m1.
Proof.
  eexists _, _. split; [vm_compute; reflexivity|].
  split; [vm_compute; reflexivity|].
  by_evaluation.
Qed.

(** ** Invariants of the reachable machines *)

Lemma run_preserves (P : machine -> Prop) :
  (forall fuel c m m', P m -> run_call fuel c m = Some m' -> P m') ->
  forall fuel cs m m', P m -> run fuel cs m = Some m' -> P m'.
Proof.
  intros Hstep fuel cs. induction cs as [|c cs IH]; intros m m' HP Hrun; simpl in Hrun.
  - injection Hrun as <-. exact HP.
  - destruct (run_call fuel c m) as [m1|] eqn:Hc; [|discriminate].
    eapply IH; [|exact Hrun]. eapply Hstep; eassumption.
Qed.

(** Case analysis of a hypothesis [f ... = Some m'] along the branches
    of [f]. *)
Ltac break_some :=
  repeat match goal with
    | H : Some _ = Some _ |- _ => injection H as H
    | H : None = Some _ |- _ => discriminate H
    | H : (match ?x with Some _ => _ | None => None end) = Some _ |- _ =>
        let E := fresh "E" in destruct x eqn:E; [|discriminate H]
    | H : (if ?c then _ else _) = Some _ |- _ =>
        let E := fresh "C" in destruct c eqn:E
    | H : (match ?s with STATE_IDLE => _ | _ => _ end) = Some _ |- _ =>
        let E := fresh "S" in destruct s eqn:E
    | H : (let '(_, _) := (if ?c then _ else _) in _) = Some _ |- _ =>
        let E := fresh "C" in destruct c eqn:E; cbv beta iota in H
    end.

Ltac enter_cases :=
  repeat match goal with
    | H : enter_state _ _ _ = Some _ |- _ =>
        apply enter_state_result in H; destruct H as [H | (H & _ & _)]
    | H : handle_emergency_condition _ _ = Some _ |- _ =>
        unfold handle_emergency_condition in H
    end.










(** ** Recovery time-out *)

Lemma is_flash_operation_complete_frame e m :
  bootloader (snd (is_flash_operation_complete e m)) = bootloader m
  /\ tick (snd (is_flash_operation_complete e m)) = tick m
  /\ wire (snd (is_flash_operation_complete e m)) = wire m.
Proof.
  unfold is_flash_operation_complete.
  destruct (negb (flash_busy m)); [auto|].
  destruct (2000 <? e); auto.
Qed.







(** ** Sessions and the one-byte sequence number *)

Lemma wrap32_small x : 0 <= x < 2 ^ 32 -> wrap32 x = x.
Proof. intros H. unfold wrap32. apply Z.mod_small. exact H. Qed.

Lemma wrap_size_small x : 0 <= x < 2 ^ 64 -> wrap_size x = x.
Proof. intros H. unfold wrap_size. apply Z.mod_small. exact H. Qed.

Lemma slot_ok_lookup (l : list packet_t) (i : nat) :
  Forall slot_ok l -> slot_ok (l !!! i).
Proof.
  intros Hl. rewrite list_lookup_total_alt.
  destruct (l !! i) as [p|] eqn:Hp; simpl.
  - eapply Forall_lookup_1; eassumption.
  - intros Hv. discriminate Hv.
Qed.

Ltac bounded_tac :=
  break_some; enter_cases; subst; unfold session_bounded in *; simpl in *;
  try (intuition (try lia; try discriminate; auto); fail).

Lemma handle_idle_packet_bounded fuel pkt seq packet_type m m' :
  session_bounded m ->
  handle_idle_packet fuel pkt seq packet_type m = Some m' ->
  session_bounded m'.
Proof. intros HP H. unfold handle_idle_packet in H. bounded_tac. Qed.

Lemma handle_dfu_packet_bounded fuel pkt packet_type m m' :
  session_bounded m ->
  state (bootloader m) = STATE_DFU_ACTIVE ->
  2 <= length pkt <= MAX_PACKET_SIZE ->
  0 <= nth 0 (data pkt) 0 < 256 ->
  handle_dfu_packet fuel pkt (nth 0 (data pkt) 0) packet_type m = Some m' ->
  session_bounded m'.
Proof.
  intros HP Hs Hl Hq H. unfold handle_dfu_packet, start_flash_write in H.
  unfold MAX_PACKET_SIZE in Hl.
  destruct (packet_type =? PKT_DATA); [|bounded_tac].
  destruct (Z.eqb_spec (nth 0 (data pkt) 0) (expected_seq (bootloader m)))
    as [He|He]; [|bounded_tac].
  destruct (flash_busy m); [bounded_tac|].
  injection H as <-. unfold session_bounded in *. simpl.
  destruct HP as (H1 & H2 & H3 & H4 & H5). specialize (H4 Hs).
  rewrite (wrap_size_small (length pkt - 2)) by lia.
  rewrite (wrap32_small (bytes_received (bootloader m) + (length pkt - 2))) by lia.
  rewrite (wrap32_small (expected_seq (bootloader m) + 1)) by lia.
  repeat split; try lia. exact H5.
Qed.

Lemma dispatch_packet_bounded fuel pkt packet_type m m' :
  session_bounded m ->
  2 <= length pkt <= MAX_PACKET_SIZE ->
  0 <= nth 0 (data pkt) 0 < 256 ->
  dispatch_packet fuel pkt (nth 0 (data pkt) 0) packet_type m = Some m' ->
  session_bounded m'.
Proof.
  intros HP Hl Hq H. unfold dispatch_packet in H.
  destruct (packet_type =? PKT_PING); [bounded_tac|].
  destruct (packet_type =? PKT_GET_STATUS); [bounded_tac|].
  destruct (packet_type =? PKT_EMERGENCY_RESET); [bounded_tac|].
  destruct (packet_type =? PKT_ABORT); [bounded_tac|].
  destruct (state (bootloader m)) eqn:Hs;
    first [ eapply handle_idle_packet_bounded; eassumption
          | eapply handle_dfu_packet_bounded; eassumption
          | bounded_tac ].
Qed.

Lemma dispatch_packet_buffer fuel pkt seq packet_type m m' :
  dispatch_packet fuel pkt seq packet_type m = Some m' ->
  buffer (bootloader m') = buffer (bootloader m)
  /\ count (bootloader m') = count (bootloader m)
  /\ tail (bootloader m') = tail (bootloader m).
Proof.
  intros H. unfold dispatch_packet, handle_idle_packet, handle_dfu_packet,
    start_flash_write in H.
  break_some; enter_cases; subst; simpl; auto.
Qed.

Lemma process_packet_bounded fuel m m' :
  session_bounded m ->
  valid (buffer (bootloader m) !!! Z.to_nat (tail (bootloader m))) = true ->
  process_packet fuel m = Some m' ->
  session_bounded m'.
Proof.
  intros HP Hv H. unfold process_packet in H.
  set (pkt := buffer (bootloader m) !!! Z.to_nat (tail (bootloader m))) in *.
  assert (Hok : slot_ok pkt) by (apply slot_ok_lookup, HP).
  destruct (Hok Hv) as [Hl Hq].
  destruct (dispatch_packet _ _ _ _ _) as [m1|] eqn:Hd; [|discriminate].
  injection H as <-.
  pose proof (dispatch_packet_buffer _ _ _ _ _ _ Hd) as (Hb & _ & _).
  apply dispatch_packet_bounded in Hd; [|exact HP|exact Hl|exact Hq].
  unfold session_bounded in *. simpl in *.
  destruct Hd as (H1 & H2 & H3 & H4 & H5).
  repeat split; try assumption; try lia.
  apply Forall_insert; [exact H5|]. intros Hf. discriminate Hf.
Qed.

Lemma process_packets_bounded n fuel m m' :
  session_bounded m -> process_packets n fuel m = Some m' -> session_bounded m'.
Proof.
  revert m. induction n as [|n IH]; intros m HP H; simpl in H; [discriminate|].
  destruct (0 <? count (bootloader m)); [|injection H as <-; exact HP].
  destruct (valid _) eqn:Hv; simpl in H; [|injection H as <-; exact HP].
  destruct (process_packet fuel m) as [m1|] eqn:Hp; [|discriminate].
  eapply IH; [|exact H]. eapply process_packet_bounded; eassumption.
Qed.

Lemma handle_timeout_checks_bounded fuel m m' :
  session_bounded m -> handle_timeout_checks fuel m = Some m' ->
  session_bounded m'.
Proof. intros HP H. unfold handle_timeout_checks in H. simpl in H. bounded_tac. Qed.

Lemma background_processing_bounded fuel m m' :
  session_bounded m -> background_processing fuel m = Some m' ->
  session_bounded m'.
Proof.
  intros HP H. unfold background_processing, validate_application in H.
  simpl in H. bounded_tac.
Qed.

Lemma process_cycle_bounded fuel e m m' :
  session_bounded m -> bootloader_process_cycle fuel e m = Some m' ->
  session_bounded m'.
Proof.
  intros HP H. unfold bootloader_process_cycle in H.
  destruct (handle_timeout_checks fuel m) as [m1|] eqn:H1; [|discriminate].
  apply handle_timeout_checks_bounded in H1; [|exact HP].
  assert (H2 : session_bounded (snd (is_flash_operation_complete e m1))).
  { unfold session_bounded.
    destruct (is_flash_operation_complete_frame e m1) as (-> & _ & _). exact H1. }
  destruct (is_flash_operation_complete e m1) as [r m2]. simpl in H2.
  destruct (background_processing fuel m2) as [m3|] eqn:H3; [|discriminate].
  apply background_processing_bounded in H3; [|exact H2].
  eapply process_packets_bounded; [exact H3|exact H].
Qed.

Lemma nth_0_memcpy dst src n :
  (1 <= Z.to_nat n <= Datatypes.length src)%nat ->
  nth 0 (memcpy dst src n) 0 = nth 0 src 0.
Proof.
  intros H. unfold memcpy.
  destruct src as [|x src]; simpl in H; [lia|].
  destruct (Z.to_nat n) as [|k]; [lia|]. reflexivity.
Qed.

Lemma zero_buffer_ok : Forall slot_ok (buffer zero_bootloader).
Proof.
  apply List.Forall_forall. intros p Hp Hv.
  apply repeat_spec in Hp. subst p. discriminate Hv.
Qed.

Lemma run_call_bounded fuel c m m' :
  call_fits c = true ->
  session_bounded m -> run_call fuel c m = Some m' -> session_bounded m'.
Proof.
  intros Hf HP H. destruct c as [|src|e|]; simpl in H.
  - unfold bootloader_init in H. break_some; enter_cases; subst;
      unfold session_bounded; fields; unfold enter_state_actions; fields;
      repeat split; try lia; try discriminate; apply zero_buffer_ok.
  - simpl in Hf. unfold packet_fits in Hf.
    apply andb_prop in Hf as [Hf Hbytes]. apply andb_prop in Hf as [Hlo Hhi].
    apply Z.leb_le in Hlo, Hhi.
    unfold bootloader_receive_packet in H.
    destruct (BUFFER_SIZE <=? count (bootloader m)); simpl in H.
    + bounded_tac.
    + injection H as <-. unfold session_bounded in *. simpl.
      destruct HP as (H1 & H2 & H3 & H4 & H5).
      repeat split; try assumption; try lia.
      apply Forall_insert; [exact H5|]. intros _. simpl.
      split; [lia|].
      rewrite nth_0_memcpy by lia.
      destruct src as [|x src]; [simpl in Hlo; lia|].
      simpl in Hbytes. apply andb_prop in Hbytes as [Hx _].
      unfold is_byte in Hx. apply andb_prop in Hx as [Ha Hb].
      apply Z.leb_le in Ha. apply Z.ltb_lt in Hb. simpl. lia.
  - eapply process_cycle_bounded; eassumption.
  - injection H as <-. exact HP.
Qed.

Lemma run_bounded fuel cs m m' :
  forallb call_fits cs = true ->
  session_bounded m -> run fuel cs m = Some m' -> session_bounded m'.
Proof.
  revert m. induction cs as [|c cs IH]; intros m Hf HP H; simpl in H.
  - injection H as <-. exact HP.
  - simpl in Hf. apply andb_prop in Hf as [Hc Hcs].
    destruct (run_call fuel c m) as [m1|] eqn:H1; [|discriminate].
    eapply IH; [exact Hcs| |exact H]. eapply run_call_bounded; eassumption.
Qed.

Lemma reachable_fitting_bounded m : reachable_fitting m -> session_bounded m.
Proof.
  intros (fuel & cs & Hf & Hrun).
  eapply run_bounded; [exact Hf| |exact Hrun].
  unfold session_bounded. fields.
  repeat split; try lia; try discriminate. apply zero_buffer_ok.
Qed.

Lemma dispatch_end_session_in_dfu fuel pkt seq m :
  state (bootloader m) = STATE_DFU_ACTIVE ->
  bytes_received (bootloader m) <> total_size (bootloader m) ->
  dispatch_packet (S fuel) pkt seq PKT_END_SESSION m
  = Some (enter_state_actions STATE_ERROR (send_nack_packet 0x08 m)).
Proof.
  intros Hs Hne. unfold dispatch_packet. simpl (_ =? _). cbv iota. rewrite Hs.
  unfold handle_dfu_packet. simpl (_ =? _). cbv iota.
  destruct (Z.eqb_spec (bytes_received (bootloader m)) (total_size (bootloader m)));
    [contradiction|].
  apply enter_state_admissible. simpl. rewrite Hs. reflexivity.
Qed.

(** C10 (as the code has it). When every packet enqueued so far has
    between 2 and [MAX_PACKET_SIZE] bytes, a supervisor in DFU_ACTIVE
    has [expected_seq] between 1 and 256 and at most
    254 * ([expected_seq] - 1), hence at most 64770, bytes received.
    A DATA packet is accepted only when its one-byte sequence number
    equals [expected_seq], which then grows by exactly one, so at most
    255 are accepted in a session: once [expected_seq] is 256 every DATA
    is answered NACK(0x02).  A session that declared more than 64770
    bytes cannot be completed: END_SESSION is answered NACK(0x08) and
    the supervisor enters ERROR, not DFU_VERIFY. *)
Theorem session_takes_at_most_255_data m :
  reachable_fitting m ->
  state (bootloader m) = STATE_DFU_ACTIVE ->
  1 <= expected_seq (bootloader m) <= 256
  /\ 0 <= bytes_received (bootloader m) <= 254 * (expected_seq (bootloader m) - 1)
  /\ bytes_received (bootloader m) <= 255 * 254
  /\ (forall fuel pkt seq m',
        0 <= seq < 256 ->
        dispatch_packet fuel pkt seq PKT_DATA m = Some m' ->
        wire m' = ACK :: wire m ->
        seq = expected_seq (bootloader m)
        /\ expected_seq (bootloader m) <= 255
        /\ expected_seq (bootloader m') = expected_seq (bootloader m) + 1)
  /\ (forall fuel pkt seq,
        0 <= seq < 256 ->
        expected_seq (bootloader m) = 256 ->
        exists m',
          dispatch_packet (S fuel) pkt seq PKT_DATA m = Some m'
          /\ wire m' = NACK 0x02 :: wire m
          /\ expected_seq (bootloader m') = 256
          /\ bytes_received (bootloader m') = bytes_received (bootloader m))
  /\ (forall fuel pkt seq,
        255 * 254 < total_size (bootloader m) ->
        exists m',
          dispatch_packet (S fuel) pkt seq PKT_END_SESSION m = Some m'
          /\ wire m' = NACK 0x08 :: wire m
          /\ state (bootloader m') = STATE_ERROR).
Proof.
  intros Hr Hs.
  destruct (reachable_fitting_bounded m Hr) as (H1 & H2 & H3 & H4 & _).
  specialize (H4 Hs).
  assert (Hmax : Z.max 0 (expected_seq (bootloader m) - 1)
                 = expected_seq (bootloader m) - 1) by lia.
  rewrite Hmax in H3.
  split; [lia|]. split; [lia|]. split; [lia|]. split; [|split].
  - intros fuel pkt seq m' Hq Hd Hw.
    rewrite dispatch_data_in_dfu in Hd by assumption.
    unfold handle_dfu_packet, start_flash_write, handle_emergency_condition in Hd.
    simpl (PKT_DATA =? PKT_DATA) in Hd. cbv iota in Hd.
    destruct (Z.eqb_spec seq (expected_seq (bootloader m))) as [He|He].
    + destruct (flash_busy m).
      * injection Hd as <-. discriminate Hw.
      * injection Hd as <-. simpl.
        rewrite wrap32_small by lia. repeat split; lia.
    + break_some; enter_cases; subst; simpl in Hw; discriminate Hw.
  - intros fuel pkt seq Hq He.
    rewrite dispatch_data_in_dfu by assumption.
    unfold handle_dfu_packet, handle_emergency_condition.
    simpl (PKT_DATA =? PKT_DATA). cbv iota.
    destruct (Z.eqb_spec seq (expected_seq (bootloader m))) as [Heq|_]; [lia|].
    match goal with |- context [if ?c then _ else _] => destruct c end.
    + rewrite enter_state_admissible by (simpl; rewrite Hs; reflexivity).
      eexists. split; [reflexivity|]. simpl. repeat split; auto.
    + eexists. split; [reflexivity|]. simpl. repeat split; auto.
  - intros fuel pkt seq Ht.
    rewrite dispatch_end_session_in_dfu by (try assumption; lia).
    eexists. split; [reflexivity|]. simpl. split; reflexivity.
Qed.

Lemma dfu_calls_fit : forallb call_fits dfu_calls = true.
Proof. vm_compute. reflexivity. Qed.

Lemma option_map_some {A B : Type} (f : A -> B) (o : option A) (d : A) (v : B) :
  option_map f o = Some v -> o = Some (default d o) /\ f (default d o) = v.
Proof. destruct o as [a|]; simpl; [intros [= <-]; auto|discriminate]. Qed.

Lemma exhausted_run :
  option_map (fun m => (state (bootloader m), expected_seq (bootloader m),
                        bytes_received (bootloader m), total_size (bootloader m)))
    (run 4 exhausted_session_calls idle_machine)
  = Some (STATE_DFU_ACTIVE, 256, 255 * 254, 65280).
Proof. vm_compute. reflexivity. Qed.

Lemma exhausted_calls_fit : forallb call_fits exhausted_calls = true.
Proof. vm_compute. reflexivity. Qed.

Lemma exhausted_machine_reached :
  run 4 exhausted_calls power_on = Some exhausted_machine
  /\ state (bootloader exhausted_machine) = STATE_DFU_ACTIVE
  /\ expected_seq (bootloader exhausted_machine) = 256
  /\ bytes_received (bootloader exhausted_machine) = 255 * 254
  /\ total_size (bootloader exhausted_machine) = 65280.
Proof.
  destruct (option_map_some _ _ power_on _ exhausted_run) as [Hrun E].
  split.
  - unfold exhausted_calls. rewrite run_app, idle_machine_reached. exact Hrun.
  - apply pair_eq_inv in E as [E H4]. apply pair_eq_inv in E as [E H3].
    apply pair_eq_inv in E as [H1 H2].
    exact (conj H1 (conj H2 (conj H3 H4))).
Qed.

Lemma session_takes_at_most_255_data_witness :
  expected_seq (bootloader exhausted_machine) = 256
  /\ bytes_received (bootloader exhausted_machine) = 255 * 254
  /\ 255 * 254 < total_size (bootloader exhausted_machine)
  /\ (exists m',
        dispatch_packet 1 zero_packet 0 PKT_DATA exhausted_machine = Some m'
        /\ wire m' = NACK 0x02 :: wire exhausted_machine
        /\ expected_seq (bootloader m') = 256
        /\ bytes_received (bootloader m') = bytes_received (bootloader exhausted_machine))
  /\ (exists m',
        dispatch_packet 1 zero_packet 0 PKT_END_SESSION exhausted_machine = Some m'
        /\ wire m' = NACK 0x08 :: wire exhausted_machine
        /\ state (bootloader m') = STATE_ERROR).
Proof.
  destruct exhausted_machine_reached as (Hrun & Hs & Hseq & Hrec & Htot).
  assert (Hbig : 255 * 254 < total_size (bootloader exhausted_machine))
    by (rewrite Htot; reflexivity).
  destruct (session_takes_at_most_255_data exhausted_machine)
    as (_ & _ & _ & _ & Hnack & Hend).
  - exists 4%nat, exhausted_calls. exact (conj exhausted_calls_fit Hrun).
  - exact Hs.
  - split; [exact Hseq|]. split; [exact Hrec|]. split; [exact Hbig|].
    split.
    + apply (Hnack 0%nat zero_packet 0); [split; [discriminate|reflexivity]|exact Hseq].
    + apply (Hend 0%nat zero_packet 0). exact Hbig.
Defined.

Lemma full_payload_machine_reached :
  run 4 full_payload_calls power_on = Some full_payload_machine.
Proof. apply reached_from_idle. vm_compute. reflexivity. Qed.

(** C10 as stated fails: the payload of a DATA packet is not capped at
    254 bytes, and with 256-byte payloads a session that declared
    65280 > 255 * 254 bytes receives them all and reaches DFU_VERIFY
    through END_SESSION. *)
Lemma oversize_session_completes :
  run 4 full_payload_calls power_on = Some full_payload_machine
  /\ state (bootloader full_payload_machine) = STATE_DFU_VERIFY
  /\ previous_state (bootloader full_payload_machine) = STATE_DFU_ACTIVE
  /\ total_size (bootloader full_payload_machine) = 65280
  /\ 255 * 254 < total_size (bootloader full_payload_machine)
  /\ bytes_received (bootloader full_payload_machine)
     = total_size (bootloader full_payload_machine)
  /\ expected_seq (bootloader full_payload_machine) = 256
  /\ packets_processed (bootloader full_payload_machine) = 257
  /\ hd (NACK 0) (wire full_payload_machine) = ACK.
Proof.
  split; [apply full_payload_machine_reached|].
  assert (E : (state (bootloader full_payload_machine),
               previous_state (bootloader full_payload_machine),
               total_size (bootloader full_payload_machine),
               bytes_received (bootloader full_payload_machine),
               expected_seq (bootloader full_payload_machine),
               packets_processed (bootloader full_payload_machine),
               hd (NACK 0) (wire full_payload_machine))
              = (STATE_DFU_VERIFY, STATE_DFU_ACTIVE, 65280, 65280, 256, 257, ACK))
    by (vm_compute; reflexivity).
  apply pair_eq_inv in E as [E H7]. apply pair_eq_inv in E as [E H6].
  apply pair_eq_inv in E as [E H5]. apply pair_eq_inv in E as [E H4].
  apply pair_eq_inv in E as [E H3]. apply pair_eq_inv in E as [H1 H2].
  split; [exact H1|]. split; [exact H2|]. split; [exact H3|].
  split; [lia|]. split; [exact (eq_trans H4 (eq_sym H3))|].
  split; [exact H5|]. split; [exact H6|exact H7].
Qed.

(** ** When the cycle returns *)

Lemma handle_timeout_checks_count fuel m m' :
  handle_timeout_checks fuel m = Some m' ->
  count (bootloader m') = count (bootloader m).
Proof.
  intros H. unfold handle_timeout_checks in H. simpl in H.
  break_some; enter_cases; subst; reflexivity.
Qed.

Lemma background_processing_count fuel m m' :
  background_processing fuel m = Some m' ->
  count (bootloader m') = count (bootloader m).
Proof.
  intros H. unfold background_processing, validate_application in H. simpl in H.
  break_some; enter_cases; subst; reflexivity.
Qed.

Lemma handle_timeout_checks_returns fuel m :
  ~ (state (bootloader m) = STATE_ERROR /\ session_timed_out m = true) ->
  exists m', handle_timeout_checks (S (S fuel)) m = Some m'.
Proof.
  intros Hok. unfold handle_timeout_checks. fields.
  change (session_active (bootloader m)
          && (wrap32 (session_timeout_ms (bootloader m) * 1000)
              <? wrap32 (wrap32 (tick m + 1000) - last_activity_time (bootloader m))))
    with (session_timed_out m).
  set (m0 := set_tick _ m).
  assert (Hs0 : state (bootloader m0) = state (bootloader m)) by reflexivity.
  destruct (session_timed_out m) eqn:Hc.
  - assert (Hne : state (bootloader m0) <> STATE_ERROR) by (rewrite Hs0; tauto).
    assert (Hv : validate_state_transition (state (bootloader m0)) STATE_ERROR = true)
      by (destruct (state (bootloader m0)); try reflexivity; contradiction).
    rewrite (enter_state_admissible _ _ _ Hv).
    set (m1 := enter_state_actions STATE_ERROR m0).
    assert (Hs1 : state (bootloader m1) = STATE_ERROR) by reflexivity.
    rewrite Hs1.
    match goal with |- context [if ?c then _ else _] => destruct c end; [|eauto].
    apply enter_state_returns. right. reflexivity.
  - destruct (state (bootloader m0)) eqn:Hs; eauto.
    + match goal with |- context [if ?c then _ else _] => destruct c end; [|eauto].
      apply enter_state_returns. left. rewrite Hs. discriminate.
    + match goal with |- context [if ?c then _ else _] => destruct c end; [|eauto].
      apply enter_state_returns. right. reflexivity.
Qed.

Lemma background_processing_returns fuel m :
  exists m', background_processing (S (S fuel)) m = Some m'.
Proof.
  unfold background_processing.
  destruct (state (bootloader m)) eqn:Hs; eauto.
  - unfold validate_application. cbn [av_valid].
    match goal with |- context [if ?c then _ else _] => destruct c end;
      apply enter_state_returns; left; simpl; rewrite Hs; discriminate.
  - apply enter_state_returns. left. rewrite Hs. discriminate.
  - fields.
    match goal with |- context [if ?c then _ else _] => destruct c end; [|eauto].
    apply enter_state_returns. left. simpl. rewrite Hs. discriminate.
Qed.

Lemma dispatch_packet_returns fuel pkt seq packet_type m :
  exists m', dispatch_packet (S (S fuel)) pkt seq packet_type m = Some m'.
Proof.
  destruct (Z.eq_dec packet_type PKT_EMERGENCY_RESET) as [->|Hne].
  { destruct (dispatch_emergency_reset fuel pkt seq m) as (m' & H & _). eauto. }
  destruct (Z.eq_dec packet_type PKT_ABORT) as [->|Hna].
  - destruct (state_eqb (state (bootloader m)) STATE_DFU_ACTIVE) eqn:Hs.
    + apply state_eqb_eq in Hs.
      destruct (dispatch_answers fuel pkt seq PKT_ABORT m) as (m' & f & H & _);
        [discriminate|auto|eauto].
    + rewrite abort_outside_dfu_is_silent; [eauto|].
      intros Heq. apply state_eqb_eq in Heq. congruence.
  - destruct (dispatch_answers fuel pkt seq packet_type m) as (m' & f & H & _);
      [assumption|contradiction|eauto].
Qed.

Lemma process_packets_returns n fuel m :
  (Z.to_nat (count (bootloader m)) < n)%nat ->
  exists m', process_packets n (S (S fuel)) m = Some m'.
Proof.
  revert m. induction n as [|n IH]; intros m Hn; [lia|]. simpl.
  destruct (Z.ltb_spec 0 (count (bootloader m))) as [Hpos|_]; [|eauto].
  destruct (negb _); [eauto|].
  unfold process_packet.
  match goal with |- context [dispatch_packet ?f ?p ?s ?t ?x] =>
    destruct (dispatch_packet_returns fuel p s t x) as (m1 & Hd);
    pose proof (dispatch_packet_buffer _ _ _ _ _ _ Hd) as (_ & Hc & _);
    rewrite Hd
  end.
  apply IH. simpl in *. rewrite Hc. lia.
Qed.

(** The cycle returns from every machine but those of
    [process_cycle_hangs]: with fuel above the queue count (and at least
    2 for [enter_state]), it yields a machine unless the supervisor is
    in ERROR with the session-inactivity time-out expired. *)
Lemma process_cycle_returns_unless_stuck fuel e m :
  ~ (state (bootloader m) = STATE_ERROR /\ session_timed_out m = true) ->
  (Z.to_nat (count (bootloader m)) < S (S fuel))%nat ->
  exists m', bootloader_process_cycle (S (S fuel)) e m = Some m'.
Proof.
  intros Hok Hn. unfold bootloader_process_cycle.
  destruct (handle_timeout_checks_returns fuel m Hok) as (m1 & H1).
  rewrite H1. apply handle_timeout_checks_count in H1.
  destruct (is_flash_operation_complete_frame e m1) as (Hb & _ & _).
  destruct (is_flash_operation_complete e m1) as [r m2]. simpl in Hb.
  destruct (background_processing_returns fuel m2) as (m3 & H3).
  rewrite H3. apply background_processing_count in H3.
  apply process_packets_returns. rewrite H3, Hb, H1. exact Hn.
Qed.

(** ** The scenarios of the test suite *)

(** PING and GET_STATUS right after initialisation are acknowledged
    (the basic-commands test), while the supervisor is in ERROR. *)
Example basic_commands :
  option_map (fun m => (wire m, state (bootloader m), packets_processed (bootloader m)))
    (run 4 [Init; Receive [0x00; 0x05]; Cycle 0; Receive [0x01; 0x06]; Cycle 0] power_on)
  = Some ([ACK; ACK], STATE_ERROR, 2).
Proof. vm_compute. reflexivity. Qed.

(** START_SESSION right after initialisation is refused with NACK(0x11):
    the supervisor is in ERROR, not IDLE. *)
Example start_session_after_init :
  option_map (fun m => (wire m, state (bootloader m)))
    (run 4 [Init; Receive [0x00; 0x01; 0x00; 0x00; 0x02; 0x00; 0x12; 0x34]; Cycle 0]
       power_on)
  = Some ([NACK 0x11], STATE_ERROR).
Proof. vm_compute. reflexivity. Qed.

(** From IDLE: a 512-byte session of two 258-byte DATA packets, then
    END_SESSION, verification, launch and return to IDLE; the second
    DATA packet is first refused while the flash is busy. *)
Example workflow_from_idle :
  option_map (fun m => (wire m, state (bootloader m), bytes_received (bootloader m),
                        app_launch_attempts (bootloader m)))
    (run 4 [Receive [0x00; 0x01; 0x00; 0x00; 0x02; 0x00; 0x12; 0x34]; Cycle 0;
            Receive (workflow_data_packet 1); Cycle 0;
            Receive (workflow_data_packet 2); Cycle 0;
            Receive (workflow_data_packet 2); Cycle 3000;
            Receive [0x03; 0x03]; Cycle 3000; Cycle 0; Cycle 0] idle_machine)
  = Some ([ACK; ACK; NACK 0x03; ACK; ACK], STATE_IDLE, 0, 1).
Proof. vm_compute. reflexivity. Qed.

(** * Further properties of the supervisor *)

(** ** Entering a state *)

(** X1. What a call of [enter_state] does.  From ERROR, a request for
    any state but IDLE and EMERGENCY_RECOVERY never returns.  In every
    other case the call returns (two activations suffice): the new state
    is the requested one when the table admits the transition and ERROR
    otherwise, so that the transition actually made is always in the
    table; the state left is recorded as [previous_state], the entry
    time is the tick read by the call, and no frame is sent. *)
Theorem enter_state_outcome (new_state : bootloader_state_t) (m : machine) :
  (state (bootloader m) = STATE_ERROR
   /\ validate_state_transition STATE_ERROR new_state = false ->
   forall fuel, enter_state fuel new_state m = None)
  /\ (state (bootloader m) <> STATE_ERROR
      \/ validate_state_transition STATE_ERROR new_state = true ->
      forall fuel, exists m',
        enter_state (S (S fuel)) new_state m = Some m'
        /\ state (bootloader m')
           = (if validate_state_transition (state (bootloader m)) new_state
              then new_state else STATE_ERROR)
        /\ validate_state_transition (state (bootloader m)) (state (bootloader m')) = true
        /\ previous_state (bootloader m') = state (bootloader m)
        /\ state_entry_time (bootloader m') = wrap32 (tick m + 1000)
        /\ tick m' = wrap32 (tick m + 1000)
        /\ wire m' = wire m).
Proof.
  split.
  - intros [Hs Hv] fuel. apply enter_state_error_loops; assumption.
  - intros H fuel.
    destruct (validate_state_transition (state (bootloader m)) new_state) eqn:Hv.
    + rewrite enter_state_admissible by exact Hv.
      eexists. split; [reflexivity|].
      destruct new_state; simpl; repeat split; try reflexivity; exact Hv.
    + assert (Hne : state (bootloader m) <> STATE_ERROR).
      { destruct H as [H|H]; [exact H|]. intros Hs. rewrite Hs in Hv. congruence. }
      rewrite enter_state_redirected by assumption.
      eexists. split; [reflexivity|]. simpl.
      repeat split; try reflexivity.
      destruct (state (bootloader m)); try reflexivity. contradiction.
Qed.

(** ** The packet queue *)

Lemma ring_index_inj t k k' :
  0 <= k < BUFFER_SIZE -> 0 <= k' < BUFFER_SIZE ->
  (t + k) mod BUFFER_SIZE = (t + k') mod BUFFER_SIZE -> k = k'.
Proof. unfold BUFFER_SIZE. intros Hk Hk' H. Z.div_mod_to_equations. lia. Qed.

Lemma slot_index_inj b k k' :
  0 <= k < BUFFER_SIZE -> 0 <= k' < BUFFER_SIZE ->
  slot_index b k = slot_index b k' -> k = k'.
Proof.
  intros Hk Hk' H. unfold slot_index in H.
  apply (ring_index_inj (tail b)); [exact Hk|exact Hk'|].
  apply Z2Nat.inj; [apply Z.mod_pos_bound; reflexivity
                   |apply Z.mod_pos_bound; reflexivity|exact H].
Qed.

Lemma slot_index_lt b k : (slot_index b k < Z.to_nat BUFFER_SIZE)%nat.
Proof.
  unfold slot_index.
  pose proof (Z.mod_pos_bound (tail b + k) BUFFER_SIZE eq_refl). lia.
Qed.

Lemma slot_index_0 b : 0 <= tail b < BUFFER_SIZE -> slot_index b 0 = Z.to_nat (tail b).
Proof.
  intros H. unfold slot_index. rewrite Z.add_0_r, Z.mod_small by exact H. reflexivity.
Qed.

Lemma map_seqZ_ext {A : Type} (f g : Z -> A) a n :
  (forall k, a <= k < a + n -> f k = g k) ->
  map f (seqZ a n) = map g (seqZ a n).
Proof.
  intros H. apply map_ext_in. intros k Hk.
  apply list_elem_of_In, elem_of_seqZ in Hk. apply H, Hk.
Qed.

Lemma zero_buffer_lookup (n i : nat) : valid (repeat zero_packet n !!! i) = false.
Proof.
  revert i. induction n as [|n IH]; intros i; [destruct i; reflexivity|].
  destruct i as [|i]; [reflexivity|]. apply (IH i).
Qed.

Lemma queue_ok_zero m :
  buffer (bootloader m) = repeat zero_packet (Z.to_nat BUFFER_SIZE) ->
  head (bootloader m) = 0 -> tail (bootloader m) = 0 -> count (bootloader m) = 0 ->
  queue_ok m.
Proof.
  intros Hb Hh Ht Hc. unfold queue_ok. rewrite Hb, Hh, Ht, Hc.
  split; [apply repeat_length|].
  repeat split; try (unfold BUFFER_SIZE; lia).
  intros k Hk. rewrite zero_buffer_lookup. symmetry. apply Z.ltb_ge. lia.
Qed.

(** The queue and the count of served packets are touched by the
    enqueue and by the loop of the cycle only. *)
Lemma enter_state_queue fuel s m m' :
  enter_state fuel s m = Some m' -> queue_state m' = queue_state m.
Proof.
  intros H. apply enter_state_result in H as [-> | [-> _]].
  - destruct s; reflexivity.
  - reflexivity.
Qed.

Lemma dispatch_packet_queue fuel pkt seq packet_type m m' :
  dispatch_packet fuel pkt seq packet_type m = Some m' ->
  queue_state m' = queue_state m.
Proof.
  intros H. unfold dispatch_packet, handle_idle_packet, handle_dfu_packet,
    start_flash_write in H.
  break_some; enter_cases; subst; reflexivity.
Qed.

Lemma handle_timeout_checks_queue fuel m m' :
  handle_timeout_checks fuel m = Some m' -> queue_state m' = queue_state m.
Proof.
  intros H. unfold handle_timeout_checks in H. simpl in H.
  break_some; enter_cases; subst; reflexivity.
Qed.

Lemma background_processing_queue fuel m m' :
  background_processing fuel m = Some m' -> queue_state m' = queue_state m.
Proof.
  intros H. unfold background_processing, validate_application in H. simpl in H.
  break_some; enter_cases; subst; reflexivity.
Qed.

Lemma queue_state_inv m m' :
  queue_state m' = queue_state m ->
  buffer (bootloader m') = buffer (bootloader m)
  /\ head (bootloader m') = head (bootloader m)
  /\ tail (bootloader m') = tail (bootloader m)
  /\ count (bootloader m') = count (bootloader m)
  /\ packets_processed (bootloader m') = packets_processed (bootloader m).
Proof. unfold queue_state. intros [= -> -> -> -> ->]. auto. Qed.

Lemma queue_ok_frame m m' :
  queue_state m' = queue_state m -> queue_ok m -> queue_ok m'.
Proof.
  intros H. apply queue_state_inv in H as (Hb & Hh & Ht & Hc & _).
  unfold queue_ok, slot_index. rewrite Hb, Hh, Ht, Hc. exact (fun x => x).
Qed.

Lemma queued_frame m m' : queue_state m' = queue_state m -> queued m' = queued m.
Proof.
  intros H. apply queue_state_inv in H as (Hb & Hh & Ht & Hc & _).
  unfold queued, slot_index. rewrite Hb, Ht, Hc. reflexivity.
Qed.

(** An accepted enqueue, on a well-formed ring. *)
Lemma receive_packet_enqueues fuel src len m :
  queue_ok m ->
  count (bootloader m) < BUFFER_SIZE ->
  exists m',
    bootloader_receive_packet fuel src len m = Some (true, m')
    /\ queue_ok m'
    /\ queued m'
       = queued m
         ++ [{| data := memcpy (data (buffer (bootloader m)
                                        !!! Z.to_nat (head (bootloader m)))) src len;
                length := len; valid := true |}].
Proof.
  intros (Hlen & Ht & Hc & Hh & Hv) Hlt. unfold bootloader_receive_packet.
  destruct (Z.leb_spec BUFFER_SIZE (count (bootloader m))); [lia|].
  eexists. split; [reflexivity|].
  set (p := Build_packet_t _ _ _).
  assert (Hhead : Z.to_nat (head (bootloader m)) = slot_index (bootloader m)
                                                     (count (bootloader m)))
    by (unfold slot_index; rewrite Hh; reflexivity).
  split.
  - unfold queue_ok, slot_index. fields. rewrite length_insert.
    split; [exact Hlen|]. split; [exact Ht|]. split; [lia|].
    split.
    { rewrite Hh. rewrite Z.rem_mod_nonneg.
      - unfold BUFFER_SIZE. Z.div_mod_to_equations. lia.
      - pose proof (Z.mod_pos_bound (tail (bootloader m) + count (bootloader m))
                      BUFFER_SIZE eq_refl). lia.
      - reflexivity. }
    intros k Hk. rewrite Hhead.
    destruct (Z.eq_dec k (count (bootloader m))) as [->|Hne].
    + rewrite list_lookup_total_insert_eq
        by (rewrite Hlen; apply slot_index_lt).
      simpl. symmetry. apply Z.ltb_lt. lia.
    + rewrite list_lookup_total_insert_ne.
      * change (Z.to_nat ((tail (bootloader m) + k) mod BUFFER_SIZE))
          with (slot_index (bootloader m) k).
        rewrite (Hv k Hk).
        destruct (Z.ltb_spec k (count (bootloader m)));
          destruct (Z.ltb_spec k (count (bootloader m) + 1)); try reflexivity; lia.
      * intros Hi. apply Hne. symmetry.
        apply (slot_index_inj (bootloader m)); [lia|exact Hk|exact Hi].
  - unfold queued, slot_index. fields.
    rewrite (seqZ_app 0 (count (bootloader m)) 1) by lia.
    rewrite map_app. f_equal.
    + apply map_seqZ_ext. intros k Hk. rewrite Hhead.
      apply list_lookup_total_insert_ne. intros Hi.
      assert (count (bootloader m) = k); [|lia].
      apply (slot_index_inj (bootloader m)); [lia|lia|exact Hi].
    + simpl. f_equal. rewrite Hhead. unfold slot_index.
      apply list_lookup_total_insert_eq. rewrite Hlen. apply slot_index_lt.
Qed.

(** One turn of the loop, on a well-formed ring that is not empty. *)
Lemma process_packet_dequeues fuel m m' :
  queue_ok m ->
  0 < count (bootloader m) ->
  process_packet fuel m = Some m' ->
  queue_ok m'
  /\ queued m' = tl (queued m)
  /\ count (bootloader m') = count (bootloader m) - 1
  /\ packets_processed (bootloader m') = wrap32 (packets_processed (bootloader m) + 1).
Proof.
  intros (Hlen & Ht & Hc & Hh & Hv) Hpos H. unfold process_packet in H.
  destruct (dispatch_packet _ _ _ _ _) as [m1|] eqn:Hd; [|discriminate].
  injection H as <-.
  apply dispatch_packet_queue, queue_state_inv in Hd as (Hb1 & Hh1 & Ht1 & Hc1 & Hp1).
  fields_in Hb1. fields_in Hh1. fields_in Ht1. fields_in Hc1. fields_in Hp1.
  assert (Htail : Z.to_nat (tail (bootloader m)) = slot_index (bootloader m) 0)
    by (symmetry; apply slot_index_0, Ht).
  assert (Hrem : Z.rem (tail (bootloader m) + 1) BUFFER_SIZE
                 = (tail (bootloader m) + 1) mod BUFFER_SIZE)
    by (apply Z.rem_mod_nonneg; [lia|reflexivity]).
  assert (Hshift : forall k, 0 <= k ->
            ((tail (bootloader m) + 1) mod BUFFER_SIZE + k) mod BUFFER_SIZE
            = (tail (bootloader m) + (k + 1)) mod BUFFER_SIZE).
  { intros k Hk. unfold BUFFER_SIZE. Z.div_mod_to_equations. lia. }
  split; [|split; [|split]].
  - unfold queue_ok, slot_index. fields. rewrite Hb1, Hh1, Ht1, Hc1, Hrem.
    rewrite length_insert.
    split; [exact Hlen|].
    split; [apply Z.mod_pos_bound; reflexivity|]. split; [lia|].
    split.
    { rewrite Hh. unfold BUFFER_SIZE. Z.div_mod_to_equations. lia. }
    intros k Hk. rewrite Hshift by lia. rewrite Htail.
    change (Z.to_nat ((tail (bootloader m) + (k + 1)) mod BUFFER_SIZE))
      with (slot_index (bootloader m) (k + 1)).
    destruct (Z.eq_dec k (BUFFER_SIZE - 1)) as [->|Hne].
    + replace (slot_index (bootloader m) (BUFFER_SIZE - 1 + 1))
        with (slot_index (bootloader m) 0).
      * rewrite list_lookup_total_insert_eq by (rewrite Hlen; apply slot_index_lt).
        simpl. symmetry. apply Z.ltb_ge. lia.
      * unfold slot_index. f_equal. unfold BUFFER_SIZE.
        Z.div_mod_to_equations. lia.
    + rewrite list_lookup_total_insert_ne.
      * rewrite (Hv (k + 1)) by lia.
        destruct (Z.ltb_spec (k + 1) (count (bootloader m)));
          destruct (Z.ltb_spec k (count (bootloader m) - 1)); try reflexivity; lia.
      * intros Hi. apply (slot_index_inj (bootloader m)) in Hi; lia.
  - unfold queued, slot_index. fields. rewrite Hb1, Ht1, Hc1, Hrem.
    rewrite (seqZ_cons 0 (count (bootloader m))) by lia. cbn [map tl].
    rewrite <- (fmap_add_seqZ 1 0).
    change (Z.pred (count (bootloader m))) with (count (bootloader m) - 1).
    change (Z.add 1 <$> seqZ 0 (count (bootloader m) - 1))
      with (map (Z.add 1) (seqZ 0 (count (bootloader m) - 1))).
    rewrite map_map. apply map_seqZ_ext. intros k Hk.
    rewrite Hshift by lia. rewrite Z.add_comm with (n := 1). rewrite Htail.
    apply list_lookup_total_insert_ne. intros Hi.
    apply (slot_index_inj (bootloader m)) in Hi; lia.
  - fields. exact Hc1.
  - fields. exact Hp1.
Qed.

Lemma process_packets_drain n fuel m m' :
  queue_ok m ->
  0 <= packets_processed (bootloader m) < 2 ^ 32 ->
  process_packets n fuel m = Some m' ->
  queue_ok m'
  /\ count (bootloader m') = 0
  /\ packets_processed (bootloader m')
     = wrap32 (packets_processed (bootloader m) + count (bootloader m)).
Proof.
  revert m. induction n as [|n IH]; intros m Hok Hpp H; simpl in H; [discriminate|].
  pose proof Hok as (Hlen & Ht & Hc & Hh & Hv).
  destruct (Z.ltb_spec 0 (count (bootloader m))) as [Hpos|Hz].
  - rewrite <- slot_index_0 in H by exact Ht.
    rewrite (Hv 0) in H by (unfold BUFFER_SIZE; lia).
    destruct (Z.ltb_spec 0 (count (bootloader m))); [|lia]. simpl in H.
    destruct (process_packet fuel m) as [m1|] eqn:Hp; [|discriminate].
    apply process_packet_dequeues in Hp as (Hok1 & _ & Hc1 & Hp1);
      [|exact Hok|exact Hpos].
    assert (Hpp1 : 0 <= packets_processed (bootloader m1) < 2 ^ 32)
      by (rewrite Hp1; apply Z.mod_pos_bound; reflexivity).
    destruct (IH m1 Hok1 Hpp1 H) as (Hok' & Hc' & Hp').
    split; [exact Hok'|]. split; [exact Hc'|].
    rewrite Hp', Hp1, Hc1. unfold wrap32.
    rewrite Zplus_mod_idemp_l. f_equal. lia.
  - injection H as <-. split; [exact Hok|]. split; [lia|].
    replace (count (bootloader m)) with 0 by lia.
    rewrite Z.add_0_r. symmetry. apply wrap32_small. exact Hpp.
Qed.

(** A refused enqueue: the queue is as it was. *)
Lemma receive_packet_drops fuel src len m :
  BUFFER_SIZE <= count (bootloader m) ->
  exists m',
    bootloader_receive_packet (S fuel) src len m = Some (false, m')
    /\ queue_state m' = queue_state m
    /\ wire m' = wire m
    /\ packets_dropped (bootloader m') = wrap32 (packets_dropped (bootloader m) + 1)
    /\ last_activity_time (bootloader m') = last_activity_time (bootloader m)
    /\ state (bootloader m')
       = (if 10 <? wrap32 (packets_dropped (bootloader m) + 1)
          then STATE_EMERGENCY_RECOVERY else state (bootloader m)).
Proof.
  intros Hc. unfold bootloader_receive_packet.
  destruct (Z.leb_spec BUFFER_SIZE (count (bootloader m))); [|lia].
  fields. unfold handle_emergency_condition.
  destruct (10 <? wrap32 (packets_dropped (bootloader m) + 1)); simpl.
  - destruct (state_eqb (state (bootloader m)) STATE_EMERGENCY_RECOVERY) eqn:Hs; simpl.
    + apply state_eqb_eq in Hs. eexists. split; [reflexivity|]. simpl.
      repeat split; try reflexivity. exact Hs.
    + rewrite enter_state_admissible
        by (simpl; destruct (state (bootloader m)); try reflexivity; discriminate Hs).
      eexists. split; [reflexivity|]. simpl. repeat split; reflexivity.
  - eexists. split; [reflexivity|]. simpl. repeat split; reflexivity.
Qed.

Lemma run_call_queue_ok fuel c m m' :
  queue_ok m -> run_call fuel c m = Some m' -> queue_ok m'.
Proof.
  intros Hok H. destruct c as [|src|e|]; simpl in H.
  - unfold bootloader_init in H.
    apply enter_state_queue in H. apply (queue_ok_frame _ _ H).
    apply queue_ok_zero; reflexivity.
  - destruct (Z.ltb_spec (count (bootloader m)) BUFFER_SIZE) as [Hlt|Hge].
    + destruct (receive_packet_enqueues fuel src (Z.of_nat (Datatypes.length src))
                  m Hok Hlt) as (m1 & Hr & Hok1 & _).
      rewrite Hr in H. injection H as <-. exact Hok1.
    + destruct fuel as [|fuel].
      * unfold bootloader_receive_packet in H.
        destruct (Z.leb_spec BUFFER_SIZE (count (bootloader m))); [|lia].
        unfold handle_emergency_condition in H.
        match type of H with context [if ?c then _ else _] => destruct c end;
          [discriminate H|].
        injection H as <-. exact Hok.
      * destruct (receive_packet_drops fuel src (Z.of_nat (Datatypes.length src))
                    m Hge) as (m1 & Hr & Hq & _).
        rewrite Hr in H. injection H as <-. exact (queue_ok_frame _ _ Hq Hok).
  - unfold bootloader_process_cycle in H.
    destruct (handle_timeout_checks fuel m) as [m1|] eqn:H1; [|discriminate].
    apply handle_timeout_checks_queue in H1.
    assert (H2 : queue_state (snd (is_flash_operation_complete e m1)) = queue_state m1).
    { unfold queue_state.
      destruct (is_flash_operation_complete_frame e m1) as (-> & _ & _). reflexivity. }
    destruct (is_flash_operation_complete e m1) as [r m2]. simpl in H2.
    destruct (background_processing fuel m2) as [m3|] eqn:H3; [|discriminate].
    apply background_processing_queue in H3.
    assert (Hok3 : queue_ok m3).
    { apply (queue_ok_frame _ _ H3), (queue_ok_frame _ _ H2), (queue_ok_frame _ _ H1).
      exact Hok. }
    clear H1 H2 H3. revert m3 Hok3 H. generalize fuel at 1.
    intros n. induction n as [|n IH]; intros m3 Hok3 H; simpl in H; [discriminate|].
    destruct (0 <? count (bootloader m3)) eqn:Hpos; [|injection H as <-; exact Hok3].
    destruct (negb _); [injection H as <-; exact Hok3|].
    destruct (process_packet fuel m3) as [m4|] eqn:Hp; [|discriminate].
    apply (IH m4); [|exact H].
    apply process_packet_dequeues in Hp as (Hok4 & _); [exact Hok4|exact Hok3|].
    apply Z.ltb_lt, Hpos.
  - injection H as <-. exact Hok.
Qed.

Lemma reachable_queue_ok m : reachable m -> queue_ok m.
Proof.
  intros (fuel & cs & Hrun).
  apply (run_preserves queue_ok run_call_queue_ok fuel cs power_on m);
    [apply queue_ok_zero; reflexivity|exact Hrun].
Qed.

Lemma reachable_fitting_reachable m : reachable_fitting m -> reachable m.
Proof. intros (fuel & cs & _ & Hrun). exists fuel, cs. exact Hrun. Qed.

Lemma three_queued_machine_reached :
  run 4 three_queued_calls power_on = Some three_queued_machine.
Proof. apply run_returned. vm_compute. reflexivity. Qed.

(** X2. The ring buffer stays well formed.  In every machine reached
    by calls of the API whose packets fit a slot, [count] is between 0
    and [BUFFER_SIZE], [tail] is a slot number, [head] is [count] slots
    behind [tail] modulo [BUFFER_SIZE], and the slots marked valid are
    exactly the [count] slots from [tail] on. *)
Theorem queue_invariant (m : machine) :
  reachable_fitting m -> queue_ok m.
Proof. intros H. apply reachable_queue_ok, reachable_fitting_reachable, H. Qed.

Lemma queue_invariant_witness : queue_ok three_queued_machine.
Proof.
  apply (queue_invariant three_queued_machine).
  exists 4%nat, three_queued_calls.
  split; [vm_compute; reflexivity|apply three_queued_machine_reached].
Defined.

(** X3. An enqueue of at most [MAX_PACKET_SIZE] bytes on a queue that
    is not full is accepted and puts the packet behind those already
    waiting: the queue read from [tail] is the old one followed by the
    new packet, whose length is the caller's and whose first [len]
    bytes are the caller's; no frame is sent and the state does not
    change. *)
Theorem receive_enqueues_at_back (fuel : nat) (src : list Z) (len : Z) (m : machine) :
  queue_ok m ->
  count (bootloader m) < BUFFER_SIZE ->
  0 <= len <= MAX_PACKET_SIZE ->
  (Z.to_nat len <= Datatypes.length src)%nat ->
  exists p m',
    bootloader_receive_packet fuel src len m = Some (true, m')
    /\ queued m' = queued m ++ [p]
    /\ length p = len
    /\ valid p = true
    /\ firstn (Z.to_nat len) (data p) = firstn (Z.to_nat len) src
    /\ queue_ok m'
    /\ state (bootloader m') = state (bootloader m)
    /\ wire m' = wire m.
Proof.
  intros Hok Hlt _ Hlen.
  destruct (receive_packet_enqueues fuel src len m Hok Hlt) as (m' & Hr & Hok' & Hq).
  eexists _, m'. split; [exact Hr|]. split; [exact Hq|].
  split; [reflexivity|]. split; [reflexivity|].
  split; [apply memcpy_prefix, Hlen|]. split; [exact Hok'|].
  unfold bootloader_receive_packet in Hr.
  destruct (Z.leb_spec BUFFER_SIZE (count (bootloader m))); [lia|].
  injection Hr as <-. split; reflexivity.
Qed.

Lemma receive_enqueues_at_back_witness :
  exists p m',
    bootloader_receive_packet 1 [0x03; 0x05] 2 three_queued_machine = Some (true, m')
    /\ queued m' = queued three_queued_machine ++ [p]
    /\ length p = 2
    /\ valid p = true
    /\ firstn (Z.to_nat 2) (data p) = firstn (Z.to_nat 2) [0x03; 0x05]
    /\ queue_ok m'
    /\ state (bootloader m') = state (bootloader three_queued_machine)
    /\ wire m' = wire three_queued_machine.
Proof.
  apply (receive_enqueues_at_back 1 [0x03; 0x05] 2 three_queued_machine).
  - apply reachable_queue_ok. exists 4%nat, three_queued_calls.
    apply three_queued_machine_reached.
  - vm_compute. reflexivity.
  - vm_compute. split; discriminate.
  - vm_compute. lia.
Defined.



(** X5. A cycle that returns has served the whole queue.  On a
    well-formed queue, unless [enter_state(STATE_ERROR)] is due while the
    supervisor is in ERROR, the cycle returns with the queue empty and
    [packets_processed] advanced by the number of packets that were
    waiting. *)
Theorem cycle_serves_whole_queue (fuel : nat) (e : Z) (m : machine) :
  queue_ok m ->
  0 <= packets_processed (bootloader m) < 2 ^ 32 ->
  ~ stuck m ->
  (15 <= fuel)%nat ->
  exists m',
    bootloader_process_cycle (S (S fuel)) e m = Some m'
    /\ count (bootloader m') = 0
    /\ queued m' = []
    /\ packets_processed (bootloader m')
       = wrap32 (packets_processed (bootloader m) + count (bootloader m))
    /\ queue_ok m'.
Proof.
  intros Hok Hpp Hns Hfuel.
  pose proof Hok as (_ & _ & Hc & _).
  destruct (process_cycle_returns_unless_stuck fuel e m Hns) as (m' & Hm').
  { unfold BUFFER_SIZE in Hc. lia. }
  exists m'. split; [exact Hm'|].
  unfold bootloader_process_cycle in Hm'.
  destruct (handle_timeout_checks (S (S fuel)) m) as [m1|] eqn:H1; [|discriminate].
  apply handle_timeout_checks_queue in H1.
  assert (H2 : queue_state (snd (is_flash_operation_complete e m1)) = queue_state m1).
  { unfold queue_state.
    destruct (is_flash_operation_complete_frame e m1) as (-> & _ & _). reflexivity. }
  destruct (is_flash_operation_complete e m1) as [r m2]. simpl in H2.
  destruct (background_processing (S (S fuel)) m2) as [m3|] eqn:H3; [|discriminate].
  apply background_processing_queue in H3.
  assert (Hq3 : queue_state m3 = queue_state m) by congruence.
  pose proof (queue_ok_frame _ _ Hq3 Hok) as Hok3.
  apply queue_state_inv in Hq3 as (_ & _ & _ & Hc3 & Hp3).
  apply process_packets_drain in Hm' as (Hok' & Hc' & Hp');
    [|exact Hok3|rewrite Hp3; exact Hpp].
  split; [exact Hc'|]. split; [unfold queued; rewrite Hc'; reflexivity|].
  split; [rewrite Hp', Hp3, Hc3; reflexivity|exact Hok'].
Qed.

Lemma cycle_serves_whole_queue_witness :
  exists m',
    bootloader_process_cycle 17 0 three_queued_machine = Some m'
    /\ count (bootloader m') = 0
    /\ queued m' = []
    /\ packets_processed (bootloader m')
       = wrap32 (packets_processed (bootloader three_queued_machine)
                 + count (bootloader three_queued_machine))
    /\ queue_ok m'.
Proof.
  apply (cycle_serves_whole_queue 15 0 three_queued_machine).
  - apply reachable_queue_ok. exists 4%nat, three_queued_calls.
    apply three_queued_machine_reached.
  - vm_compute. split; [discriminate|reflexivity].
  - unfold stuck. vm_compute. intros [_ H]. discriminate H.
  - lia.
Defined.

(** X6. When the cycle returns.  [bootloader_process_cycle] fails to
    return exactly when the supervisor is in ERROR and the
    session-inactivity time-out has expired on the tick that the cycle
    reads: then no amount of fuel helps; in every other machine it
    returns as soon as the fuel covers the packets waiting (and the two
    activations of [enter_state]). *)
Theorem cycle_returns_unless_stuck (m : machine) :
  (stuck m -> forall fuel e, bootloader_process_cycle fuel e m = None)
  /\ (~ stuck m ->
      forall fuel e,
        (Z.to_nat (count (bootloader m)) < S (S fuel))%nat ->
        exists m', bootloader_process_cycle (S (S fuel)) e m = Some m').
Proof.
  split.
  - intros [Hs Ht] fuel e. apply process_cycle_hangs; assumption.
  - intros Hns fuel e Hn. apply process_cycle_returns_unless_stuck; assumption.
Qed.

(** X7. The enqueue of a packet of at most [MAX_PACKET_SIZE] bytes
    (all of them in the caller's buffer) always returns, accepts exactly when the queue is not full, and
    never sends a frame.  A refused packet leaves the queue and the
    activity time as they were and is counted in [packets_dropped];
    when that count exceeds 10 the supervisor is in EMERGENCY_RECOVERY
    after the call, otherwise its state is as before. *)
Theorem receive_outcome (fuel : nat) (src : list Z) (len : Z) (m : machine) :
  0 <= len <= MAX_PACKET_SIZE ->
  (Z.to_nat len <= Datatypes.length src)%nat ->
  exists r m',
    bootloader_receive_packet (S fuel) src len m = Some (r, m')
    /\ (r = true <-> count (bootloader m) < BUFFER_SIZE)
    /\ wire m' = wire m
    /\ (r = true ->
        count (bootloader m') = count (bootloader m) + 1
        /\ last_activity_time (bootloader m') = wrap32 (tick m + 1000)
        /\ packets_dropped (bootloader m') = packets_dropped (bootloader m)
        /\ state (bootloader m') = state (bootloader m))
    /\ (r = false ->
        queue_state m' = queue_state m
        /\ last_activity_time (bootloader m') = last_activity_time (bootloader m)
        /\ packets_dropped (bootloader m') = wrap32 (packets_dropped (bootloader m) + 1)
        /\ state (bootloader m')
           = (if 10 <? wrap32 (packets_dropped (bootloader m) + 1)
              then STATE_EMERGENCY_RECOVERY else state (bootloader m))).
Proof.
  intros _ _.
  destruct (Z.ltb_spec (count (bootloader m)) BUFFER_SIZE) as [Hlt|Hge].
  - exists true. unfold bootloader_receive_packet.
    destruct (Z.leb_spec BUFFER_SIZE (count (bootloader m))); [lia|].
    eexists. split; [reflexivity|]. simpl.
    split; [tauto|]. split; [reflexivity|].
    split; [intros _; repeat split; reflexivity|discriminate].
  - destruct (receive_packet_drops fuel src len m Hge)
      as (m' & Hr & Hq & Hw & Hd & Ha & Hs).
    exists false, m'. split; [exact Hr|].
    split; [split; [discriminate|lia]|]. split; [exact Hw|].
    split; [discriminate|]. intros _. auto.
Qed.

Lemma receive_outcome_witness :
  exists r m',
    bootloader_receive_packet 1 [0x03; 0x05] 2 three_queued_machine = Some (r, m')
    /\ (r = true <-> count (bootloader three_queued_machine) < BUFFER_SIZE)
    /\ wire m' = wire three_queued_machine
    /\ (r = true ->
        count (bootloader m') = count (bootloader three_queued_machine) + 1
        /\ last_activity_time (bootloader m') = wrap32 (tick three_queued_machine + 1000)
        /\ packets_dropped (bootloader m')
           = packets_dropped (bootloader three_queued_machine)
        /\ state (bootloader m') = state (bootloader three_queued_machine))
    /\ (r = false ->
        queue_state m' = queue_state three_queued_machine
        /\ last_activity_time (bootloader m')
           = last_activity_time (bootloader three_queued_machine)
        /\ packets_dropped (bootloader m')
           = wrap32 (packets_dropped (bootloader three_queued_machine) + 1)
        /\ state (bootloader m')
           = (if 10 <? wrap32 (packets_dropped (bootloader three_queued_machine) + 1)
              then STATE_EMERGENCY_RECOVERY
              else state (bootloader three_queued_machine))).
Proof.
  apply (receive_outcome 0 [0x03; 0x05] 2 three_queued_machine).
  - vm_compute. split; discriminate.
  - vm_compute. lia.
Defined.

(** ** Dispatch by state *)

Lemma dispatch_by_state fuel pkt seq packet_type m :
  is_global packet_type = false ->
  dispatch_packet fuel pkt seq packet_type m
  = match state (bootloader m) with
    | STATE_IDLE => handle_idle_packet fuel pkt seq packet_type m
    | STATE_DFU_ACTIVE => handle_dfu_packet fuel pkt seq packet_type m
    | STATE_EMERGENCY_RECOVERY => Some (send_nack_packet 0x10 m)
    | _ => Some (send_nack_packet 0x11 m)
    end.
Proof.
  unfold is_global, dispatch_packet. intros H.
  destruct (packet_type =? PKT_PING); [discriminate H|].
  destruct (packet_type =? PKT_GET_STATUS); [discriminate H|].
  destruct (packet_type =? PKT_EMERGENCY_RESET); [discriminate H|].
  destruct (packet_type =? PKT_ABORT); [discriminate H|].
  reflexivity.
Qed.

Lemma lor_multiple x lo n :
  0 <= n -> 0 <= lo < 2 ^ n -> x mod 2 ^ n = 0 -> Z.lor x lo = x + lo.
Proof.
  intros Hn Hlo Hx.
  assert (Hland : Z.land x lo = 0).
  { apply Z.bits_inj'. intros i Hi. rewrite Z.land_spec, Z.bits_0.
    destruct (Z.lt_ge_cases i n) as [Hlt|Hge].
    - rewrite (Z.div_mod x (2 ^ n)) by lia. rewrite Hx, Z.add_0_r.
      rewrite Z.mul_comm, Z.mul_pow2_bits_low by lia. reflexivity.
    - replace (Z.testbit lo i) with false; [apply andb_false_r|].
      symmetry. destruct (Z.eq_dec lo 0) as [->|Hne]; [apply Z.bits_0|].
      apply Z.bits_above_log2; [lia|].
      assert (Z.log2 lo < n) by (apply Z.log2_lt_pow2; lia). lia. }
  rewrite <- Z.lxor_lor by exact Hland. symmetry.
  apply Z.add_nocarry_lxor. exact Hland.
Qed.

Lemma nth_is_byte (l : list Z) (i : nat) :
  forallb is_byte l = true -> 0 <= nth i l 0 < 256.
Proof.
  revert i. induction l as [|x l IH]; intros i H.
  - destruct i; simpl; lia.
  - simpl in H. apply andb_prop in H as [Hx Hl].
    destruct i as [|i]; simpl; [|apply IH, Hl].
    unfold is_byte in Hx. apply andb_prop in Hx as [Ha Hb].
    apply Z.leb_le in Ha. apply Z.ltb_lt in Hb. lia.
Qed.

Lemma start_session_fields (pkt : packet_t) :
  forallb is_byte (data pkt) = true ->
  wrap32 (Z.lor (Z.lor (Z.lor (Z.shiftl (nth 2 (data pkt) 0) 24)
                              (Z.shiftl (nth 3 (data pkt) 0) 16))
                       (Z.shiftl (nth 4 (data pkt) 0) 8))
                (nth 5 (data pkt) 0))
  = announced_size pkt
  /\ wrap32 (Z.lor (Z.shiftl (nth 6 (data pkt) 0) 8) (nth 7 (data pkt) 0))
     = announced_crc pkt.
Proof.
  intros Hb. unfold announced_size, announced_crc.
  pose proof (nth_is_byte _ 2 Hb) as H2. pose proof (nth_is_byte _ 3 Hb) as H3.
  pose proof (nth_is_byte _ 4 Hb) as H4. pose proof (nth_is_byte _ 5 Hb) as H5.
  pose proof (nth_is_byte _ 6 Hb) as H6. pose proof (nth_is_byte _ 7 Hb) as H7.
  rewrite !Z.shiftl_mul_pow2 by lia.
  change (2 ^ 24) with 16777216. change (2 ^ 16) with 65536. change (2 ^ 8) with 256.
  split.
  - rewrite (lor_multiple (nth 2 (data pkt) 0 * 16777216) _ 24);
      [|lia|change (2 ^ 24) with 16777216; lia
       |change (2 ^ 24) with 16777216; apply Z.mod_mul; lia].
    rewrite (lor_multiple _ (nth 4 (data pkt) 0 * 256) 16);
      [|lia|change (2 ^ 16) with 65536; lia
       |change (2 ^ 16) with 65536; Z.div_mod_to_equations; lia].
    rewrite (lor_multiple _ (nth 5 (data pkt) 0) 8);
      [|lia|change (2 ^ 8) with 256; lia
       |change (2 ^ 8) with 256; Z.div_mod_to_equations; lia].
    apply wrap32_small. change (2 ^ 32) with 4294967296. lia.
  - rewrite (lor_multiple _ (nth 7 (data pkt) 0) 8);
      [|lia|change (2 ^ 8) with 256; lia
       |change (2 ^ 8) with 256; apply Z.mod_mul; lia].
    apply wrap32_small. change (2 ^ 32) with 4294967296. lia.
Qed.

(** X8. START_SESSION in IDLE.  The packet is answered with exactly one
    frame.  With [force_bootloader_mode] set it is refused with
    NACK(0x12), and when shorter than 8 bytes with NACK(0x01), the frame
    being the only effect.  Otherwise [total_size] and [expected_crc]
    become the numbers announced in bytes 2..5 and 6..7 (big-endian),
    whatever follows; a size between 1 and 1 MiB opens the session
    (ACK, DFU_ACTIVE, [expected_seq] 1, no byte received), any other
    size is refused with NACK(0x05) and the supervisor stays in IDLE
    with no session. *)
Theorem start_session_outcome (fuel : nat) (pkt : packet_t) (seq : Z) (m : machine) :
  state (bootloader m) = STATE_IDLE ->
  forallb is_byte (data pkt) = true ->
  exists m',
    dispatch_packet (S fuel) pkt seq PKT_START_SESSION m = Some m'
    /\ (force_bootloader_mode (bootloader m) = true -> m' = send_nack_packet 0x12 m)
    /\ (force_bootloader_mode (bootloader m) = false -> length pkt < 8 ->
        m' = send_nack_packet 0x01 m)
    /\ (force_bootloader_mode (bootloader m) = false -> 8 <= length pkt ->
        total_size (bootloader m') = announced_size pkt
        /\ expected_crc (bootloader m') = announced_crc pkt
        /\ (0 < announced_size pkt <= MAX_APPLICATION_SIZE ->
            wire m' = ACK :: wire m
            /\ state (bootloader m') = STATE_DFU_ACTIVE
            /\ session_active (bootloader m') = true
            /\ expected_seq (bootloader m') = 1
            /\ bytes_received (bootloader m') = 0)
        /\ (~ 0 < announced_size pkt <= MAX_APPLICATION_SIZE ->
            wire m' = NACK 0x05 :: wire m
            /\ state (bootloader m') = STATE_IDLE
            /\ session_active (bootloader m') = session_active (bootloader m)
            /\ expected_seq (bootloader m') = expected_seq (bootloader m)
            /\ bytes_received (bootloader m') = bytes_received (bootloader m))).
Proof.
  intros Hs Hb. rewrite dispatch_by_state by reflexivity. rewrite Hs.
  unfold handle_idle_packet. simpl (PKT_START_SESSION =? PKT_START_SESSION). cbv iota.
  destruct (start_session_fields pkt Hb) as [Hsize Hcrc].
  destruct (force_bootloader_mode (bootloader m)) eqn:Hf; simpl negb; cbv iota.
  { simpl andb. cbv iota. eexists. split; [reflexivity|].
    split; [reflexivity|]. split; intros; discriminate. }
  simpl andb.
  destruct (Z.leb_spec 8 (length pkt)) as [Hl|Hl].
  2:{ eexists. split; [reflexivity|]. split; [discriminate|].
      split; [reflexivity|]. intros _ Hl'. lia. }
  fields. rewrite Hsize, Hcrc.
  destruct (Z.ltb_spec 0 (announced_size pkt)) as [Hpos|Hpos]; simpl andb.
  - destruct (Z.leb_spec (announced_size pkt) (1024 * 1024)) as [Hmax|Hmax].
    + rewrite enter_state_admissible by (simpl; rewrite Hs; reflexivity).
      eexists. split; [reflexivity|]. split; [discriminate|].
      split; [intros _ Hl'; lia|]. intros _ _. simpl.
      split; [reflexivity|]. split; [reflexivity|].
      split; [intros _; repeat split; reflexivity|].
      intros Hn. exfalso. apply Hn. unfold MAX_APPLICATION_SIZE. lia.
    + eexists. split; [reflexivity|]. split; [discriminate|].
      split; [intros _ Hl'; lia|]. intros _ _. simpl.
      split; [reflexivity|]. split; [reflexivity|].
      split; [unfold MAX_APPLICATION_SIZE; lia|].
      intros _. repeat split; try reflexivity. exact Hs.
  - eexists. split; [reflexivity|]. split; [discriminate|].
    split; [intros _ Hl'; lia|]. intros _ _. simpl.
    split; [reflexivity|]. split; [reflexivity|].
    split; [lia|].
    intros _. repeat split; try reflexivity. exact Hs.
Qed.

Lemma start_session_outcome_witness :
  exists m',
    dispatch_packet 1
      (packet_of [0x00; 0x01; 0x00; 0x00; 0x02; 0x00; 0x12; 0x34]) 0
      PKT_START_SESSION idle_machine = Some m'
    /\ total_size (bootloader m') = 512
    /\ expected_crc (bootloader m') = 0x1234
    /\ wire m' = ACK :: wire idle_machine
    /\ state (bootloader m') = STATE_DFU_ACTIVE
    /\ session_active (bootloader m') = true
    /\ expected_seq (bootloader m') = 1
    /\ bytes_received (bootloader m') = 0.
Proof.
  destruct (start_session_outcome 0
              (packet_of [0x00; 0x01; 0x00; 0x00; 0x02; 0x00; 0x12; 0x34]) 0
              idle_machine eq_refl eq_refl) as (m' & Hd & _ & _ & H).
  exists m'. split; [exact Hd|].
  destruct H as (Hsize & Hcrc & Hok & _); [reflexivity|vm_compute; discriminate|].
  split; [exact Hsize|]. split; [exact Hcrc|].
  apply Hok. vm_compute. split; [reflexivity|discriminate].
Defined.

(** X9. JUMP_APP in IDLE never reaches verification.  Without
    [force_bootloader_mode] the handler asks for DFU_VERIFY, which the
    table does not admit from IDLE: the supervisor ends in ERROR with
    [error_count] incremented, and the packet is acknowledged all the
    same.  With the mode set the packet is refused with NACK(0x12) and
    nothing else changes. *)
Theorem jump_app_in_idle (fuel : nat) (pkt : packet_t) (seq : Z) (m : machine) :
  state (bootloader m) = STATE_IDLE ->
  exists m',
    dispatch_packet (S (S fuel)) pkt seq PKT_JUMP_APP m = Some m'
    /\ (force_bootloader_mode (bootloader m) = false ->
        state (bootloader m') = STATE_ERROR
        /\ previous_state (bootloader m') = STATE_IDLE
        /\ error_count (bootloader m') = wrap32 (error_count (bootloader m) + 1)
        /\ app_launch_attempts (bootloader m') = app_launch_attempts (bootloader m)
        /\ wire m' = ACK :: wire m)
    /\ (force_bootloader_mode (bootloader m) = true -> m' = send_nack_packet 0x12 m).
Proof.
  intros Hs. rewrite dispatch_by_state by reflexivity. rewrite Hs.
  unfold handle_idle_packet. simpl (PKT_JUMP_APP =? _). cbv iota.
  destruct (force_bootloader_mode (bootloader m)); simpl negb; cbv iota.
  - eexists. split; [reflexivity|]. split; [discriminate|reflexivity].
  - rewrite enter_state_redirected by (rewrite Hs; first [reflexivity|discriminate]).
    eexists. split; [reflexivity|]. split; [|discriminate].
    intros _. simpl. repeat split; try reflexivity. exact Hs.
Qed.

Lemma jump_app_in_idle_witness :
  exists m',
    dispatch_packet 2 zero_packet 0 PKT_JUMP_APP idle_machine = Some m'
    /\ (force_bootloader_mode (bootloader idle_machine) = false ->
        state (bootloader m') = STATE_ERROR
        /\ previous_state (bootloader m') = STATE_IDLE
        /\ error_count (bootloader m')
           = wrap32 (error_count (bootloader idle_machine) + 1)
        /\ app_launch_attempts (bootloader m')
           = app_launch_attempts (bootloader idle_machine)
        /\ wire m' = ACK :: wire idle_machine)
    /\ (force_bootloader_mode (bootloader idle_machine) = true ->
        m' = send_nack_packet 0x12 idle_machine).
Proof. apply (jump_app_in_idle 0 zero_packet 0 idle_machine). reflexivity. Defined.

(** X10. Types that the state in force does not handle.  A packet whose
    type is not one of the four global ones is refused, the frame being
    the only effect: in IDLE, with NACK(0x01) unless it is START_SESSION
    or JUMP_APP; in DFU_ACTIVE, with NACK(0x04) unless it is DATA or
    END_SESSION; in DFU_VERIFY, RUNNING_APP and ERROR, always, with
    NACK(0x11). *)
Theorem unhandled_types_refused (fuel : nat) (pkt : packet_t) (seq packet_type : Z)
    (m : machine) :
  is_global packet_type = false ->
  (state (bootloader m) = STATE_IDLE ->
   packet_type <> PKT_START_SESSION -> packet_type <> PKT_JUMP_APP ->
   dispatch_packet fuel pkt seq packet_type m = Some (send_nack_packet 0x01 m))
  /\ (state (bootloader m) = STATE_DFU_ACTIVE ->
      packet_type <> PKT_DATA -> packet_type <> PKT_END_SESSION ->
      dispatch_packet fuel pkt seq packet_type m = Some (send_nack_packet 0x04 m))
  /\ (state (bootloader m) = STATE_DFU_VERIFY
      \/ state (bootloader m) = STATE_RUNNING_APP
      \/ state (bootloader m) = STATE_ERROR ->
      dispatch_packet fuel pkt seq packet_type m = Some (send_nack_packet 0x11 m)).
Proof.
  intros Hg. rewrite dispatch_by_state by exact Hg. split; [|split].
  - intros -> H1 H2. unfold handle_idle_packet.
    destruct (Z.eqb_spec packet_type PKT_START_SESSION); [contradiction|].
    destruct (Z.eqb_spec packet_type PKT_JUMP_APP); [contradiction|]. reflexivity.
  - intros -> H1 H2. unfold handle_dfu_packet.
    destruct (Z.eqb_spec packet_type PKT_DATA); [contradiction|].
    destruct (Z.eqb_spec packet_type PKT_END_SESSION); [contradiction|]. reflexivity.
  - intros [-> | [-> | ->]]; reflexivity.
Qed.

Lemma unhandled_types_refused_witness :
  (state (bootloader idle_machine) = STATE_IDLE ->
   PKT_GET_VERSION <> PKT_START_SESSION -> PKT_GET_VERSION <> PKT_JUMP_APP ->
   dispatch_packet 0 zero_packet 0 PKT_GET_VERSION idle_machine
   = Some (send_nack_packet 0x01 idle_machine))
  /\ (state (bootloader idle_machine) = STATE_DFU_ACTIVE ->
      PKT_GET_VERSION <> PKT_DATA -> PKT_GET_VERSION <> PKT_END_SESSION ->
      dispatch_packet 0 zero_packet 0 PKT_GET_VERSION idle_machine
      = Some (send_nack_packet 0x04 idle_machine))
  /\ (state (bootloader idle_machine) = STATE_DFU_VERIFY
      \/ state (bootloader idle_machine) = STATE_RUNNING_APP
      \/ state (bootloader idle_machine) = STATE_ERROR ->
      dispatch_packet 0 zero_packet 0 PKT_GET_VERSION idle_machine
      = Some (send_nack_packet 0x11 idle_machine)).
Proof.
  apply (unhandled_types_refused 0 zero_packet 0 PKT_GET_VERSION idle_machine).
  reflexivity.
Defined.

(** ** DATA, END_SESSION and ABORT in a session *)

Lemma map_window (src : list Z) :
  forall (off : Z) (n : nat),
    (n <= Datatypes.length src)%nat ->
    map (fun k => nth (Z.to_nat (k - off)) src 0) (seqZ off (Z.of_nat n)) = firstn n src.
Proof.
  induction src as [|x src IH]; intros off n Hn.
  - simpl in Hn. replace n with 0%nat by lia. reflexivity.
  - destruct n as [|n]; [reflexivity|].
    rewrite seqZ_cons by lia. cbn [map firstn]. f_equal.
    + rewrite Z.sub_diag. reflexivity.
    + replace (Z.pred (Z.of_nat (S n))) with (Z.of_nat n) by lia.
      rewrite <- (IH (Z.succ off) n) by (simpl in Hn; lia).
      apply map_seqZ_ext. intros k Hk.
      replace (Z.to_nat (k - off)) with (S (Z.to_nat (k - Z.succ off))) by lia.
      reflexivity.
Qed.

Lemma flash_offset (received : Z) :
  0 <= received < MAX_APPLICATION_SIZE - 0x8000 ->
  Z.land (wrap32 (APPLICATION_START + received)) 0xFFFFF
  = Z.land APPLICATION_START 0xFFFFF + received.
Proof.
  unfold MAX_APPLICATION_SIZE, APPLICATION_START. intros H.
  rewrite wrap32_small by (change (2 ^ 32) with 4294967296; lia).
  change 0xFFFFF with (Z.ones 20). rewrite !Z.land_ones by lia.
  change (2 ^ 20) with 1048576. Z.div_mod_to_equations. lia.
Qed.

Lemma dispatch_accepted_data (fuel : nat) (pkt : packet_t) (m : machine) :
  state (bootloader m) = STATE_DFU_ACTIVE ->
  flash_busy m = false ->
  2 <= length pkt ->
  (Z.to_nat (length pkt) <= Datatypes.length (data pkt))%nat ->
  0 <= bytes_received (bootloader m) ->
  bytes_received (bootloader m) + (length pkt - 2) <= MAX_APPLICATION_SIZE - 0x8000 ->
  exists m',
    dispatch_packet fuel pkt (expected_seq (bootloader m)) PKT_DATA m = Some m'
    /\ wire m' = ACK :: wire m
    /\ state (bootloader m') = STATE_DFU_ACTIVE
    /\ flash_busy m' = true
    /\ expected_seq (bootloader m') = wrap32 (expected_seq (bootloader m) + 1)
    /\ bytes_received (bootloader m') = bytes_received (bootloader m) + (length pkt - 2)
    /\ image m' = image m ++ payload pkt
    /\ total_size (bootloader m') = total_size (bootloader m)
    /\ expected_crc (bootloader m') = expected_crc (bootloader m).
Proof.
  intros Hs Hbusy Hlen Hdata Hrec Hfit.
  rewrite dispatch_data_in_dfu by exact Hs.
  unfold handle_dfu_packet. simpl (PKT_DATA =? PKT_DATA). cbv iota.
  rewrite Z.eqb_refl. unfold start_flash_write. rewrite Hbusy. fields.
  assert (Hmax : MAX_APPLICATION_SIZE - 0x8000 = 1015808) by reflexivity.
  rewrite (wrap_size_small (length pkt - 2))
    by (change (2 ^ 64) with 18446744073709551616; lia).
  assert (Hw : wrap32 (bytes_received (bootloader m) + (length pkt - 2))
               = bytes_received (bootloader m) + (length pkt - 2))
    by (apply wrap32_small; change (2 ^ 32) with 4294967296; lia).
  eexists. split; [reflexivity|]. fields.
  split; [reflexivity|]. split; [exact Hs|]. split; [reflexivity|].
  split; [reflexivity|]. split; [exact Hw|].
  split; [|split; reflexivity].
  unfold image, flash_memcpy. fields. rewrite Hw.
  set (base := Z.land APPLICATION_START 0xFFFFF).
  rewrite (seqZ_app base (bytes_received (bootloader m)) (length pkt - 2)) by lia.
  rewrite map_app.
  destruct (Z.eq_dec (length pkt) 2) as [H2|H2].
  - unfold payload. rewrite H2. simpl (seqZ _ (2 - 2)). cbn [map firstn Z.to_nat Z.sub].
    simpl (Z.to_nat (2 - 2)). cbn [firstn]. f_equal.
    apply map_seqZ_ext. intros k Hk. cbn [flash_byte].
    destruct (Z.leb_spec (Z.land (wrap32 (APPLICATION_START
                                          + bytes_received (bootloader m))) 0xFFFFF) k);
      [|reflexivity].
    destruct (Z.ltb_spec k (Z.land (wrap32 (APPLICATION_START
                                            + bytes_received (bootloader m))) 0xFFFFF
                            + (2 - 2))); [lia|reflexivity].
  - rewrite flash_offset by lia. fold base. f_equal.
    + apply map_seqZ_ext. intros k Hk. cbn [flash_byte].
      destruct (Z.leb_spec (base + bytes_received (bootloader m)) k); [lia|].
      reflexivity.
    + unfold payload.
      rewrite <- (map_window (skipn 2 (data pkt))
                    (base + bytes_received (bootloader m)) (Z.to_nat (length pkt - 2)))
        by (rewrite length_drop; lia).
      rewrite Z2Nat.id by lia.
      apply map_seqZ_ext. intros k Hk. cbn [flash_byte].
      destruct (Z.leb_spec (base + bytes_received (bootloader m)) k); [|lia].
      destruct (Z.ltb_spec k (base + bytes_received (bootloader m) + (length pkt - 2)));
        [|lia].
      reflexivity.
Qed.

(** X11. An accepted DATA packet extends the image by its payload.  In
    DFU_ACTIVE, a DATA packet of at most [MAX_PACKET_SIZE] bytes with
    the expected sequence number that finds the flash idle is
    acknowledged; the flash is busy afterwards,
    [expected_seq] is incremented and [bytes_received] grows by
    [length - 2]; as long as the image stays inside the flash array, the
    image read back from the flash is the old image followed by the
    [length - 2] bytes of the packet from [data[2]] on. *)
Theorem accepted_data_extends_image (fuel : nat) (pkt : packet_t) (m : machine) :
  state (bootloader m) = STATE_DFU_ACTIVE ->
  flash_busy m = false ->
  2 <= length pkt <= MAX_PACKET_SIZE ->
  (Z.to_nat (length pkt) <= Datatypes.length (data pkt))%nat ->
  0 <= bytes_received (bootloader m) ->
  bytes_received (bootloader m) + (length pkt - 2) <= MAX_APPLICATION_SIZE - 0x8000 ->
  exists m',
    dispatch_packet fuel pkt (expected_seq (bootloader m)) PKT_DATA m = Some m'
    /\ wire m' = ACK :: wire m
    /\ state (bootloader m') = STATE_DFU_ACTIVE
    /\ flash_busy m' = true
    /\ expected_seq (bootloader m') = wrap32 (expected_seq (bootloader m) + 1)
    /\ bytes_received (bootloader m') = bytes_received (bootloader m) + (length pkt - 2)
    /\ image m' = image m ++ payload pkt.
Proof.
  intros Hs Hbusy [Hlen _] Hdata Hrec Hfit.
  destruct (dispatch_accepted_data fuel pkt m Hs Hbusy Hlen Hdata Hrec Hfit)
    as (m' & H & H1 & H2 & H3 & H4 & H5 & H6 & _).
  exists m'. auto 10.
Qed.

Lemma accepted_data_extends_image_witness :
  exists m',
    dispatch_packet 0 (data_packet 1 [0xAA; 0xBB; 0xCC])
      (expected_seq (bootloader dfu_machine)) PKT_DATA dfu_machine = Some m'
    /\ wire m' = ACK :: wire dfu_machine
    /\ state (bootloader m') = STATE_DFU_ACTIVE
    /\ flash_busy m' = true
    /\ expected_seq (bootloader m') = wrap32 (expected_seq (bootloader dfu_machine) + 1)
    /\ bytes_received (bootloader m')
       = bytes_received (bootloader dfu_machine)
         + (length (data_packet 1 [0xAA; 0xBB; 0xCC]) - 2)
    /\ image m' = image dfu_machine ++ payload (data_packet 1 [0xAA; 0xBB; 0xCC]).
Proof.
  apply (accepted_data_extends_image 0 (data_packet 1 [0xAA; 0xBB; 0xCC]) dfu_machine).
  - vm_compute. reflexivity.
  - vm_compute. reflexivity.
  - vm_compute. split; discriminate.
  - vm_compute. lia.
  - vm_compute. discriminate.
  - vm_compute. discriminate.
Defined.

Lemma dispatch_end_session (fuel : nat) (pkt : packet_t) (seq : Z) (m : machine) :
  state (bootloader m) = STATE_DFU_ACTIVE ->
  exists m',
    dispatch_packet (S fuel) pkt seq PKT_END_SESSION m = Some m'
    /\ session_active (bootloader m') = session_active (bootloader m)
    /\ bytes_received (bootloader m') = bytes_received (bootloader m)
    /\ expected_seq (bootloader m') = expected_seq (bootloader m)
    /\ previous_state (bootloader m') = STATE_DFU_ACTIVE
    /\ mock_flash m' = mock_flash m
    /\ expected_crc (bootloader m') = expected_crc (bootloader m)
    /\ (bytes_received (bootloader m) = total_size (bootloader m) ->
        wire m' = ACK :: wire m
        /\ state (bootloader m') = STATE_DFU_VERIFY
        /\ error_count (bootloader m') = error_count (bootloader m))
    /\ (bytes_received (bootloader m) <> total_size (bootloader m) ->
        wire m' = NACK 0x08 :: wire m
        /\ state (bootloader m') = STATE_ERROR
        /\ error_count (bootloader m') = wrap32 (error_count (bootloader m) + 1)).
Proof.
  intros Hs. rewrite dispatch_by_state by reflexivity. rewrite Hs.
  unfold handle_dfu_packet. simpl (PKT_END_SESSION =? _). cbv iota.
  destruct (Z.eqb_spec (bytes_received (bootloader m)) (total_size (bootloader m)))
    as [He|He].
  - rewrite enter_state_admissible by (rewrite Hs; reflexivity).
    eexists. split; [reflexivity|]. simpl.
    repeat split; try reflexivity; try exact Hs; contradiction.
  - rewrite enter_state_admissible by (simpl; rewrite Hs; reflexivity).
    eexists. split; [reflexivity|]. simpl.
    repeat split; try reflexivity; try exact Hs; contradiction.
Qed.

(** X12. END_SESSION in DFU_ACTIVE.  When every announced byte has been
    received the packet is acknowledged and the supervisor enters
    DFU_VERIFY; otherwise it is refused with NACK(0x08) and the
    supervisor enters ERROR with [error_count] incremented.  In both
    cases the session stays marked active and its counters are kept. *)
Theorem end_session_outcome (fuel : nat) (pkt : packet_t) (seq : Z) (m : machine) :
  state (bootloader m) = STATE_DFU_ACTIVE ->
  exists m',
    dispatch_packet (S fuel) pkt seq PKT_END_SESSION m = Some m'
    /\ session_active (bootloader m') = session_active (bootloader m)
    /\ bytes_received (bootloader m') = bytes_received (bootloader m)
    /\ expected_seq (bootloader m') = expected_seq (bootloader m)
    /\ previous_state (bootloader m') = STATE_DFU_ACTIVE
    /\ (bytes_received (bootloader m) = total_size (bootloader m) ->
        wire m' = ACK :: wire m
        /\ state (bootloader m') = STATE_DFU_VERIFY
        /\ error_count (bootloader m') = error_count (bootloader m))
    /\ (bytes_received (bootloader m) <> total_size (bootloader m) ->
        wire m' = NACK 0x08 :: wire m
        /\ state (bootloader m') = STATE_ERROR
        /\ error_count (bootloader m') = wrap32 (error_count (bootloader m) + 1)).
Proof.
  intros Hs.
  destruct (dispatch_end_session fuel pkt seq m Hs)
    as (m' & H & H1 & H2 & H3 & H4 & _ & _ & H5 & H6).
  exists m'. auto 10.
Qed.

Lemma end_session_outcome_witness :
  exists m',
    dispatch_packet 1 zero_packet 0 PKT_END_SESSION dfu_machine = Some m'
    /\ session_active (bootloader m') = session_active (bootloader dfu_machine)
    /\ bytes_received (bootloader m') = bytes_received (bootloader dfu_machine)
    /\ expected_seq (bootloader m') = expected_seq (bootloader dfu_machine)
    /\ previous_state (bootloader m') = STATE_DFU_ACTIVE
    /\ (bytes_received (bootloader dfu_machine) = total_size (bootloader dfu_machine) ->
        wire m' = ACK :: wire dfu_machine
        /\ state (bootloader m') = STATE_DFU_VERIFY
        /\ error_count (bootloader m') = error_count (bootloader dfu_machine))
    /\ (bytes_received (bootloader dfu_machine) <> total_size (bootloader dfu_machine) ->
        wire m' = NACK 0x08 :: wire dfu_machine
        /\ state (bootloader m') = STATE_ERROR
        /\ error_count (bootloader m')
           = wrap32 (error_count (bootloader dfu_machine) + 1)).
Proof.
  apply (end_session_outcome 0 zero_packet 0 dfu_machine). vm_compute. reflexivity.
Defined.

(** X13. ABORT.  In DFU_ACTIVE the packet is acknowledged and the
    supervisor returns to IDLE with the session closed and its counters
    at zero; what was written to the flash stays, and so does the busy
    flag of the flash.  In every other state ABORT has no effect at all:
    no frame, no change. *)
Theorem abort_outcome (fuel : nat) (pkt : packet_t) (seq : Z) (m : machine) :
  (state (bootloader m) = STATE_DFU_ACTIVE ->
   exists m',
     dispatch_packet (S fuel) pkt seq PKT_ABORT m = Some m'
     /\ wire m' = ACK :: wire m
     /\ state (bootloader m') = STATE_IDLE
     /\ previous_state (bootloader m') = STATE_DFU_ACTIVE
     /\ session_cleared m'
     /\ total_size (bootloader m') = total_size (bootloader m)
     /\ mock_flash m' = mock_flash m
     /\ flash_busy m' = flash_busy m)
  /\ (state (bootloader m) <> STATE_DFU_ACTIVE ->
      dispatch_packet fuel pkt seq PKT_ABORT m = Some m).
Proof.
  split.
  - intros Hs. unfold dispatch_packet. simpl (_ =? _). cbv iota. rewrite Hs.
    simpl state_eqb. cbv iota.
    rewrite enter_state_admissible by (rewrite Hs; reflexivity).
    eexists. split; [reflexivity|]. unfold session_cleared. simpl.
    repeat split; try reflexivity. exact Hs.
  - apply abort_outside_dfu_is_silent.
Qed.

(** X14. EMERGENCY_RESET.  The packet is served without a frame.  From
    every state but EMERGENCY_RECOVERY the supervisor enters
    EMERGENCY_RECOVERY: [recovery_attempts] is incremented and
    [force_bootloader_mode] is set, and an open session stays open.  A
    second EMERGENCY_RESET, received in EMERGENCY_RECOVERY, is not
    admissible and puts the supervisor in ERROR with [error_count]
    incremented. *)
Theorem emergency_reset_outcome (fuel : nat) (pkt : packet_t) (seq : Z) (m : machine) :
  exists m',
    dispatch_packet (S (S fuel)) pkt seq PKT_EMERGENCY_RESET m = Some m'
    /\ wire m' = wire m
    /\ previous_state (bootloader m') = state (bootloader m)
    /\ session_active (bootloader m') = session_active (bootloader m)
    /\ (state (bootloader m) <> STATE_EMERGENCY_RECOVERY ->
        state (bootloader m') = STATE_EMERGENCY_RECOVERY
        /\ recovery_attempts (bootloader m')
           = wrap32 (recovery_attempts (bootloader m) + 1)
        /\ force_bootloader_mode (bootloader m') = true
        /\ error_count (bootloader m') = error_count (bootloader m))
    /\ (state (bootloader m) = STATE_EMERGENCY_RECOVERY ->
        state (bootloader m') = STATE_ERROR
        /\ error_count (bootloader m') = wrap32 (error_count (bootloader m) + 1)
        /\ recovery_attempts (bootloader m') = recovery_attempts (bootloader m)
        /\ force_bootloader_mode (bootloader m')
           = force_bootloader_mode (bootloader m)).
Proof.
  destruct (state_eqb (state (bootloader m)) STATE_EMERGENCY_RECOVERY) eqn:He.
  - apply state_eqb_eq in He.
    rewrite recovery_emergency_reset_enters_error by exact He.
    eexists. split; [reflexivity|]. simpl.
    split; [reflexivity|]. split; [reflexivity|]. split; [reflexivity|].
    split; [intros Hne; contradiction|]. intros _. repeat split; reflexivity.
  - assert (Hne : state (bootloader m) <> STATE_EMERGENCY_RECOVERY)
      by (intros Heq; apply state_eqb_eq in Heq; congruence).
    unfold dispatch_packet, handle_emergency_condition. simpl (_ =? _). cbv iota.
    rewrite enter_state_admissible
      by (destruct (state (bootloader m)); try reflexivity; contradiction).
    eexists. split; [reflexivity|]. simpl.
    split; [reflexivity|]. split; [reflexivity|]. split; [reflexivity|].
    split; [intros _; repeat split; reflexivity|]. intros Heq. contradiction.
Qed.

(** ** Time-outs *)

Lemma timeout_checks_quiet fuel m :
  session_timed_out m = false ->
  exists m',
    handle_timeout_checks (S fuel) m = Some m'
    /\ (state (bootloader m) = STATE_DFU_VERIFY ->
        wrap32 (app_validation_timeout_ms (bootloader m) * 1000) < state_elapsed m ->
        state (bootloader m') = STATE_ERROR
        /\ previous_state (bootloader m') = STATE_DFU_VERIFY
        /\ error_count (bootloader m') = wrap32 (error_count (bootloader m) + 1))
    /\ (state (bootloader m) = STATE_ERROR ->
        5000000 < state_elapsed m ->
        state (bootloader m') = STATE_IDLE
        /\ previous_state (bootloader m') = STATE_ERROR
        /\ session_cleared m'
        /\ error_count (bootloader m') = error_count (bootloader m))
    /\ (~ (state (bootloader m) = STATE_DFU_VERIFY
           /\ wrap32 (app_validation_timeout_ms (bootloader m) * 1000) < state_elapsed m) ->
        ~ (state (bootloader m) = STATE_ERROR /\ 5000000 < state_elapsed m) ->
        m' = set_tick (wrap32 (tick m + 1000)) m).
Proof.
  intros Hq. unfold handle_timeout_checks. fields.
  change (session_active (bootloader m)
          && (wrap32 (session_timeout_ms (bootloader m) * 1000)
              <? wrap32 (wrap32 (tick m + 1000) - last_activity_time (bootloader m))))
    with (session_timed_out m).
  rewrite Hq. fields.
  change (wrap32 (wrap32 (tick m + 1000) - state_entry_time (bootloader m)))
    with (state_elapsed m).
  destruct (state (bootloader m)) eqn:Hs;
    try (eexists; split; [reflexivity|];
         split; [discriminate|]; split; [discriminate|]; reflexivity).
  - destruct (Z.ltb_spec (wrap32 (app_validation_timeout_ms (bootloader m) * 1000))
                (state_elapsed m)) as [Hlate|Hlate].
    + rewrite enter_state_admissible by (simpl; rewrite Hs; reflexivity).
      eexists. split; [reflexivity|]. simpl.
      split; [intros _ _; repeat split; try reflexivity; exact Hs|].
      split; [discriminate|]. intros Hn. exfalso. apply Hn. split; [reflexivity|exact Hlate].
    + eexists. split; [reflexivity|].
      split; [intros _ H; lia|]. split; [discriminate|]. reflexivity.
  - destruct (Z.ltb_spec 5000000 (state_elapsed m)) as [Hlate|Hlate].
    + rewrite enter_state_admissible by (simpl; rewrite Hs; reflexivity).
      eexists. split; [reflexivity|]. unfold session_cleared. simpl.
      split; [discriminate|].
      split; [intros _ _; repeat split; try reflexivity; exact Hs|].
      intros _ Hn. exfalso. apply Hn. split; [reflexivity|exact Hlate].
    + eexists. split; [reflexivity|].
      split; [discriminate|]. split; [intros _ H; lia|]. reflexivity.
Qed.

Lemma tick_step_back (t : Z) :
  wrap32 (wrap32 t - wrap32 (wrap32 t + 1000)) = 2 ^ 32 - 1000.
Proof.
  unfold wrap32. change (2 ^ 32) with 4294967296. Z.div_mod_to_equations. lia.
Qed.

Lemma timeout_checks_session_expired fuel m :
  state (bootloader m) <> STATE_ERROR ->
  session_timed_out m = true ->
  exists m',
    handle_timeout_checks (S fuel) m = Some m'
    /\ state (bootloader m') = STATE_IDLE
    /\ previous_state (bootloader m') = STATE_ERROR
    /\ session_cleared m'
    /\ error_count (bootloader m') = wrap32 (error_count (bootloader m) + 1)
    /\ state_entry_time (bootloader m') = tick m'
    /\ wire m' = wire m
    /\ app_launch_attempts (bootloader m') = app_launch_attempts (bootloader m).
Proof.
  intros Hne Hq. unfold handle_timeout_checks. fields.
  change (session_active (bootloader m)
          && (wrap32 (session_timeout_ms (bootloader m) * 1000)
              <? wrap32 (wrap32 (tick m + 1000) - last_activity_time (bootloader m))))
    with (session_timed_out m).
  rewrite Hq.
  rewrite enter_state_admissible
    by (simpl; destruct (state (bootloader m)); try reflexivity; contradiction).
  unfold enter_state_actions at 1. fields.
  rewrite tick_step_back. simpl (5000000 <? _). cbv iota.
  rewrite enter_state_admissible by reflexivity.
  eexists. split; [reflexivity|]. unfold session_cleared. simpl.
  repeat split; reflexivity.
Qed.

(** X15. The state time-outs.  When the session-inactivity time-out is
    not due, [handle_timeout_checks] returns and changes the state in
    two cases only: in DFU_VERIFY, once the time since entry exceeds
    [app_validation_timeout_ms], the supervisor enters ERROR and counts
    an error; in ERROR, once more than 5 s have passed since entry, it
    returns to IDLE with the session closed.  In every other case the
    call only advances the tick. *)
Theorem state_timeouts (fuel : nat) (m : machine) :
  session_timed_out m = false ->
  exists m',
    handle_timeout_checks (S fuel) m = Some m'
    /\ (state (bootloader m) = STATE_DFU_VERIFY ->
        wrap32 (app_validation_timeout_ms (bootloader m) * 1000) < state_elapsed m ->
        state (bootloader m') = STATE_ERROR
        /\ previous_state (bootloader m') = STATE_DFU_VERIFY
        /\ error_count (bootloader m') = wrap32 (error_count (bootloader m) + 1))
    /\ (state (bootloader m) = STATE_ERROR ->
        5000000 < state_elapsed m ->
        state (bootloader m') = STATE_IDLE
        /\ previous_state (bootloader m') = STATE_ERROR
        /\ session_cleared m'
        /\ error_count (bootloader m') = error_count (bootloader m))
    /\ (~ (state (bootloader m) = STATE_DFU_VERIFY
           /\ wrap32 (app_validation_timeout_ms (bootloader m) * 1000) < state_elapsed m) ->
        ~ (state (bootloader m) = STATE_ERROR /\ 5000000 < state_elapsed m) ->
        m' = set_tick (wrap32 (tick m + 1000)) m).
Proof. apply timeout_checks_quiet. Qed.

Lemma state_timeouts_witness :
  exists m',
    handle_timeout_checks 1 (waited 5000 (default power_on (bootloader_init 2 power_on)))
    = Some m'
    /\ state (bootloader m') = STATE_IDLE
    /\ previous_state (bootloader m') = STATE_ERROR
    /\ session_cleared m'
    /\ error_count (bootloader m') = 1.
Proof.
  destruct (state_timeouts 0 (waited 5000 (default power_on (bootloader_init 2 power_on)))
              eq_refl) as (m' & H & _ & Hheal & _).
  exists m'. split; [exact H|]. apply Hheal; reflexivity.
Defined.

(** X16. The session-inactivity time-out ends in IDLE within one call.
    When a session is active and more than [session_timeout_ms] have
    passed since the last accepted packet, [handle_timeout_checks],
    called in any state but ERROR, enters ERROR and counts an error, and
    then leaves ERROR for IDLE at once: the entry time was stamped with
    a later tick than the one the check compares it with, so the
    unsigned difference is 2^32 - 1000, beyond the 5000000 that ERROR
    is meant to last.  The session is closed; no frame is sent. *)
Theorem session_timeout_ends_in_idle (fuel : nat) (m : machine) :
  state (bootloader m) <> STATE_ERROR ->
  session_timed_out m = true ->
  exists m',
    handle_timeout_checks (S fuel) m = Some m'
    /\ state (bootloader m') = STATE_IDLE
    /\ previous_state (bootloader m') = STATE_ERROR
    /\ session_cleared m'
    /\ error_count (bootloader m') = wrap32 (error_count (bootloader m) + 1)
    /\ state_entry_time (bootloader m') = tick m'
    /\ wire m' = wire m.
Proof.
  intros Hne Hq.
  destruct (timeout_checks_session_expired fuel m Hne Hq)
    as (m' & H & H1 & H2 & H3 & H4 & H5 & H6 & _).
  exists m'. auto 10.
Qed.

Lemma session_timeout_ends_in_idle_witness :
  exists m',
    handle_timeout_checks 1 (waited 30000 dfu_machine) = Some m'
    /\ state (bootloader m') = STATE_IDLE
    /\ previous_state (bootloader m') = STATE_ERROR
    /\ session_cleared m'
    /\ error_count (bootloader m')
       = wrap32 (error_count (bootloader (waited 30000 dfu_machine)) + 1)
    /\ state_entry_time (bootloader m') = tick m'
    /\ wire m' = wire (waited 30000 dfu_machine).
Proof.
  apply (session_timeout_ends_in_idle 0 (waited 30000 dfu_machine)).
  - vm_compute. discriminate.
  - vm_compute. reflexivity.
Defined.

(** X17. RUNNING_APP lasts one cycle.  A cycle that starts in
    RUNNING_APP with nothing queued returns with the supervisor in IDLE
    and the session closed, whether or not the session time-out is due;
    no application is launched or counted on the way. *)
Theorem running_app_returns_to_idle (fuel : nat) (e : Z) (m : machine) :
  state (bootloader m) = STATE_RUNNING_APP ->
  count (bootloader m) <= 0 ->
  exists m',
    bootloader_process_cycle (S fuel) e m = Some m'
    /\ state (bootloader m') = STATE_IDLE
    /\ session_cleared m'
    /\ app_launch_attempts (bootloader m') = app_launch_attempts (bootloader m)
    /\ wire m' = wire m.
Proof.
  intros Hs Hc. unfold bootloader_process_cycle.
  destruct (session_timed_out m) eqn:Hq.
  - destruct (timeout_checks_session_expired fuel m) as
      (m1 & H1 & Hs1 & _ & Hcl & _ & _ & Hw & Ha); [congruence|exact Hq|].
    rewrite H1. apply handle_timeout_checks_count in H1.
    destruct (is_flash_operation_complete_frame e m1) as (Hb & _ & Hw2).
    destruct (is_flash_operation_complete e m1) as [r m2]. simpl in Hb, Hw2.
    unfold background_processing. rewrite Hb, Hs1. simpl process_packets.
    destruct (Z.ltb_spec 0 (count (bootloader m2))) as [Hpos|_];
      [rewrite Hb, H1 in Hpos; lia|].
    eexists. split; [reflexivity|]. unfold session_cleared in *.
    rewrite Hb, Hw2. auto.
  - destruct (timeout_checks_quiet fuel m Hq) as (m1 & H1 & _ & _ & Hsame).
    rewrite H1. rewrite Hsame by (intros [H _]; congruence).
    set (m0 := set_tick _ m).
    destruct (is_flash_operation_complete_frame e m0) as (Hb & _ & Hw2).
    destruct (is_flash_operation_complete e m0) as [r m2]. simpl in Hb, Hw2.
    unfold background_processing. rewrite Hb. fields. rewrite Hs.
    rewrite enter_state_admissible by (rewrite Hb; simpl; rewrite Hs; reflexivity).
    simpl process_packets.
    destruct (Z.ltb_spec 0 (count (bootloader m2))) as [Hpos|_];
      [rewrite Hb in Hpos; simpl in Hpos; lia|].
    eexists. split; [reflexivity|]. unfold session_cleared. simpl.
    rewrite Hb, Hw2. repeat split; reflexivity.
Qed.

Lemma running_app_returns_to_idle_witness :
  exists m',
    bootloader_process_cycle 1 0 running_app_machine = Some m'
    /\ state (bootloader m') = STATE_IDLE
    /\ session_cleared m'
    /\ app_launch_attempts (bootloader m')
       = app_launch_attempts (bootloader running_app_machine)
    /\ wire m' = wire running_app_machine.
Proof.
  apply (running_app_returns_to_idle 0 0 running_app_machine).
  - vm_compute. reflexivity.
  - vm_compute. discriminate.
Defined.

(** ** The bootloader-mode latch and the session flags *)

Ltac latched_tac :=
  break_some; enter_cases; subst; simpl in *;
  try assumption; try discriminate; try reflexivity; auto.

Lemma dispatch_packet_latched fuel pkt seq packet_type m m' :
  force_bootloader_mode (bootloader m) = true ->
  dispatch_packet fuel pkt seq packet_type m = Some m' ->
  force_bootloader_mode (bootloader m') = true.
Proof.
  intros HP H. unfold dispatch_packet, handle_idle_packet, handle_dfu_packet,
    start_flash_write in H.
  latched_tac.
Qed.

Lemma process_packets_latched n fuel m m' :
  force_bootloader_mode (bootloader m) = true ->
  process_packets n fuel m = Some m' ->
  force_bootloader_mode (bootloader m') = true.
Proof.
  revert m. induction n as [|n IH]; intros m HP H; simpl in H; [discriminate|].
  destruct (0 <? count (bootloader m)); [|injection H as <-; exact HP].
  destruct (negb _); [injection H as <-; exact HP|].
  destruct (process_packet fuel m) as [m1|] eqn:Hp; [|discriminate].
  apply (IH m1); [|exact H]. unfold process_packet in Hp.
  destruct (dispatch_packet _ _ _ _ _) as [m2|] eqn:Hd; [|discriminate].
  injection Hp as <-. apply dispatch_packet_latched in Hd; [exact Hd|exact HP].
Qed.

Lemma run_call_latched fuel c m m' :
  is_init c = false ->
  force_bootloader_mode (bootloader m) = true ->
  run_call fuel c m = Some m' ->
  force_bootloader_mode (bootloader m') = true.
Proof.
  intros Hc HP H. destruct c as [|src|e|]; simpl in H; [discriminate Hc| | |].
  - unfold bootloader_receive_packet in H. simpl in H. latched_tac.
  - unfold bootloader_process_cycle in H.
    destruct (handle_timeout_checks fuel m) as [m1|] eqn:H1; [|discriminate].
    assert (HP1 : force_bootloader_mode (bootloader m1) = true).
    { unfold handle_timeout_checks in H1. simpl in H1. latched_tac. }
    destruct (is_flash_operation_complete_frame e m1) as (Hb & _ & _).
    destruct (is_flash_operation_complete e m1) as [r m2]. simpl in Hb.
    destruct (background_processing fuel m2) as [m3|] eqn:H3; [|discriminate].
    assert (HP3 : force_bootloader_mode (bootloader m3) = true).
    { rewrite <- Hb in HP1.
      unfold background_processing, validate_application in H3. simpl in H3.
      latched_tac. }
    eapply process_packets_latched; [exact HP3|exact H].
  - injection H as <-. exact HP.
Qed.

(** X18. [force_bootloader_mode] is a latch.  Once set, the flag stays
    set through every sequence of enqueues of packets that fit a slot,
    cycles and tick reads that returns: of the calls of the API, only
    [bootloader_init] clears it. *)
Theorem force_mode_is_latched (fuel : nat) (cs : list call) (m m' : machine) :
  forallb call_fits cs = true ->
  existsb is_init cs = false ->
  force_bootloader_mode (bootloader m) = true ->
  run fuel cs m = Some m' ->
  force_bootloader_mode (bootloader m') = true.
Proof.
  intros _. revert m. induction cs as [|c cs IH]; intros m Hcs HP H; simpl in H.
  - injection H as <-. exact HP.
  - simpl in Hcs. apply orb_false_elim in Hcs as [Hc Hcs].
    destruct (run_call fuel c m) as [m1|] eqn:H1; [|discriminate].
    apply (IH m1 Hcs); [|exact H].
    eapply run_call_latched; eassumption.
Qed.

Lemma force_mode_is_latched_witness :
  force_bootloader_mode
    (bootloader
       (default power_on
          (run 4 [Receive [0x00; 0x01; 0x00; 0x00; 0x02; 0x00; 0x12; 0x34]; Cycle 0;
                  GetTick; Cycle 0] recovery_machine))) = true.
Proof.
  apply (force_mode_is_latched 4
           [Receive [0x00; 0x01; 0x00; 0x00; 0x02; 0x00; 0x12; 0x34]; Cycle 0;
            GetTick; Cycle 0] recovery_machine).
  - reflexivity.
  - reflexivity.
  - vm_compute. reflexivity.
  - apply run_returned. vm_compute. reflexivity.
Defined.

Ltac flags_tac :=
  break_some; enter_cases; subst;
  unfold session_flags_ok, session_cleared in *; simpl in *;
  try (intuition (try congruence; try discriminate); fail).

Lemma dispatch_packet_flags fuel pkt seq packet_type m m' :
  session_flags_ok m ->
  dispatch_packet fuel pkt seq packet_type m = Some m' ->
  session_flags_ok m'.
Proof.
  intros HP H. unfold dispatch_packet, handle_idle_packet, handle_dfu_packet,
    start_flash_write in H.
  flags_tac.
Qed.

Lemma process_packets_flags n fuel m m' :
  session_flags_ok m -> process_packets n fuel m = Some m' -> session_flags_ok m'.
Proof.
  revert m. induction n as [|n IH]; intros m HP H; simpl in H; [discriminate|].
  destruct (0 <? count (bootloader m)); [|injection H as <-; exact HP].
  destruct (negb _); [injection H as <-; exact HP|].
  destruct (process_packet fuel m) as [m1|] eqn:Hp; [|discriminate].
  apply (IH m1); [|exact H]. unfold process_packet in Hp.
  destruct (dispatch_packet _ _ _ _ _) as [m2|] eqn:Hd; [|discriminate].
  injection Hp as <-. apply dispatch_packet_flags in Hd; [exact Hd|exact HP].
Qed.

Lemma run_call_flags fuel c m m' :
  session_flags_ok m -> run_call fuel c m = Some m' -> session_flags_ok m'.
Proof.
  intros HP H. destruct c as [|src|e|]; simpl in H.
  - unfold bootloader_init in H. flags_tac.
  - unfold bootloader_receive_packet in H. simpl in H. flags_tac.
  - unfold bootloader_process_cycle in H.
    destruct (handle_timeout_checks fuel m) as [m1|] eqn:H1; [|discriminate].
    assert (HP1 : session_flags_ok m1).
    { unfold handle_timeout_checks in H1. simpl in H1. flags_tac. }
    destruct (is_flash_operation_complete_frame e m1) as (Hb & _ & _).
    destruct (is_flash_operation_complete e m1) as [r m2]. simpl in Hb.
    destruct (background_processing fuel m2) as [m3|] eqn:H3; [|discriminate].
    assert (HP3 : session_flags_ok m3).
    { assert (HP2 : session_flags_ok m2)
        by (unfold session_flags_ok, session_cleared in *; rewrite Hb; exact HP1).
      clear HP1 HP H1 Hb.
      unfold background_processing, validate_application in H3. simpl in H3.
      flags_tac. }
    eapply process_packets_flags; [exact HP3|exact H].
  - injection H as <-. exact HP.
Qed.

Lemma reachable_session_flags m : reachable m -> session_flags_ok m.
Proof.
  intros (fuel & cs & Hrun).
  apply (run_preserves session_flags_ok run_call_flags fuel cs power_on m);
    [|exact Hrun].
  unfold session_flags_ok, session_cleared. simpl. split; [auto|discriminate].
Qed.

(** X19. The session fields follow the state.  In every machine
    reached by calls of the API whose packets fit a slot: in IDLE no
    session is active and [expected_seq] and [bytes_received] are 0; in
    DFU_ACTIVE a session is active. *)
Theorem session_flags_follow_state (m : machine) :
  reachable_fitting m -> session_flags_ok m.
Proof. intros H. apply reachable_session_flags, reachable_fitting_reachable, H. Qed.

Lemma session_flags_follow_state_witness : session_flags_ok dfu_machine.
Proof.
  apply (session_flags_follow_state dfu_machine).
  exists 4%nat, dfu_calls. split; [apply dfu_calls_fit|apply dfu_machine_reached].
Defined.

(** ** The flash double *)



(** ** What reaches the flash *)

(** X21. The flash is written by accepted DATA packets only.  Whatever
    the state and the type, the dispatch of a packet leaves the flash
    array and its busy flag as they were unless the packet is a DATA
    packet dispatched in DFU_ACTIVE with the expected sequence number
    while the flash is idle. *)
Theorem flash_written_only_by_accepted_data (fuel : nat) (pkt : packet_t)
    (seq packet_type : Z) (m m' : machine) :
  dispatch_packet fuel pkt seq packet_type m = Some m' ->
  state (bootloader m) <> STATE_DFU_ACTIVE
  \/ packet_type <> PKT_DATA
  \/ seq <> expected_seq (bootloader m)
  \/ flash_busy m = true ->
  mock_flash m' = mock_flash m /\ flash_busy m' = flash_busy m.
Proof.
  intros H Hnot. unfold dispatch_packet, handle_idle_packet, handle_dfu_packet,
    start_flash_write in H.
  break_some; enter_cases; subst; simpl;
    try (split; reflexivity);
    try (split; [reflexivity|assumption]);
    try match goal with
      | |- context [enter_state_actions ?s _] => destruct s; simpl; split; reflexivity
      end.
  all: exfalso;
    repeat match goal with
      | E : (_ =? _) = true |- _ => apply Z.eqb_eq in E
      end;
    intuition congruence.
Qed.

Lemma flash_written_only_by_accepted_data_witness :
  mock_flash (default power_on (dispatch_packet 2 zero_packet 7 PKT_DATA dfu_machine))
  = mock_flash dfu_machine
  /\ flash_busy (default power_on (dispatch_packet 2 zero_packet 7 PKT_DATA dfu_machine))
     = flash_busy dfu_machine.
Proof.
  apply (flash_written_only_by_accepted_data 2 zero_packet 7 PKT_DATA dfu_machine).
  - apply run_returned. vm_compute. reflexivity.
  - right. right. left. vm_compute. discriminate.
Defined.

Lemma dispatch_start_accepted (fuel : nat) (pkt : packet_t) (seq : Z) (m : machine) :
  state (bootloader m) = STATE_IDLE ->
  force_bootloader_mode (bootloader m) = false ->
  8 <= length pkt ->
  forallb is_byte (data pkt) = true ->
  0 < announced_size pkt <= MAX_APPLICATION_SIZE ->
  exists m',
    dispatch_packet (S fuel) pkt seq PKT_START_SESSION m = Some m'
    /\ wire m' = ACK :: wire m
    /\ state (bootloader m') = STATE_DFU_ACTIVE
    /\ flash_busy m' = flash_busy m
    /\ mock_flash m' = mock_flash m
    /\ expected_seq (bootloader m') = 1
    /\ bytes_received (bootloader m') = 0
    /\ total_size (bootloader m') = announced_size pkt
    /\ expected_crc (bootloader m') = announced_crc pkt.
Proof.
  intros Hs Hf Hl Hb Hsz. rewrite dispatch_by_state by reflexivity. rewrite Hs.
  unfold handle_idle_packet. simpl (PKT_START_SESSION =? PKT_START_SESSION). cbv iota.
  destruct (start_session_fields pkt Hb) as [Hsize Hcrc].
  rewrite Hf. simpl negb. simpl andb.
  destruct (Z.leb_spec 8 (length pkt)); [|lia].
  fields. rewrite Hsize, Hcrc.
  unfold MAX_APPLICATION_SIZE in Hsz.
  destruct (Z.ltb_spec 0 (announced_size pkt)); [|lia].
  destruct (Z.leb_spec (announced_size pkt) (1024 * 1024)); [|lia].
  simpl andb. cbv iota.
  rewrite enter_state_admissible by (simpl; rewrite Hs; reflexivity).
  eexists. split; [reflexivity|]. simpl. repeat split; reflexivity.
Qed.

(** X22. A session brings its bytes to the flash unchanged.  From IDLE
    with the flash idle, a START_SESSION that announces the size of
    [bytes], the DATA packet numbered 1 that carries [bytes] and an
    END_SESSION are each acknowledged; the supervisor is then in
    DFU_VERIFY and the image read back from the flash is [bytes]; the
    CRC kept for verification is the announced one. *)
Theorem session_round_trip (fuel : nat) (start finish : packet_t) (bytes : list Z)
    (seq0 seq2 : Z) (m : machine) :
  state (bootloader m) = STATE_IDLE ->
  force_bootloader_mode (bootloader m) = false ->
  flash_busy m = false ->
  8 <= length start ->
  forallb is_byte (data start) = true ->
  announced_size start = Z.of_nat (Datatypes.length bytes) ->
  0 < Z.of_nat (Datatypes.length bytes) <= MAX_PACKET_SIZE - 2 ->
  exists m1 m2 m3,
    dispatch_packet (S fuel) start seq0 PKT_START_SESSION m = Some m1
    /\ dispatch_packet (S fuel) (data_packet 1 bytes) 1 PKT_DATA m1 = Some m2
    /\ dispatch_packet (S fuel) finish seq2 PKT_END_SESSION m2 = Some m3
    /\ wire m3 = ACK :: ACK :: ACK :: wire m
    /\ state (bootloader m3) = STATE_DFU_VERIFY
    /\ image m3 = bytes
    /\ bytes_received (bootloader m3) = Z.of_nat (Datatypes.length bytes)
    /\ expected_crc (bootloader m3) = announced_crc start.
Proof.
  intros Hs Hf Hbusy Hl Hb Hsize Hlen. unfold MAX_PACKET_SIZE in Hlen.
  destruct (dispatch_start_accepted fuel start seq0 m Hs Hf Hl Hb)
    as (m1 & H1 & Hw1 & Hs1 & Hb1 & Hfl1 & He1 & Hr1 & Ht1 & Hc1).
  { rewrite Hsize. unfold MAX_APPLICATION_SIZE. lia. }
  assert (Hplen : length (data_packet 1 bytes) = Z.of_nat (Datatypes.length bytes) + 2)
    by (unfold data_packet, packet_of; cbn [length Datatypes.length]; lia).
  destruct (dispatch_accepted_data (S fuel) (data_packet 1 bytes) m1)
    as (m2 & H2 & Hw2 & Hs2 & _ & _ & Hr2 & Hi2 & Ht2 & Hc2).
  { exact Hs1. }
  { rewrite Hb1. exact Hbusy. }
  { lia. }
  { rewrite Hplen. unfold data_packet, packet_of. cbn [data Datatypes.length]. lia. }
  { lia. }
  { rewrite Hr1, Hplen. unfold MAX_APPLICATION_SIZE. lia. }
  rewrite He1 in H2.
  destruct (dispatch_end_session fuel finish seq2 m2 Hs2)
    as (m3 & H3 & _ & Hr3 & _ & _ & Hfl3 & Hc3 & Hdone & _).
  destruct Hdone as (Hw3 & Hs3 & _).
  { rewrite Hr2, Ht2, Hr1, Ht1, Hplen, Hsize. lia. }
  exists m1, m2, m3.
  split; [exact H1|]. split; [exact H2|]. split; [exact H3|].
  split; [rewrite Hw3, Hw2, Hw1; reflexivity|]. split; [exact Hs3|].
  assert (Hpay : payload (data_packet 1 bytes) = bytes).
  { unfold payload. rewrite Hplen. unfold data_packet, packet_of. cbn [data skipn].
    replace (Z.to_nat (Z.of_nat (Datatypes.length bytes) + 2 - 2))
      with (Datatypes.length bytes) by lia.
    apply firstn_all. }
  assert (Hi1 : image m1 = []) by (unfold image; rewrite Hr1; reflexivity).
  split.
  - unfold image. rewrite Hfl3, Hr3. fold (image m2).
    rewrite Hi2, Hi1, Hpay. reflexivity.
  - split; [rewrite Hr3, Hr2, Hr1, Hplen; lia|].
    rewrite Hc3, Hc2, Hc1. reflexivity.
Qed.

Lemma session_round_trip_witness :
  exists m1 m2 m3,
    dispatch_packet 1 (packet_of [0x00; 0x01; 0x00; 0x00; 0x00; 0x03; 0x12; 0x34]) 0
      PKT_START_SESSION idle_machine = Some m1
    /\ dispatch_packet 1 (data_packet 1 [0xAA; 0xBB; 0xCC]) 1 PKT_DATA m1 = Some m2
    /\ dispatch_packet 1 (packet_of [0x02; 0x03]) 2 PKT_END_SESSION m2 = Some m3
    /\ wire m3 = ACK :: ACK :: ACK :: wire idle_machine
    /\ state (bootloader m3) = STATE_DFU_VERIFY
    /\ image m3 = [0xAA; 0xBB; 0xCC]
    /\ bytes_received (bootloader m3) = Z.of_nat (Datatypes.length [0xAA; 0xBB; 0xCC])
    /\ expected_crc (bootloader m3)
       = announced_crc (packet_of [0x00; 0x01; 0x00; 0x00; 0x00; 0x03; 0x12; 0x34]).
Proof.
  apply (session_round_trip 0
           (packet_of [0x00; 0x01; 0x00; 0x00; 0x00; 0x03; 0x12; 0x34])
           (packet_of [0x02; 0x03]) [0xAA; 0xBB; 0xCC] 0 2 idle_machine).
  - reflexivity.
  - reflexivity.
  - reflexivity.
  - vm_compute. discriminate.
  - reflexivity.
  - reflexivity.
  - vm_compute. split; [reflexivity|discriminate].
Defined.

(** * The first revision *)

Ltac simple_fields :=
  cbn beta iota zeta delta
    [
      Simple.upd Simple.set_flash Simple.emit Simple.send_ack_packet
      Simple.send_nack_packet Simple.bootloader Simple.flash_busy Simple.mock_flash
      Simple.wire fst snd Simple.state Simple.buffer Simple.head Simple.tail
      Simple.count Simple.expected_seq Simple.bytes_received Simple.total_size
      Simple.session_active Simple.packets_processed Simple.packets_dropped
      Simple.set_state Simple.set_buffer Simple.set_head Simple.set_tail
      Simple.set_count Simple.set_expected_seq Simple.set_bytes_received
      Simple.set_total_size Simple.set_session_active Simple.set_packets_processed
      Simple.set_packets_dropped
    ].

Lemma nth_memcpy (dst src : list Z) (n : Z) (i : nat) :
  (i < Z.to_nat n <= Datatypes.length src)%nat ->
  nth i (memcpy dst src n) 0 = nth i src 0.
Proof.
  intros H. unfold memcpy.
  rewrite app_nth1 by (rewrite length_firstn; lia).
  rewrite nth_firstn. destruct (Nat.ltb_spec i (Z.to_nat n)); [reflexivity|lia].
Qed.

Lemma simple_flash_poll_frame e m :
  Simple.bootloader (snd (Simple.is_flash_operation_complete e m)) = Simple.bootloader m
  /\ Simple.wire (snd (Simple.is_flash_operation_complete e m)) = Simple.wire m.
Proof.
  unfold Simple.is_flash_operation_complete.
  destruct (negb (Simple.flash_busy m)); [auto|].
  destruct (2000 <? e); auto.
Qed.

(** What the dispatch of one packet leaves alone, and the one frame it
    sends. *)
Lemma simple_dispatch_frame pkt seq packet_type m :
  Simple.buffer (Simple.bootloader (Simple.dispatch_packet pkt seq packet_type m))
  = Simple.buffer (Simple.bootloader m)
  /\ Simple.count (Simple.bootloader (Simple.dispatch_packet pkt seq packet_type m))
     = Simple.count (Simple.bootloader m)
  /\ Simple.tail (Simple.bootloader (Simple.dispatch_packet pkt seq packet_type m))
     = Simple.tail (Simple.bootloader m)
  /\ exists f,
       Simple.wire (Simple.dispatch_packet pkt seq packet_type m) = f :: Simple.wire m
       /\ (f = NACK 0xFF -> Simple.state (Simple.bootloader m) = Simple.STATE_ERROR).
Proof.
  unfold Simple.dispatch_packet, Simple.start_flash_write.
  destruct (Simple.state (Simple.bootloader m));
    repeat match goal with
      | |- context [if ?c then _ else _] => destruct c
      end;
    simple_fields;
    (split; [reflexivity|]; split; [reflexivity|]; split; [reflexivity|]);
    eexists; (split; [reflexivity|]); intros H; first [discriminate H|reflexivity].
Qed.

Lemma simple_process_packet_frame m :
  exists f,
    Simple.wire (Simple.process_packet m) = f :: Simple.wire m
    /\ Simple.count (Simple.bootloader (Simple.process_packet m))
       = Simple.count (Simple.bootloader m) - 1
    /\ (f = NACK 0xFF -> Simple.state (Simple.bootloader m) = Simple.STATE_ERROR).
Proof.
  unfold Simple.process_packet. simple_fields.
  match goal with |- context [Simple.dispatch_packet ?p ?s ?t ?x] =>
    destruct (simple_dispatch_frame p s t x) as (_ & Hc & _ & f & Hw & Hf)
  end.
  exists f. rewrite Hw, Hc. simple_fields. auto.
Qed.

Lemma simple_process_packets_frames n m :
  (Z.to_nat (Simple.count (Simple.bootloader m)) < n)%nat ->
  exists m' fs,
    Simple.process_packets n m = Some m'
    /\ Simple.wire m' = fs ++ Simple.wire m
    /\ Simple.count (Simple.bootloader m')
       = Simple.count (Simple.bootloader m) - Z.of_nat (Datatypes.length fs).
Proof.
  revert m. induction n as [|n IH]; intros m Hn; [lia|]. simpl.
  destruct (Z.ltb_spec 0 (Simple.count (Simple.bootloader m))) as [Hpos|Hz];
    [|exists m, []; split; [reflexivity|]; split; [reflexivity|simpl; lia]].
  destruct (negb _);
    [exists m, []; split; [reflexivity|]; split; [reflexivity|simpl; lia]|].
  destruct (simple_process_packet_frame m) as (f & Hw & Hc & _).
  destruct (IH (Simple.process_packet m)) as (m' & fs & Hp & Hw' & Hc');
    [rewrite Hc; lia|].
  exists m', (fs ++ [f]). split; [exact Hp|].
  rewrite Hw', Hw, Hc', Hc, <- app_assoc, length_app. simpl.
  split; [reflexivity|lia].
Qed.

(** X23. The cycle of the first revision always returns, and answers
    every packet it takes.  With a bound above the number of packets
    waiting the cycle returns; the frames it sent are as many as the
    packets it took off the queue, one per packet, whatever the state
    and the type. *)
Theorem simple_cycle_answers_each_packet (n : nat) (e : Z) (m : Simple.machine) :
  (Z.to_nat (Simple.count (Simple.bootloader m)) < n)%nat ->
  exists m' fs,
    Simple.bootloader_process_cycle n e m = Some m'
    /\ Simple.wire m' = fs ++ Simple.wire m
    /\ Simple.count (Simple.bootloader m')
       = Simple.count (Simple.bootloader m) - Z.of_nat (Datatypes.length fs).
Proof.
  intros Hn. unfold Simple.bootloader_process_cycle.
  destruct (simple_flash_poll_frame e m) as (Hb & Hw).
  destruct (Simple.is_flash_operation_complete e m) as [r m1]. simpl in Hb, Hw.
  destruct (simple_process_packets_frames n m1) as (m' & fs & Hp & Hw' & Hc');
    [rewrite Hb; exact Hn|].
  exists m', fs. rewrite Hp, Hw', Hc', Hb, Hw. auto.
Qed.

Lemma simple_cycle_answers_each_packet_witness :
  exists m' fs,
    Simple.bootloader_process_cycle 2 0
      (snd (Simple.bootloader_receive_packet [0x00; 0x03] 2 simple_dfu_machine))
    = Some m'
    /\ Simple.wire m'
       = fs ++ Simple.wire
                 (snd (Simple.bootloader_receive_packet [0x00; 0x03] 2
                         simple_dfu_machine))
    /\ Simple.count (Simple.bootloader m')
       = Simple.count
           (Simple.bootloader
              (snd (Simple.bootloader_receive_packet [0x00; 0x03] 2
                      simple_dfu_machine)))
         - Z.of_nat (Datatypes.length fs).
Proof.
  apply (simple_cycle_answers_each_packet 2 0
           (snd (Simple.bootloader_receive_packet [0x00; 0x03] 2 simple_dfu_machine))).
  vm_compute. lia.
Defined.

Lemma simple_run_preserves (P : Simple.machine -> Prop) :
  (forall n c m m', P m -> Simple.run_call n c m = Some m' -> P m') ->
  forall n cs m m', P m -> Simple.run n cs m = Some m' -> P m'.
Proof.
  intros Hstep n cs. induction cs as [|c cs IH]; intros m m' HP Hrun; simpl in Hrun.
  - injection Hrun as <-. exact HP.
  - destruct (Simple.run_call n c m) as [m1|] eqn:Hc; [|discriminate].
    eapply IH; [|exact Hrun]. eapply Hstep; eassumption.
Qed.

Lemma simple_dispatch_well_formed pkt seq packet_type m :
  Simple.well_formed m ->
  Simple.well_formed (Simple.dispatch_packet pkt seq packet_type m).
Proof.
  unfold Simple.well_formed, Simple.dispatch_packet, Simple.start_flash_write.
  intros (Hne & Hact & Hw).
  destruct (Simple.state (Simple.bootloader m)) eqn:Hs; [| |contradiction];
    repeat match goal with
      | |- context [if ?c then _ else _] => destruct c
      end;
    simple_fields; rewrite ?Hs;
    (split; [discriminate|]);
    (split; [try (split; intros; congruence); tauto|]);
    intros [Hin|Hin]; first [discriminate Hin|exact (Hw Hin)].
Qed.

Lemma simple_well_formed_frame m m' :
  Simple.state (Simple.bootloader m') = Simple.state (Simple.bootloader m) ->
  Simple.session_active (Simple.bootloader m')
  = Simple.session_active (Simple.bootloader m) ->
  Simple.wire m' = Simple.wire m ->
  Simple.well_formed m -> Simple.well_formed m'.
Proof. unfold Simple.well_formed. intros -> -> ->. exact (fun x => x). Qed.

Lemma simple_process_packet_well_formed m :
  Simple.well_formed m -> Simple.well_formed (Simple.process_packet m).
Proof.
  intros HP. unfold Simple.process_packet.
  eapply simple_well_formed_frame;
    [| | |apply simple_dispatch_well_formed;
          eapply simple_well_formed_frame; [| | |exact HP]];
    reflexivity.
Qed.

Lemma simple_process_packets_well_formed n m m' :
  Simple.well_formed m -> Simple.process_packets n m = Some m' -> Simple.well_formed m'.
Proof.
  revert m. induction n as [|n IH]; intros m HP H; simpl in H; [discriminate|].
  destruct (0 <? Simple.count (Simple.bootloader m)); [|injection H as <-; exact HP].
  destruct (negb _); [injection H as <-; exact HP|].
  apply (IH (Simple.process_packet m)); [|exact H].
  apply simple_process_packet_well_formed, HP.
Qed.

Lemma simple_run_call_well_formed n c m m' :
  Simple.well_formed m -> Simple.run_call n c m = Some m' -> Simple.well_formed m'.
Proof.
  intros HP H. destruct c as [|src|e]; simpl in H.
  - injection H as <-. destruct HP as (_ & _ & Hw).
    unfold Simple.well_formed. simpl.
    split; [discriminate|]. split; [split; discriminate|exact Hw].
  - injection H as <-. unfold Simple.bootloader_receive_packet.
    destruct (BUFFER_SIZE <=? _);
      (eapply simple_well_formed_frame; [| | |exact HP]); reflexivity.
  - unfold Simple.bootloader_process_cycle in H.
    destruct (simple_flash_poll_frame e m) as (Hb & Hw).
    destruct (Simple.is_flash_operation_complete e m) as [r m1]. simpl in Hb, Hw.
    eapply simple_process_packets_well_formed; [|exact H].
    eapply simple_well_formed_frame; [| | |exact HP]; [rewrite Hb| rewrite Hb|exact Hw];
      reflexivity.
Qed.

(** X24. In the first revision ERROR is never entered.  In every
    machine reached by calls of the API whose packets fit a slot the
    state is IDLE or DFU_ACTIVE, a session is active exactly in
    DFU_ACTIVE, and no NACK(0xFF) was ever sent: the [default] branch
    of the state switch is dead code. *)
Theorem simple_error_is_unreachable (m : Simple.machine) :
  Simple.reachable_fitting m ->
  Simple.state (Simple.bootloader m) <> Simple.STATE_ERROR
  /\ (Simple.session_active (Simple.bootloader m) = true
      <-> Simple.state (Simple.bootloader m) = Simple.STATE_DFU_ACTIVE)
  /\ ~ In (NACK 0xFF) (Simple.wire m).
Proof.
  intros (n & cs & _ & Hrun).
  apply (simple_run_preserves Simple.well_formed simple_run_call_well_formed
           n cs Simple.power_on m); [|exact Hrun].
  unfold Simple.well_formed. simpl.
  split; [discriminate|]. split; [split; discriminate|exact (fun x => x)].
Qed.

Lemma simple_dfu_machine_reached :
  Simple.run 2 simple_session_calls Simple.power_on = Some simple_dfu_machine.
Proof. vm_compute. reflexivity. Qed.

Lemma simple_error_is_unreachable_witness :
  Simple.state (Simple.bootloader simple_dfu_machine) <> Simple.STATE_ERROR
  /\ (Simple.session_active (Simple.bootloader simple_dfu_machine) = true
      <-> Simple.state (Simple.bootloader simple_dfu_machine) = Simple.STATE_DFU_ACTIVE)
  /\ ~ In (NACK 0xFF) (Simple.wire simple_dfu_machine).
Proof.
  apply (simple_error_is_unreachable simple_dfu_machine).
  exists 2%nat, simple_session_calls.
  split; [reflexivity|apply simple_dfu_machine_reached].
Defined.

(** X25. END_SESSION in the first revision.  In DFU_ACTIVE, when every
    announced byte has been received the packet is acknowledged and the
    supervisor returns to IDLE with no session active; otherwise it is
    refused with NACK(0x08) and nothing else changes: the session stays
    open in DFU_ACTIVE and can go on. *)
Theorem simple_end_session (pkt : packet_t) (seq : Z) (m : Simple.machine) :
  Simple.state (Simple.bootloader m) = Simple.STATE_DFU_ACTIVE ->
  (Simple.bytes_received (Simple.bootloader m) = Simple.total_size (Simple.bootloader m) ->
   Simple.wire (Simple.dispatch_packet pkt seq PKT_END_SESSION m) = ACK :: Simple.wire m
   /\ Simple.state (Simple.bootloader (Simple.dispatch_packet pkt seq PKT_END_SESSION m))
      = Simple.STATE_IDLE
   /\ Simple.session_active
        (Simple.bootloader (Simple.dispatch_packet pkt seq PKT_END_SESSION m)) = false)
  /\ (Simple.bytes_received (Simple.bootloader m)
      <> Simple.total_size (Simple.bootloader m) ->
      Simple.dispatch_packet pkt seq PKT_END_SESSION m = Simple.send_nack_packet 0x08 m).
Proof.
  intros Hs. unfold Simple.dispatch_packet. rewrite Hs.
  simpl (PKT_END_SESSION =? _). cbv iota.
  destruct (Z.eqb_spec (Simple.bytes_received (Simple.bootloader m))
              (Simple.total_size (Simple.bootloader m))) as [He|He].
  - split; [intros _; repeat split; reflexivity|contradiction].
  - split; [contradiction|reflexivity].
Qed.

Lemma simple_end_session_witness :
  (Simple.bytes_received (Simple.bootloader simple_dfu_machine)
   = Simple.total_size (Simple.bootloader simple_dfu_machine) ->
   Simple.wire (Simple.dispatch_packet zero_packet 0 PKT_END_SESSION simple_dfu_machine)
   = ACK :: Simple.wire simple_dfu_machine
   /\ Simple.state
        (Simple.bootloader
           (Simple.dispatch_packet zero_packet 0 PKT_END_SESSION simple_dfu_machine))
      = Simple.STATE_IDLE
   /\ Simple.session_active
        (Simple.bootloader
           (Simple.dispatch_packet zero_packet 0 PKT_END_SESSION simple_dfu_machine))
      = false)
  /\ (Simple.bytes_received (Simple.bootloader simple_dfu_machine)
      <> Simple.total_size (Simple.bootloader simple_dfu_machine) ->
      Simple.dispatch_packet zero_packet 0 PKT_END_SESSION simple_dfu_machine
      = Simple.send_nack_packet 0x08 simple_dfu_machine).
Proof.
  apply (simple_end_session zero_packet 0 simple_dfu_machine). vm_compute. reflexivity.
Defined.

Lemma simple_process_single n m :
  Simple.count (Simple.bootloader m) = 1 ->
  valid (Simple.buffer (Simple.bootloader m)
           !!! Z.to_nat (Simple.tail (Simple.bootloader m))) = true ->
  Simple.process_packets (S (S n)) m = Some (Simple.process_packet m).
Proof.
  intros Hc Hv. cbn [Simple.process_packets]. rewrite Hc, Hv.
  destruct (simple_process_packet_frame m) as (f & _ & Hc1 & _).
  rewrite Hc1, Hc. reflexivity.
Qed.

(** X26. In the first revision a session can be opened right after
    initialisation.  [bootloader_init], the enqueue of a START_SESSION
    packet of at least 4 and at most [MAX_PACKET_SIZE] bytes and one
    cycle leave the supervisor in DFU_ACTIVE with the packet
    acknowledged, [total_size] the 16-bit number in bytes 2 and 3 (most
    significant first, with no check of its value), [expected_seq] 1,
    no byte received and the queue empty. *)
Theorem simple_session_opens_after_init (n : nat) (e : Z) (src : list Z)
    (m : Simple.machine) :
  nth 1 src 0 = PKT_START_SESSION ->
  (4 <= Datatypes.length src)%nat ->
  Z.of_nat (Datatypes.length src) <= MAX_PACKET_SIZE ->
  forallb is_byte src = true ->
  exists m',
    Simple.run (S (S n)) [Simple.Init; Simple.Receive src; Simple.Cycle e] m = Some m'
    /\ Simple.wire m' = ACK :: Simple.wire m
    /\ Simple.state (Simple.bootloader m') = Simple.STATE_DFU_ACTIVE
    /\ Simple.session_active (Simple.bootloader m') = true
    /\ Simple.total_size (Simple.bootloader m') = nth 2 src 0 * 2 ^ 8 + nth 3 src 0
    /\ Simple.expected_seq (Simple.bootloader m') = 1
    /\ Simple.bytes_received (Simple.bootloader m') = 0
    /\ Simple.count (Simple.bootloader m') = 0.
Proof.
  intros Ht Hl _ Hb.
  set (len := Z.of_nat (Datatypes.length src)).
  set (pkt := {| data := memcpy (data zero_packet) src len; length := len;
                 valid := true |}).
  set (m2 := snd (Simple.bootloader_receive_packet src len (Simple.bootloader_init m))).
  assert (H2 : Simple.bootloader m2
               = Simple.set_count 1
                   (Simple.set_head 1
                      (Simple.set_buffer
                         (<[0%nat := pkt]> (repeat zero_packet (Z.to_nat BUFFER_SIZE)))
                         Simple.zero_bootloader))) by reflexivity.
  assert (Hw2 : Simple.wire m2 = Simple.wire m) by reflexivity.
  change (Simple.run (S (S n)) [Simple.Init; Simple.Receive src; Simple.Cycle e] m)
    with (m3 <- Simple.bootloader_process_cycle (S (S n)) e m2 ;; Some m3).
  clearbody m2. unfold Simple.bootloader_process_cycle.
  destruct (simple_flash_poll_frame e m2) as (Hb3 & Hw3).
  destruct (Simple.is_flash_operation_complete e m2) as [r m3]. simpl in Hb3, Hw3.
  rewrite H2 in Hb3. rewrite Hw2 in Hw3. clear H2 Hw2 m2.
  rewrite simple_process_single by (rewrite Hb3; reflexivity).
  eexists. split; [reflexivity|].
  assert (H1 : nth 1 (data pkt) 0 = PKT_START_SESSION)
    by (unfold pkt; cbn [data]; rewrite nth_memcpy by lia; exact Ht).
  assert (Hlen : (4 <=? length pkt) = true) by (apply Z.leb_le; unfold pkt, len; simpl; lia).
  assert (Hsize : wrap32 (Z.lor (Z.shiftl (nth 2 (data pkt) 0) 8) (nth 3 (data pkt) 0))
                  = nth 2 src 0 * 2 ^ 8 + nth 3 src 0).
  { unfold pkt. cbn [data]. rewrite !nth_memcpy by lia.
    pose proof (nth_is_byte _ 2 Hb) as B2. pose proof (nth_is_byte _ 3 Hb) as B3.
    rewrite Z.shiftl_mul_pow2 by lia.
    rewrite (lor_multiple _ (nth 3 src 0) 8);
      [|lia|change (2 ^ 8) with 256; lia|apply Z.mod_mul; lia].
    apply wrap32_small. change (2 ^ 8) with 256. change (2 ^ 32) with 4294967296. lia. }
  unfold Simple.process_packet. simple_fields. rewrite Hb3. simple_fields.
  change (Simple.tail Simple.zero_bootloader) with 0.
  change (Z.to_nat 0) with 0%nat.
  change (<[0%nat:=pkt]> (repeat zero_packet (Z.to_nat BUFFER_SIZE)) !!! 0%nat) with pkt.
  unfold Simple.dispatch_packet. simple_fields. rewrite Hb3. simple_fields.
  change (Simple.state Simple.zero_bootloader) with Simple.STATE_IDLE. cbv iota.
  rewrite H1, Hlen. simpl (PKT_START_SESSION =? PKT_START_SESSION). cbn [andb].
  simple_fields. rewrite Hsize, Hw3, ?Hb3.
  repeat split; reflexivity.
Qed.

Lemma simple_session_opens_after_init_witness :
  exists m',
    Simple.run 2 [Simple.Init; Simple.Receive [0x00; 0x01; 0x02; 0x00]; Simple.Cycle 0]
      Simple.power_on = Some m'
    /\ Simple.wire m' = ACK :: Simple.wire Simple.power_on
    /\ Simple.state (Simple.bootloader m') = Simple.STATE_DFU_ACTIVE
    /\ Simple.session_active (Simple.bootloader m') = true
    /\ Simple.total_size (Simple.bootloader m')
       = nth 2 [0x00; 0x01; 0x02; 0x00] 0 * 2 ^ 8 + nth 3 [0x00; 0x01; 0x02; 0x00] 0
    /\ Simple.expected_seq (Simple.bootloader m') = 1
    /\ Simple.bytes_received (Simple.bootloader m') = 0
    /\ Simple.count (Simple.bootloader m') = 0.
Proof.
  apply (simple_session_opens_after_init 0 0 [0x00; 0x01; 0x02; 0x00] Simple.power_on).
  - reflexivity.
  - simpl. lia.
  - vm_compute. discriminate.
  - reflexivity.
Defined.
